(** * Harvey analytics: derivation engine and multi-grain aggregator

    A shallow embedding of [python/analysis/model_results_simulation.py]
    (the functions [simulate_user_engagement], [simulate_cohort_analysis],
    [simulate_user_acquisition_metrics], [simulate_user_acquisition_base]
    and [simulate_event_performance_metrics]) and of the consistency and
    orphaned-user checks of [python/analysis/harvey_data_quality_analysis.py],
    together with the pandas operations these functions rely on.

    Modelling conventions:
    - a pandas frame is a list of column labels plus a list of typed
      records; the frames that the union step selects from, assigns to and
      concatenates are lists of labels plus rows of untyped cells ([cell]),
      so that a column a frame lacks differs from a cell that is [None];
    - Python exceptions are values of [exn], carried by the [result] monad;
    - a float64 cell is NaN, an infinity or the rational value of a double
      ([pyfloat]); every arithmetic operation rounds its exact result to
      the 53 significant bits of binary64, ties to even ([round_float64]).
      The exponent range is not bounded and the sign of a zero is not kept:
      the numbers derived from 64-bit integer data stay far from overflow
      and underflow, and [-0.0] compares equal to [0.0].  [NaN] is the
      null of a numeric column;
    - an int64 cell is an integer; the sum of an int64 data column wraps
      modulo 2^64 ([sum_int64]); counts of rows are at most the number of
      rows a frame holds and do not wrap;
    - a timestamp is a number of nanoseconds since the epoch; a daily,
      weekly or monthly period is its ordinal, which orders as the date or
      the text the source stores;
    - the cells that may be null are [event_type], [user_title] and
      [feedback_score]; identifiers, timestamps and [num_docs] are present;
    - the loaded frames are a [Store] that the simulation functions thread
      through, because the Python code assigns columns in place. *)

From Stdlib Require Import ZArith QArith Qround Qabs Qpower Lqa.
From Stdlib Require Import List String Bool Lia.
From Stdlib Require Import OrdersEx Sorted RelationClasses.
Import ListNotations.

Local Open Scope string_scope.
Local Open Scope list_scope.
Local Open Scope Z_scope.

(* ================================================================== *)
(** ** Exceptions and the result monad *)

Inductive exn : Type :=
| IndexError                 (* [.iloc[0]] on an empty selection *)
| KeyError (label : string). (* a column label that the frame lacks *)

Inductive result (A : Type) : Type :=
| Ok (a : A)
| Raise (e : exn).

Arguments Ok {A} a.
Arguments Raise {A} e.

Definition bind {A B : Type} (m : result A) (k : A -> result B) : result B :=
  match m with
  | Ok a => k a
  | Raise e => Raise e
  end.

Notation "x <- m ;; k" := (bind m (fun x => k))
  (at level 61, m at next level, right associativity).

(** A [for] loop whose body appends one record and may raise. *)
Fixpoint for_each {A B : Type} (body : A -> result B) (xs : list A)
  : result (list B) :=
  match xs with
  | [] => Ok []
  | x :: xs' => r <- body x ;; rs <- for_each body xs' ;; Ok (r :: rs)
  end.

(** Two nested [for] loops appending to one list. *)
Fixpoint for_each_flat {A B : Type} (body : A -> result (list B)) (xs : list A)
  : result (list B) :=
  match xs with
  | [] => Ok []
  | x :: xs' => r <- body x ;; rs <- for_each_flat body xs' ;; Ok (r ++ rs)
  end.

(* ================================================================== *)
(** ** Floating-point cells *)

Inductive pyfloat : Type :=
| NaN
| Inf (negative : bool)
| Fin (q : Q).

Definition Qneg_bool (q : Q) : bool := Qnum q <? 0.
Definition Qzero_bool (q : Q) : bool := Qnum q =? 0.

(** Round half to even, as [numpy.rint]. *)
Definition rint (q : Q) : Z :=
  let f := Qfloor q in
  let r := (q - inject_Z f)%Q in
  match (r ?= 1 # 2)%Q with
  | Lt => f
  | Gt => f + 1
  | Eq => if Z.even f then f else f + 1
  end.

Definition pow2 (e : Z) : Q := (2 ^ e)%Q.

(** The exponent of the binade of a positive number:
    [2^(ilog2 q) <= q < 2^(ilog2 q + 1)]. *)
Definition ilog2 (q : Q) : Z :=
  let k := Z.log2 (Qnum q) - Z.log2 (Zpos (Qden q)) in
  if Qle_bool (pow2 k) q then k else k - 1.

(** The double nearest to [q], ties to even: [q] is scaled so that its
    integer part has 53 bits, rounded to an integer and scaled back. *)
Definition round_float64 (q : Q) : Q :=
  if Qzero_bool q then 0%Q
  else
    let e := ilog2 (Qabs q) - 52 in
    Qred (inject_Z (rint (q / pow2 e)) * pow2 e).

(** An int64 as a float64. *)
Definition of_int (z : Z) : pyfloat := Fin (round_float64 (inject_Z z)).

(** IEEE subtraction, multiplication and division: the exact result,
    rounded. *)
Definition fsub (x y : pyfloat) : pyfloat :=
  match x, y with
  | NaN, _ | _, NaN => NaN
  | Fin a, Fin b => Fin (round_float64 (a - b)%Q)
  | Inf s, Fin _ => Inf s
  | Fin _, Inf s => Inf (negb s)
  | Inf s, Inf t => if Bool.eqb s t then NaN else Inf s
  end.

Definition fmul (x y : pyfloat) : pyfloat :=
  match x, y with
  | NaN, _ | _, NaN => NaN
  | Fin a, Fin b => Fin (round_float64 (a * b)%Q)
  | Inf s, Fin b => if Qzero_bool b then NaN else Inf (xorb s (Qneg_bool b))
  | Fin a, Inf s => if Qzero_bool a then NaN else Inf (xorb s (Qneg_bool a))
  | Inf s, Inf t => Inf (xorb s t)
  end.

Definition fdiv (x y : pyfloat) : pyfloat :=
  match x, y with
  | NaN, _ | _, NaN => NaN
  | Fin a, Fin b =>
      if Qzero_bool b
      then (if Qzero_bool a then NaN else Inf (Qneg_bool a))
      else Fin (round_float64 (a / b)%Q)
  | Inf s, Fin b => Inf (xorb s (Qneg_bool b))
  | Fin _, Inf _ => Fin 0%Q
  | Inf _, Inf _ => NaN
  end.

(** [x >= c]: every comparison with NaN is false. *)
Definition fge (x : pyfloat) (c : Q) : bool :=
  match x with
  | NaN => false
  | Inf s => negb s
  | Fin q => Qle_bool c q
  end.

(** [.round(2)] / [round(x, 2)] as numpy computes it: the double [x * 100],
    rounded to an integer, divided by the double [100]. *)
Definition round2 (x : pyfloat) : pyfloat :=
  match fmul x (Fin 100) with
  | Fin t => fdiv (Fin (inject_Z (rint t))) (Fin 100)
  | other => other
  end.

(* ================================================================== *)
(** ** Timestamps and periods *)

Definition Timestamp : Type := Z.

Definition ns_per_day : Z := 86400 * 1000000000.

(** [Timestamp.date()]: the day number since 1970-01-01. *)
Definition date_of (t : Timestamp) : Z := t / ns_per_day.

(** [(a - b).days]: the day component of a Timedelta, rounded towards
    minus infinity. *)
Definition timedelta_days (a b : Timestamp) : Z := (a - b) / ns_per_day.

(** [to_period('W')]: weeks run from Monday to Sunday; 1970-01-01 is a
    Thursday.  The source stores [str(period)], whose text
    (start/end in ISO form) orders as the week's ordinal does. *)
Definition to_period_W (t : Timestamp) : Z := (date_of t + 3) / 7.

(** Civil year and month of a day number. *)
Definition civil_year_month (d : Z) : Z * Z :=
  let z := d + 719468 in
  let era := z / 146097 in
  let doe := z - era * 146097 in
  let yoe := (doe - doe / 1460 + doe / 36524 - doe / 146096) / 365 in
  let doy := doe - (365 * yoe + yoe / 4 - yoe / 100) in
  let mp := (5 * doy + 2) / 153 in
  let m := if mp <? 10 then mp + 3 else mp - 9 in
  let y := yoe + era * 400 in
  (if m <=? 2 then y + 1 else y, m).

(** [to_period('M')], as the ordinal [12 * year + (month - 1)]; the text
    [YYYY-MM] that the source stores orders the same way. *)
Definition to_period_M (t : Timestamp) : Z :=
  let '(y, m) := civil_year_month (date_of t) in 12 * y + (m - 1).

(** [pd.to_datetime] applied to a column that is already parsed. *)
Definition to_datetime (t : Timestamp) : Timestamp := t.

(* ================================================================== *)
(** ** The three input collections *)

Record User : Type := mkUser {
  u_user_id : Z;
  u_user_created_date : Timestamp;
  u_user_title : option string        (* None: the cell is null *)
}.

Record Firm : Type := mkFirm {
  f_firm_id : Z;
  f_firm_created_date : Timestamp;
  f_firm_size : Z;
  f_arr_in_thousands : Z
}.

Record Event : Type := mkEvent {
  e_event_created_at : Timestamp;
  e_firm_id : Z;
  e_user_id : Z;
  e_event_type : option string;       (* None: the cell is null *)
  e_num_docs : Z;
  e_feedback_score : option Z         (* None: no feedback given *)
}.

(** A frame: its column labels and its rows. *)
Record Frame (R : Type) : Type := mkFrame {
  columns : list string;
  records : list R
}.

Arguments mkFrame {R} columns records.
Arguments columns {R} f.
Arguments records {R} f.

Definition has_column {R : Type} (df : Frame R) (c : string) : bool :=
  existsb (String.eqb c) (columns df).

(** [df[c] = ...]: the label is appended unless the frame has it already;
    [upd] rewrites the rows. *)
Definition assign_column {R : Type} (c : string) (upd : R -> R) (df : Frame R)
  : Frame R :=
  {| columns := if has_column df c then columns df else columns df ++ [c];
     records := map upd (records df) |}.

(** [pd.DataFrame(list_of_dicts)]: the labels are the keys of the
    dictionaries, so an empty list gives a frame without columns. *)
Definition DataFrame_of_dicts {R : Type} (keys : list string) (data : list R)
  : Frame R :=
  {| columns := match data with [] => [] | _ :: _ => keys end;
     records := data |}.

(** The first label of [keys] that the frame lacks, if any. *)
Fixpoint missing_label {R : Type} (df : Frame R) (keys : list string)
  : option string :=
  match keys with
  | [] => None
  | k :: ks => if has_column df k then missing_label df ks else Some k
  end.

Definition require_columns {R : Type} (df : Frame R) (keys : list string)
  : result unit :=
  match missing_label df keys with
  | None => Ok tt
  | Some k => Raise (KeyError k)
  end.

(** What [load_harvey_data] returns. *)
Record Store : Type := mkStore {
  users_df : Frame User;
  firms_df : Frame Firm;
  events_df : Frame Event
}.

Definition users_columns : list string :=
  ["user_id"; "user_created_date"; "user_title"].
Definition firms_columns : list string :=
  ["firm_id"; "firm_created_date"; "firm_size"; "arr_in_thousands"].
Definition events_columns : list string :=
  ["event_created_at"; "firm_id"; "user_id"; "event_type"; "num_docs";
   "feedback_score"].

Definition load_harvey_data (us : list User) (fs : list Firm) (es : list Event)
  : Store :=
  {| users_df := mkFrame users_columns us;
     firms_df := mkFrame firms_columns fs;
     events_df := mkFrame events_columns es |}.

(* ================================================================== *)
(** ** Series helpers *)

(** [.iloc[0]] *)
Definition iloc0 {A : Type} (l : list A) : result A :=
  match l with
  | [] => Raise IndexError
  | x :: _ => Ok x
  end.

(** [.unique()]: distinct values in order of first appearance. *)
Fixpoint unique (l : list Z) : list Z :=
  match l with
  | [] => []
  | x :: xs => x :: filter (fun y => negb (y =? x)) (unique xs)
  end.

(** [.nunique()] *)
Definition nunique (l : list Z) : Z := Z.of_nat (List.length (unique l)).

Definition len {A : Type} (l : list A) : Z := Z.of_nat (List.length l).

(** [.sum()] of a column of 0/1 flags: such a sum is at most the number
    of rows, and a frame cannot hold 2^63 rows, so no addition wraps.  It
    is also the sum the properties are stated with. *)
Definition sum (l : list Z) : Z := fold_right Z.add 0 l.

(** The int64 that an addition leaves when its result is out of range. *)
Definition wrap_int64 (z : Z) : Z := (z + 2 ^ 63) mod 2 ^ 64 - 2 ^ 63.

(** [.sum()] of an int64 data column: every addition wraps. *)
Definition sum_int64 (l : list Z) : Z :=
  fold_right (fun x acc => wrap_int64 (x + acc)) 0 l.

(** The non-null cells of an optional column. *)
Fixpoint dropna {A : Type} (l : list (option A)) : list A :=
  match l with
  | [] => []
  | Some x :: xs => x :: dropna xs
  | None :: xs => dropna xs
  end.

(** [.mean()] of an integer column: NaN when it has no value.  The cells
    are added as doubles, which is exact while the sum is below 2^53. *)
Definition mean (l : list Z) : pyfloat :=
  match l with
  | [] => NaN
  | _ :: _ => fdiv (of_int (sum l)) (of_int (len l))
  end.

(** [.mean()] of a column with missing cells, which are skipped. *)
Definition mean_skipna (l : list (option Z)) : pyfloat := mean (dropna l).

(** [.min()] of a non-empty column. *)
Definition minimum (x : Z) (l : list Z) : Z := fold_right Z.min x l.

(* ================================================================== *)
(** ** Derivation engine: threshold classifications *)

Inductive EngagementLevel : Type :=
| PowerUser | ActiveUser | RegularUser | OccasionalUser | Inactive.

Definition engagement_label (l : EngagementLevel) : string :=
  match l with
  | PowerUser => "Power User"
  | ActiveUser => "Active User"
  | RegularUser => "Regular User"
  | OccasionalUser => "Occasional User"
  | Inactive => "Inactive"
  end.

Definition engagement_level (query_count active_days : Z) : EngagementLevel :=
  if (query_count >=? 50) && (active_days >=? 15) then PowerUser
  else if (query_count >=? 20) && (active_days >=? 8) then ActiveUser
  else if (query_count >=? 5) && (active_days >=? 3) then RegularUser
  else if query_count >=? 1 then OccasionalUser
  else Inactive.

Inductive UserSegment : Type :=
| NewUser | RecentUser | EstablishedUser | LongTermUser.

Definition segment_label (s : UserSegment) : string :=
  match s with
  | NewUser => "New User"
  | RecentUser => "Recent User"
  | EstablishedUser => "Established User"
  | LongTermUser => "Long-term User"
  end.

Definition user_segment (user_tenure_days : Z) : UserSegment :=
  if user_tenure_days <=? 7 then NewUser
  else if user_tenure_days <=? 30 then RecentUser
  else if user_tenure_days <=? 90 then EstablishedUser
  else LongTermUser.

Inductive FirmSizeCategory : Type :=
| SizeUnknown | Small | Medium | Large | Enterprise.

Definition firm_size_category (firm_size : Z) : FirmSizeCategory :=
  if firm_size >=? 500 then Enterprise
  else if firm_size >=? 200 then Large
  else if firm_size >=? 100 then Medium
  else Small.

Inductive ArrCategory : Type :=
| ArrUnknown | MinimalValue | LowValue | MediumValue | HighValue.

Definition arr_category (arr_in_thousands : Z) : ArrCategory :=
  if arr_in_thousands >=? 500 then HighValue
  else if arr_in_thousands >=? 200 then MediumValue
  else if arr_in_thousands >=? 100 then LowValue
  else MinimalValue.

Inductive ActivationCategory : Type :=
| NotActivated | ImmediateActivation | QuickActivation
| StandardActivation | DelayedActivation.

(** [days_to_first_activity] is [None] for a user without events. *)
Definition activation_category (is_activated : Z)
  (days_to_first_activity : option Z) : ActivationCategory :=
  match days_to_first_activity with
  | Some d =>
      if is_activated =? 1 then
        if d <=? 1 then ImmediateActivation
        else if d <=? 7 then QuickActivation
        else if d <=? 30 then StandardActivation
        else DelayedActivation
      else NotActivated
  | None => NotActivated
  end.

Inductive SatisfactionCategory : Type :=
| NoFeedback | LowSatisfaction | FairSatisfaction
| GoodSatisfaction | HighSatisfaction.

(** The argument is [None] for Python's [None]; a mean over no score at
    all is [Some NaN]. *)
Definition satisfaction_category (avg_satisfaction : option pyfloat)
  : SatisfactionCategory :=
  match avg_satisfaction with
  | Some a =>
      if fge a (9 # 2) then HighSatisfaction
      else if fge a 4 then GoodSatisfaction
      else if fge a (7 # 2) then FairSatisfaction
      else LowSatisfaction
  | None => NoFeedback
  end.

(* ================================================================== *)
(** ** [simulate_user_engagement] *)

Record EngagementRow : Type := mkEngagementRow {
  eng_user_id : Z;
  eng_firm_id : Z;
  eng_user_title : option string;
  eng_month : Z;
  eng_query_count : Z;
  eng_active_days : Z;
  eng_total_documents_processed : Z;
  eng_avg_feedback_score : pyfloat;
  eng_engagement_level : EngagementLevel
}.

Definition engagement_columns : list string :=
  ["user_id"; "firm_id"; "user_title"; "month"; "query_count"; "active_days";
   "total_documents_processed"; "avg_feedback_score"; "engagement_level"].

Definition set_event_created_at (f : Timestamp -> Timestamp) (e : Event)
  : Event :=
  {| e_event_created_at := f (e_event_created_at e);
     e_firm_id := e_firm_id e;
     e_user_id := e_user_id e;
     e_event_type := e_event_type e;
     e_num_docs := e_num_docs e;
     e_feedback_score := e_feedback_score e |}.

Definition set_user_created_date (f : Timestamp -> Timestamp) (u : User)
  : User :=
  {| u_user_id := u_user_id u;
     u_user_created_date := f (u_user_created_date u);
     u_user_title := u_user_title u |}.

(** The cell of the derived [month] column on an event row. *)
Definition month_cell (e : Event) : Z :=
  to_period_M (to_datetime (e_event_created_at e)).

(** [users_df[users_df['user_id'] == user_id]] *)
Definition users_with_id (users : list User) (user_id : Z) : list User :=
  filter (fun u => u_user_id u =? user_id) users.

(** [firms_df[firms_df['firm_id'] == firm_id]] *)
Definition firms_with_id (firms : list Firm) (firm_id : Z) : list Firm :=
  filter (fun f => f_firm_id f =? firm_id) firms.

(** [events_df[events_df['user_id'] == user_id]] *)
Definition events_of_user (events : list Event) (user_id : Z) : list Event :=
  filter (fun e => e_user_id e =? user_id) events.

(** [user_events['event_created_at'].dt.date.nunique()] *)
Definition active_days_of (user_events : list Event) : Z :=
  nunique (map (fun e => date_of (e_event_created_at e)) user_events).

(** The body of the inner loop: one (month, user) pair. *)
Definition engagement_record (users : list User) (month : Z)
  (month_events : list Event) (user_id : Z) : result EngagementRow :=
  let user_events := events_of_user month_events user_id in
  user_info <- iloc0 (users_with_id users user_id) ;;
  firm_id <- iloc0 (map e_firm_id user_events) ;;
  let query_count := len user_events in
  let active_days := active_days_of user_events in
  let total_docs := sum_int64 (map e_num_docs user_events) in
  let avg_feedback := mean_skipna (map e_feedback_score user_events) in
  Ok {| eng_user_id := user_id;
        eng_firm_id := firm_id;
        eng_user_title := u_user_title user_info;
        eng_month := month;
        eng_query_count := query_count;
        eng_active_days := active_days;
        eng_total_documents_processed := total_docs;
        eng_avg_feedback_score := round2 avg_feedback;
        eng_engagement_level := engagement_level query_count active_days |}.

Definition engagement_data (users : list User) (events : list Event)
  : result (list EngagementRow) :=
  for_each_flat
    (fun month =>
       let month_events := filter (fun e => month_cell e =? month) events in
       for_each (engagement_record users month month_events)
                (unique (map e_user_id month_events)))
    (unique (map month_cell events)).

(** The function returns the final store (the frames it was given, after
    its in-place column assignments) and its outcome. *)
Definition simulate_user_engagement (st : Store)
  : Store * result (Frame EngagementRow) :=
  let events := assign_column "month" (fun e => e) (events_df st) in
  let users :=
    assign_column "user_created_date" (set_user_created_date to_datetime)
                  (users_df st) in
  let st' := {| users_df := users; firms_df := firms_df st;
                events_df := events |} in
  (st',
   data <- engagement_data (records users) (records events) ;;
   let engagement_df := DataFrame_of_dicts engagement_columns data in
   (* the summary printed after the export reads these columns *)
   _ <- require_columns engagement_df
          ["user_id"; "month"; "engagement_level"; "query_count";
           "active_days"; "avg_feedback_score"] ;;
   Ok engagement_df).

(* ================================================================== *)
(** ** [simulate_user_acquisition_base] *)

Record AcquisitionBaseRow : Type := mkAcquisitionBaseRow {
  acq_user_id : Z;
  acq_user_title : option string;
  acq_user_created_date : Timestamp;
  acq_firm_id : option Z;
  acq_firm_size : option Z;
  acq_arr_in_thousands : option Z;
  acq_acquisition_month : Z;
  acq_first_activity_date : option Timestamp;
  acq_days_to_first_activity : option Z;
  acq_total_events : Z;
  acq_active_days : Z;
  acq_avg_satisfaction_score : option pyfloat;
  acq_total_documents_processed : Z;
  acq_is_activated : Z;
  acq_is_quick_start : Z;
  acq_is_monthly_activated : Z;
  acq_firm_size_category : FirmSizeCategory;
  acq_arr_category : ArrCategory;
  acq_activation_category : ActivationCategory;
  acq_satisfaction_category : SatisfactionCategory
}.

Definition acquisition_base_columns : list string :=
  ["user_id"; "user_title"; "user_created_date"; "firm_id"; "firm_size";
   "arr_in_thousands"; "acquisition_month"; "first_activity_date";
   "days_to_first_activity"; "total_events"; "active_days";
   "avg_satisfaction_score"; "total_documents_processed"; "is_activated";
   "is_quick_start"; "is_monthly_activated"; "firm_size_category";
   "arr_category"; "activation_category"; "satisfaction_category"].

(** [x if len(user_events) > 0 else None] *)
Definition if_any {A B : Type} (user_events : list A) (x : list A -> B)
  : option B :=
  match user_events with
  | [] => None
  | _ :: _ => Some (x user_events)
  end.

(** Python truth value of [firm_id]: [None] and [0] are false. *)
Definition truthy (firm_id : option Z) : bool :=
  match firm_id with
  | Some z => negb (z =? 0)
  | None => false
  end.

(** [firms_df[...].iloc[0] if firm_id else None] *)
Definition firm_info_of (firms : list Firm) (firm_id : option Z)
  : result (option Firm) :=
  match firm_id with
  | Some z =>
      if truthy firm_id
      then f <- iloc0 (firms_with_id firms z) ;; Ok (Some f)
      else Ok None
  | None => Ok None
  end.

Definition first_firm_id (user_events : list Event) : option Z :=
  match user_events with
  | [] => None
  | e :: _ => Some (e_firm_id e)
  end.

Definition first_activity_of (user_events : list Event) : option Timestamp :=
  match user_events with
  | [] => None
  | e :: es =>
      Some (minimum (e_event_created_at e) (map e_event_created_at es))
  end.

Definition flag (b : bool) : Z := if b then 1 else 0.

(** The body of the loop: one user. *)
Definition acquisition_base_record (users : list User) (firms : list Firm)
  (events : list Event) (user_id : Z) : result AcquisitionBaseRow :=
  user_info <- iloc0 (users_with_id users user_id) ;;
  let user_events := events_of_user events user_id in
  let firm_id := first_firm_id user_events in
  firm_info <- firm_info_of firms firm_id ;;
  let acquisition_month := to_period_M (u_user_created_date user_info) in
  let first_activity := first_activity_of user_events in
  let days_to_first_activity :=
    option_map (fun t => timedelta_days t (u_user_created_date user_info))
               first_activity in
  let is_activated :=
    flag (match first_activity with Some _ => true | None => false end) in
  let is_quick_start :=
    flag (match days_to_first_activity with
          | Some d => d <=? 7 | None => false end) in
  let is_monthly_activated :=
    flag (match days_to_first_activity with
          | Some d => d <=? 30 | None => false end) in
  let avg_satisfaction :=
    if_any user_events
           (fun evs => mean_skipna (map e_feedback_score evs)) in
  Ok {| acq_user_id := user_id;
        acq_user_title := u_user_title user_info;
        acq_user_created_date := u_user_created_date user_info;
        acq_firm_id := firm_id;
        acq_firm_size := option_map f_firm_size firm_info;
        acq_arr_in_thousands := option_map f_arr_in_thousands firm_info;
        acq_acquisition_month := acquisition_month;
        acq_first_activity_date := first_activity;
        acq_days_to_first_activity := days_to_first_activity;
        acq_total_events := len user_events;
        acq_active_days :=
          match user_events with
          | [] => 0
          | _ :: _ => active_days_of user_events
          end;
        acq_avg_satisfaction_score := avg_satisfaction;
        acq_total_documents_processed :=
          match user_events with
          | [] => 0
          | _ :: _ => sum_int64 (map e_num_docs user_events)
          end;
        acq_is_activated := is_activated;
        acq_is_quick_start := is_quick_start;
        acq_is_monthly_activated := is_monthly_activated;
        acq_firm_size_category :=
          match firm_info with
          | Some f => firm_size_category (f_firm_size f)
          | None => SizeUnknown
          end;
        acq_arr_category :=
          match firm_info with
          | Some f => arr_category (f_arr_in_thousands f)
          | None => ArrUnknown
          end;
        acq_activation_category :=
          activation_category is_activated days_to_first_activity;
        acq_satisfaction_category := satisfaction_category avg_satisfaction |}.

Definition acquisition_base_data (users : list User) (firms : list Firm)
  (events : list Event) : result (list AcquisitionBaseRow) :=
  for_each (acquisition_base_record users firms events)
           (unique (map u_user_id users)).

Definition simulate_user_acquisition_base (st : Store)
  : Store * result (Frame AcquisitionBaseRow) :=
  let users :=
    assign_column "user_created_date" (set_user_created_date to_datetime)
                  (users_df st) in
  let events :=
    assign_column "event_created_at" (set_event_created_at to_datetime)
                  (events_df st) in
  let st' := {| users_df := users; firms_df := firms_df st;
                events_df := events |} in
  (st',
   data <- acquisition_base_data (records users) (records (firms_df st))
                                 (records events) ;;
   let acquisition_base_df :=
     DataFrame_of_dicts acquisition_base_columns data in
   (* the summary printed after the export reads these columns *)
   _ <- require_columns acquisition_base_df
          ["user_id"; "acquisition_month"; "activation_category";
           "satisfaction_category"] ;;
   Ok acquisition_base_df).

(* ================================================================== *)
(** ** Group-by *)

Section GroupBy.
Context {K R : Type}.
Variable cmp : K -> K -> comparison.

(** Groups are kept in ascending key order ([sort=True]); rows keep their
    order inside a group. *)
Fixpoint insert_group (k : K) (r : R) (gs : list (K * list R))
  : list (K * list R) :=
  match gs with
  | [] => [(k, [r])]
  | (k', rs) :: gs' =>
      match cmp k k' with
      | Eq => (k', rs ++ [r]) :: gs'
      | Lt => (k, [r]) :: gs
      | Gt => (k', rs) :: insert_group k r gs'
      end
  end.

(** [key r = None] when one of the key cells of [r] is null: such rows
    belong to no group ([dropna=True]). *)
Definition group_rows (key : R -> option K) (rows : list R)
  : list (K * list R) :=
  fold_left
    (fun gs r =>
       match key r with
       | Some k => insert_group k r gs
       | None => gs
       end)
    rows [].

(** Ascending key order. *)
Definition key_lt (a b : K * list R) : Prop := cmp (fst a) (fst b) = Lt.

(** The number of rows in all groups. *)
Definition group_sizes (gs : list (K * list R)) : Z :=
  sum (map (fun g => len (snd g)) gs).

Definition has_key (key : R -> option K) (r : R) : bool :=
  match key r with Some _ => true | None => false end.
End GroupBy.

(** What the proofs need of a three-way comparison: it is antisymmetric,
    its [Eq] is a congruence and its [Lt] is transitive. *)
Class CmpOrder {A : Type} (c : A -> A -> comparison) : Prop := {
  cmp_opp : forall a b, c b a = CompOpp (c a b);
  cmp_eq_l : forall a b x, c a b = Eq -> c a x = c b x;
  cmp_lt_trans : forall a b x, c a b = Lt -> c b x = Lt -> c a x = Lt
}.

(** Lexicographic combination. *)
Definition lex (c1 c2 : comparison) : comparison :=
  match c1 with
  | Eq => c2
  | other => other
  end.

(* ================================================================== *)
(** ** [simulate_event_performance_metrics]: the per-event table *)

Record PerformanceRow : Type := mkPerformanceRow {
  p_event_id : Z;
  p_event_type : option string;
  p_event_created_at : Timestamp;
  p_num_docs : Z;
  p_feedback_score : option Z;
  p_user_id : Z;
  p_user_title : option string;
  p_user_created_date : Timestamp;
  p_firm_id : Z;
  p_firm_size : Z;
  p_arr_in_thousands : Z;
  p_event_month : Z;
  p_event_week : Z;
  p_event_date : Z;
  p_user_tenure_days : Z;
  p_high_satisfaction_event : Z;
  p_high_volume_event : Z;
  p_user_segment : UserSegment
}.

Definition event_performance_columns : list string :=
  ["event_id"; "event_type"; "event_created_at"; "num_docs"; "feedback_score";
   "user_id"; "user_title"; "user_created_date"; "firm_id"; "firm_size";
   "arr_in_thousands"; "event_month"; "event_week"; "event_date";
   "user_tenure_days"; "high_satisfaction_event"; "high_volume_event";
   "user_segment"].

(** [1 if event['feedback_score'] >= 4 else 0]: a missing score compares
    false. *)
Definition high_satisfaction_flag (feedback_score : option Z) : Z :=
  match feedback_score with
  | Some s => flag (s >=? 4)
  | None => 0
  end.

(** The body of the loop over [events_df.iterrows()]; [event_id] is the
    row's index. *)
Definition event_performance_record (users : list User) (firms : list Firm)
  (indexed : Z * Event) : result PerformanceRow :=
  let '(event_id, event) := indexed in
  user_info <- iloc0 (users_with_id users (e_user_id event)) ;;
  firm_info <- iloc0 (firms_with_id firms (e_firm_id event)) ;;
  let user_tenure_days :=
    timedelta_days (e_event_created_at event)
                   (u_user_created_date user_info) in
  Ok {| p_event_id := event_id;
        p_event_type := e_event_type event;
        p_event_created_at := e_event_created_at event;
        p_num_docs := e_num_docs event;
        p_feedback_score := e_feedback_score event;
        p_user_id := e_user_id event;
        p_user_title := u_user_title user_info;
        p_user_created_date := u_user_created_date user_info;
        p_firm_id := e_firm_id event;
        p_firm_size := f_firm_size firm_info;
        p_arr_in_thousands := f_arr_in_thousands firm_info;
        p_event_month := to_period_M (e_event_created_at event);
        p_event_week := to_period_W (e_event_created_at event);
        p_event_date := date_of (e_event_created_at event);
        p_user_tenure_days := user_tenure_days;
        p_high_satisfaction_event :=
          high_satisfaction_flag (e_feedback_score event);
        p_high_volume_event := flag (e_num_docs event >=? 10);
        p_user_segment := user_segment user_tenure_days |}.

(** Rows paired with their positions [0, 1, ...]. *)
Fixpoint iterrows {A : Type} (start : Z) (l : list A) : list (Z * A) :=
  match l with
  | [] => []
  | x :: xs => (start, x) :: iterrows (start + 1) xs
  end.

Definition event_performance_data (users : list User) (firms : list Firm)
  (events : list Event) : result (list PerformanceRow) :=
  for_each (event_performance_record users firms) (iterrows 0 events).

(* ================================================================== *)
(** ** The multi-grain aggregator *)

Inductive Grain : Type := Daily | Weekly | Monthly.

Definition grain_label (g : Grain) : string :=
  match g with
  | Daily => "daily"
  | Weekly => "weekly"
  | Monthly => "monthly"
  end.

Record GroupKey : Type := mkGroupKey {
  k_period : Z;
  k_event_type : string;
  k_user_title : string;
  k_user_segment : option UserSegment   (* None: not a key of the grain *)
}.

Definition segment_text (s : option UserSegment) : string :=
  match s with
  | Some x => segment_label x
  | None => ""
  end.

Definition compare_segment (a b : option UserSegment) : comparison :=
  match a, b with
  | None, None => Eq
  | None, Some _ => Lt
  | Some _, None => Gt
  | Some x, Some y =>
      String_as_OT.compare (segment_label x) (segment_label y)
  end.

(** Keys order as tuples: first cell first. *)
Definition compare_key (a b : GroupKey) : comparison :=
  match k_period a ?= k_period b with
  | Eq =>
      match String_as_OT.compare (k_event_type a) (k_event_type b) with
      | Eq =>
          match String_as_OT.compare (k_user_title a) (k_user_title b) with
          | Eq => compare_segment (k_user_segment a) (k_user_segment b)
          | c => c
          end
      | c => c
      end
  | c => c
  end.

Definition period_of (g : Grain) (r : PerformanceRow) : Z :=
  match g with
  | Daily => p_event_date r
  | Weekly => p_event_week r
  | Monthly => p_event_month r
  end.

(** The key of a row for a grain; [None] when a key cell is null. *)
Definition key_of (g : Grain) (r : PerformanceRow) : option GroupKey :=
  match p_event_type r, p_user_title r with
  | Some ty, Some title =>
      Some {| k_period := period_of g r;
              k_event_type := ty;
              k_user_title := title;
              k_user_segment :=
                match g with
                | Weekly => None
                | _ => Some (p_user_segment r)
                end |}
  | _, _ => None
  end.

Inductive SatisfactionPerformance : Type :=
| Excellent | GoodPerformance | FairPerformance | NeedsImprovement.

Definition satisfaction_performance (x : pyfloat) : SatisfactionPerformance :=
  if fge x (9 # 2) then Excellent
  else if fge x 4 then GoodPerformance
  else if fge x (7 # 2) then FairPerformance
  else NeedsImprovement.

Definition satisfaction_performance_label (p : SatisfactionPerformance)
  : string :=
  match p with
  | Excellent => "Excellent"
  | GoodPerformance => "Good"
  | FairPerformance => "Fair"
  | NeedsImprovement => "Needs Improvement"
  end.

Inductive VolumePerformance : Type :=
| HighVolume | MediumVolume | LowVolume | MinimalVolume.

Definition volume_performance_label (p : VolumePerformance) : string :=
  match p with
  | HighVolume => "High Volume"
  | MediumVolume => "Medium Volume"
  | LowVolume => "Low Volume"
  | MinimalVolume => "Minimal Volume"
  end.

Definition volume_performance (x : Z) : VolumePerformance :=
  if x >=? 1000 then HighVolume
  else if x >=? 500 then MediumVolume
  else if x >=? 100 then LowVolume
  else MinimalVolume.

(** The columns every grain computes. *)
Record CoreMetrics : Type := mkCoreMetrics {
  time_grain : Grain;
  time_period : Z;
  event_type : string;
  user_title : string;
  total_events : Z;
  unique_users : Z;
  unique_firms : Z;
  total_documents_processed : Z;
  avg_documents_per_event : pyfloat;
  avg_satisfaction_score : pyfloat;
  high_satisfaction_events : Z;
  high_volume_events : Z;
  satisfaction_rate_pct : pyfloat;
  high_volume_rate_pct : pyfloat
}.

(** The columns only some grains compute: a row holds the cells of the
    columns that the table of its grain has, and no other.  The segment is
    the key cell of the group. *)
Inductive GrainMetrics : Type :=
| DailyMetrics (segment : option UserSegment)
               (docs_per_user evts_per_user : pyfloat)
| WeeklyMetrics (prev_week growth : pyfloat)
| MonthlyMetrics (segment : option UserSegment)
                 (evts_per_user docs_per_user : pyfloat)
                 (satisfaction : SatisfactionPerformance)
                 (volume : VolumePerformance).

(** The cell of a column in a row of a per-grain table; [None] when the
    table of the row has no such column. *)
Definition user_segment_cell (m : GrainMetrics) : option UserSegment :=
  match m with
  | DailyMetrics s _ _ | MonthlyMetrics s _ _ _ _ => s
  | WeeklyMetrics _ _ => None
  end.

Definition documents_per_user (m : GrainMetrics) : option pyfloat :=
  match m with
  | DailyMetrics _ d _ | MonthlyMetrics _ _ d _ _ => Some d
  | WeeklyMetrics _ _ => None
  end.

Definition events_per_user (m : GrainMetrics) : option pyfloat :=
  match m with
  | DailyMetrics _ _ e | MonthlyMetrics _ e _ _ _ => Some e
  | WeeklyMetrics _ _ => None
  end.

Definition week_over_week_growth_pct (m : GrainMetrics) : option pyfloat :=
  match m with
  | WeeklyMetrics _ g => Some g
  | _ => None
  end.

Record MetricsRow : Type := mkMetricsRow {
  core : CoreMetrics;
  by_grain : GrainMetrics
}.

Definition rate_pct (part whole : Z) : pyfloat :=
  round2 (fmul (fdiv (of_int part) (of_int whole)) (Fin 100)).

Definition per_user (amount users : Z) : pyfloat :=
  round2 (fdiv (of_int amount) (of_int users)).

(** [.agg({...})] on one group, and the two rates every grain derives. *)
Definition aggregate (g : Grain) (grp : GroupKey * list PerformanceRow)
  : CoreMetrics :=
  let '(k, rows) := grp in
  let events := len (map p_event_id rows) in
  let high_sat := sum (map p_high_satisfaction_event rows) in
  let high_vol := sum (map p_high_volume_event rows) in
  {| time_grain := g;
     time_period := k_period k;
     event_type := k_event_type k;
     user_title := k_user_title k;
     total_events := events;
     unique_users := nunique (map p_user_id rows);
     unique_firms := nunique (map p_firm_id rows);
     total_documents_processed := sum_int64 (map p_num_docs rows);
     avg_documents_per_event := mean (map p_num_docs rows);
     avg_satisfaction_score := mean_skipna (map p_feedback_score rows);
     high_satisfaction_events := high_sat;
     high_volume_events := high_vol;
     satisfaction_rate_pct := rate_pct high_sat events;
     high_volume_rate_pct := rate_pct high_vol events |}.

Definition agg_columns : list string :=
  ["event_id"; "user_id"; "firm_id"; "num_docs"; "feedback_score";
   "high_satisfaction_event"; "high_volume_event"].

Definition key_columns (g : Grain) : list string :=
  match g with
  | Daily => ["event_date"; "event_type"; "user_title"; "user_segment"]
  | Weekly => ["event_week"; "event_type"; "user_title"]
  | Monthly => ["event_month"; "event_type"; "user_title"; "user_segment"]
  end.

(** [df.groupby(keys)]: a key label that the frame lacks is a [KeyError]. *)
Definition groupby (g : Grain) (df : Frame PerformanceRow)
  : result (list (GroupKey * list PerformanceRow)) :=
  _ <- require_columns df (key_columns g ++ agg_columns) ;;
  Ok (group_rows compare_key (key_of g) (records df)).

Definition metric_columns : list string :=
  ["total_events"; "unique_users"; "unique_firms";
   "total_documents_processed"; "avg_documents_per_event";
   "avg_satisfaction_score"; "high_satisfaction_events";
   "high_volume_events"].

(** *** Daily *)

Definition daily_record (grp : GroupKey * list PerformanceRow) : MetricsRow :=
  let c := aggregate Daily grp in
  {| core := c;
     by_grain :=
       DailyMetrics
         (k_user_segment (fst grp))
         (per_user (total_documents_processed c) (unique_users c))
         (per_user (total_events c) (unique_users c)) |}.

Definition daily_metrics_columns : list string :=
  key_columns Daily ++ metric_columns ++
  ["satisfaction_rate_pct"; "high_volume_rate_pct";
   "documents_per_user"; "events_per_user"; "time_grain"; "time_period"].

Definition daily_metrics (df : Frame PerformanceRow)
  : result (Frame MetricsRow) :=
  groups <- groupby Daily df ;;
  Ok {| columns := daily_metrics_columns;
        records := map daily_record groups |}.

(** *** Weekly *)

Definition same_series (a b : CoreMetrics) : bool :=
  String.eqb (event_type a) (event_type b)
  && String.eqb (user_title a) (user_title b).

(** [groupby(['event_type', 'user_title'])['total_events'].shift(1)]: for
    each row the count of the closest earlier row of its series, NaN when
    there is none.  [earlier] lists the rows already passed, closest
    first. *)
Fixpoint prev_week_events (earlier rows : list CoreMetrics) : list pyfloat :=
  match rows with
  | [] => []
  | r :: rs =>
      match find (same_series r) earlier with
      | Some p => of_int (total_events p)
      | None => NaN
      end :: prev_week_events (r :: earlier) rs
  end.

(** [.replace(0, np.nan)] *)
Definition replace_zero_nan (x : pyfloat) : pyfloat :=
  match x with
  | Fin q => if Qzero_bool q then NaN else x
  | other => other
  end.

(** [((total_events - prev) * 100.0 / prev.replace(0, np.nan)).round(2)] *)
Definition week_over_week_growth (prev : pyfloat) (total : Z) : pyfloat :=
  round2 (fdiv (fmul (fsub (of_int total) prev) (Fin 100))
               (replace_zero_nan prev)).

Definition weekly_record (c : CoreMetrics) (prev : pyfloat) : MetricsRow :=
  {| core := c;
     by_grain :=
       WeeklyMetrics prev (week_over_week_growth prev (total_events c)) |}.

(** [map2], stopping at the shorter list. *)
Fixpoint zip_with {A B C : Type} (f : A -> B -> C) (l : list A) (m : list B)
  : list C :=
  match l, m with
  | x :: l', y :: m' => f x y :: zip_with f l' m'
  | _, _ => []
  end.

Definition weekly_records (groups : list (GroupKey * list PerformanceRow))
  : list MetricsRow :=
  let cores := map (aggregate Weekly) groups in
  zip_with weekly_record cores (prev_week_events [] cores).

Definition weekly_metrics_columns : list string :=
  key_columns Weekly ++ metric_columns ++
  ["satisfaction_rate_pct"; "high_volume_rate_pct"; "prev_week_events";
   "week_over_week_growth_pct"; "time_grain"; "time_period"].

Definition weekly_metrics (df : Frame PerformanceRow)
  : result (Frame MetricsRow) :=
  groups <- groupby Weekly df ;;
  Ok {| columns := weekly_metrics_columns;
        records := weekly_records groups |}.

(** *** Monthly *)

Definition monthly_record (grp : GroupKey * list PerformanceRow)
  : MetricsRow :=
  let c := aggregate Monthly grp in
  {| core := c;
     by_grain :=
       MonthlyMetrics
         (k_user_segment (fst grp))
         (per_user (total_events c) (unique_users c))
         (per_user (total_documents_processed c) (unique_users c))
         (satisfaction_performance (avg_satisfaction_score c))
         (volume_performance (total_events c)) |}.

Definition monthly_metrics_columns : list string :=
  key_columns Monthly ++ metric_columns ++
  ["satisfaction_rate_pct"; "high_volume_rate_pct"; "events_per_user";
   "documents_per_user"; "satisfaction_performance"; "volume_performance";
   "time_grain"; "time_period"].

Definition monthly_metrics (df : Frame PerformanceRow)
  : result (Frame MetricsRow) :=
  groups <- groupby Monthly df ;;
  Ok {| columns := monthly_metrics_columns;
        records := map monthly_record groups |}.

(** *** Union of the three grains *)

(** A cell of a frame whose rows are not typed. *)
Inductive cell : Type :=
| PyNone
| PyInt (z : Z)
| PyFloat (x : pyfloat)
| PyStr (s : string)
| PyDate (d : Z)      (* a [datetime.date] *)
| PyPeriod (p : Z).   (* the text of a weekly or monthly period *)

Definition segment_cell (s : option UserSegment) : cell :=
  match s with
  | Some x => PyStr (segment_label x)
  | None => PyNone
  end.

(** The cells under the labels of [metric_columns]. *)
Definition metric_cells (c : CoreMetrics) : list cell :=
  [PyInt (total_events c); PyInt (unique_users c); PyInt (unique_firms c);
   PyInt (total_documents_processed c); PyFloat (avg_documents_per_event c);
   PyFloat (avg_satisfaction_score c); PyInt (high_satisfaction_events c);
   PyInt (high_volume_events c)].

(** The cells of a row of a per-grain table, in the order of its labels
    ([daily_metrics_columns], [weekly_metrics_columns] or
    [monthly_metrics_columns]). *)
Definition row_cells (r : MetricsRow) : list cell :=
  let c := core r in
  match by_grain r with
  | DailyMetrics segment docs_per_user evts_per_user =>
      [PyDate (time_period c); PyStr (event_type c); PyStr (user_title c);
       segment_cell segment]
      ++ metric_cells c ++
      [PyFloat (satisfaction_rate_pct c); PyFloat (high_volume_rate_pct c);
       PyFloat docs_per_user; PyFloat evts_per_user;
       PyStr (grain_label (time_grain c)); PyDate (time_period c)]
  | WeeklyMetrics prev_week growth =>
      [PyPeriod (time_period c); PyStr (event_type c); PyStr (user_title c)]
      ++ metric_cells c ++
      [PyFloat (satisfaction_rate_pct c); PyFloat (high_volume_rate_pct c);
       PyFloat prev_week; PyFloat growth;
       PyStr (grain_label (time_grain c)); PyPeriod (time_period c)]
  | MonthlyMetrics segment evts_per_user docs_per_user satisfaction volume =>
      [PyPeriod (time_period c); PyStr (event_type c); PyStr (user_title c);
       segment_cell segment]
      ++ metric_cells c ++
      [PyFloat (satisfaction_rate_pct c); PyFloat (high_volume_rate_pct c);
       PyFloat evts_per_user; PyFloat docs_per_user;
       PyStr (satisfaction_performance_label satisfaction);
       PyStr (volume_performance_label volume);
       PyStr (grain_label (time_grain c)); PyPeriod (time_period c)]
  end.

(** The same table, cell by cell. *)
Definition cells_of (df : Frame MetricsRow) : Frame (list cell) :=
  {| columns := columns df; records := map row_cells (records df) |}.

(** The cell of a row under a label; the rows of a frame have one cell per
    label, so the last case is not reached for a label of the frame. *)
Fixpoint cell_at (labels : list string) (row : list cell) (label : string)
  : cell :=
  match labels, row with
  | l :: ls, x :: xs => if String.eqb label l then x else cell_at ls xs label
  | _, _ => PyFloat NaN
  end.

(** [df[[labels]].copy()] *)
Definition select_columns (labels : list string) (df : Frame (list cell))
  : result (Frame (list cell)) :=
  _ <- require_columns df labels ;;
  Ok {| columns := labels;
        records := map (fun row => map (cell_at (columns df) row) labels)
                       (records df) |}.

(** The row with [v] under [label]: in place of the cell it has there, or
    as a new last cell. *)
Fixpoint set_cell (labels : list string) (row : list cell) (label : string)
  (v : cell) : list cell :=
  match labels, row with
  | l :: ls, x :: xs =>
      if String.eqb label l then v :: xs else x :: set_cell ls xs label v
  | _, _ => row ++ [v]
  end.

(** [df[label] = None] *)
Definition assign_none (label : string) (df : Frame (list cell))
  : Frame (list cell) :=
  assign_column label (fun row => set_cell (columns df) row label PyNone) df.

Definition shared_columns : list string :=
  ["total_events"; "unique_users"; "unique_firms";
   "total_documents_processed"; "avg_documents_per_event";
   "avg_satisfaction_score"; "high_satisfaction_events";
   "high_volume_events"; "satisfaction_rate_pct"; "high_volume_rate_pct"].

Definition daily_union_columns : list string :=
  ["time_grain"; "time_period"; "event_type"; "user_title"; "user_segment"]
  ++ shared_columns ++ ["documents_per_user"; "events_per_user"].

Definition weekly_union_columns : list string :=
  ["time_grain"; "time_period"; "event_type"; "user_title"]
  ++ shared_columns ++ ["week_over_week_growth_pct"].

Definition monthly_union_columns : list string :=
  ["time_grain"; "time_period"; "event_type"; "user_title"; "user_segment"]
  ++ shared_columns ++
  ["events_per_user"; "documents_per_user"; "satisfaction_performance";
   "volume_performance"].

(** The three frames that are concatenated: the columns selected from each
    grain, then the columns that are assigned [None]. *)
Definition union_frames (daily weekly monthly : Frame MetricsRow)
  : result (Frame (list cell) * Frame (list cell) * Frame (list cell)) :=
  daily_union <- select_columns daily_union_columns (cells_of daily) ;;
  weekly_union <- select_columns weekly_union_columns (cells_of weekly) ;;
  let weekly_union := assign_none "user_segment" weekly_union in
  let weekly_union := assign_none "documents_per_user" weekly_union in
  let weekly_union := assign_none "events_per_user" weekly_union in
  monthly_union <- select_columns monthly_union_columns (cells_of monthly) ;;
  let daily_union := assign_none "week_over_week_growth_pct" daily_union in
  let daily_union := assign_none "satisfaction_performance" daily_union in
  let daily_union := assign_none "volume_performance" daily_union in
  let weekly_union := assign_none "satisfaction_performance" weekly_union in
  let weekly_union := assign_none "volume_performance" weekly_union in
  let monthly_union :=
    assign_none "week_over_week_growth_pct" monthly_union in
  Ok (daily_union, weekly_union, monthly_union).

(** [pd.concat(frames, ignore_index=True)] (pandas 2.x).  The result has
    the labels of all frames in order of first appearance and all rows in
    order; the cells of a column are brought to one dtype. *)
Definition concat_columns (acc new : list string) : list string :=
  acc ++ filter (fun c => negb (existsb (String.eqb c) acc)) new.

Inductive dtype : Type := Int64 | Float64 | Object.

Definition is_int (c : cell) : bool :=
  match c with PyInt _ => true | _ => false end.

Definition is_float (c : cell) : bool :=
  match c with PyFloat _ => true | _ => false end.

(** [pd.isna] *)
Definition is_null (c : cell) : bool :=
  match c with
  | PyNone | PyFloat NaN => true
  | _ => false
  end.

(** The dtype of a column that holds these cells. *)
Definition dtype_of (cells : list cell) : dtype :=
  if forallb is_int cells then Int64
  else if forallb is_float cells then Float64
  else Object.

(** The column of a frame under a label, if the frame has it. *)
Definition column_of (df : Frame (list cell)) (label : string)
  : option (list cell) :=
  if has_column df label
  then Some (map (fun row => cell_at (columns df) row label) (records df))
  else None.

Definition is_numeric (d : dtype) : bool :=
  match d with Object => false | _ => true end.

Definition is_int64 (d : dtype) : bool :=
  match d with Int64 => true | _ => false end.

(** [find_common_type]: int64 and float64 give float64, anything else
    with object gives object. *)
Definition common_dtype (ds : list dtype) : dtype :=
  if forallb is_int64 ds then Int64
  else if forallb is_numeric ds then Float64
  else Object.

(** The dtype of a column of the result.  A piece that has no row or
    holds only nulls has no say, unless every piece is such; a frame that
    lacks the column makes an integer column a float column.  (pandas
    decides this by block; the columns whose dtypes differ between the
    three frames are single blocks, assigned one by one.  The dtype given
    to pieces without rows shows in no cell: the three frames that are
    concatenated here have rows together or not at all.) *)
Definition result_dtype (pieces : list (option (list cell))) : dtype :=
  let present := dropna pieces in
  let deciding :=
    filter (fun cells => negb (forallb is_null cells)) present in
  let d :=
    common_dtype
      (map dtype_of
           (match deciding with [] => present | _ :: _ => deciding end)) in
  match d with
  | Int64 =>
      if existsb (fun p => match p with None => true | Some _ => false end)
                 pieces
      then Float64 else Int64
  | other => other
  end.

(** A cell in a column of dtype [d]: in a float column an integer is
    converted and [None] becomes NaN. *)
Definition as_dtype (d : dtype) (c : cell) : cell :=
  match d with
  | Float64 =>
      match c with
      | PyInt z => PyFloat (of_int z)
      | PyNone => PyFloat NaN
      | other => other
      end
  | _ => c
  end.

Definition concat_frames (dfs : list (Frame (list cell)))
  : Frame (list cell) :=
  let labels :=
    fold_left (fun acc df => concat_columns acc (columns df)) dfs [] in
  let dtype_for label :=
    result_dtype (map (fun df => column_of df label) dfs) in
  {| columns := labels;
     records :=
       flat_map
         (fun df =>
            map (fun row =>
                   map (fun label =>
                          if has_column df label
                          then as_dtype (dtype_for label)
                                        (cell_at (columns df) row label)
                          else PyFloat NaN)
                       labels)
                (records df))
         dfs |}.

Definition combine_metrics (daily weekly monthly : Frame MetricsRow)
  : result (Frame (list cell)) :=
  frames <- union_frames daily weekly monthly ;;
  let '(daily_union, weekly_union, monthly_union) := frames in
  Ok (concat_frames [daily_union; weekly_union; monthly_union]).

(** The three per-grain tables and their union. *)
Record PerformanceTables : Type := mkPerformanceTables {
  daily_table : Frame MetricsRow;
  weekly_table : Frame MetricsRow;
  monthly_table : Frame MetricsRow;
  combined_metrics : Frame (list cell)
}.

Definition aggregate_all (event_performance_df : Frame PerformanceRow)
  : result PerformanceTables :=
  daily <- daily_metrics event_performance_df ;;
  weekly <- weekly_metrics event_performance_df ;;
  monthly <- monthly_metrics event_performance_df ;;
  combined <- combine_metrics daily weekly monthly ;;
  Ok {| daily_table := daily; weekly_table := weekly;
        monthly_table := monthly; combined_metrics := combined |}.

Definition event_performance_tables (st : Store)
  : Store * result PerformanceTables :=
  let events :=
    assign_column "event_created_at" (set_event_created_at to_datetime)
                  (events_df st) in
  let users :=
    assign_column "user_created_date" (set_user_created_date to_datetime)
                  (users_df st) in
  let st' := {| users_df := users; firms_df := firms_df st;
                events_df := events |} in
  (st',
   data <- event_performance_data (records users) (records (firms_df st))
                                  (records events) ;;
   aggregate_all (DataFrame_of_dicts event_performance_columns data)).

Definition simulate_event_performance_metrics (st : Store)
  : Store * result (Frame (list cell)) :=
  let '(st', tables) := event_performance_tables st in
  (st', t <- tables ;; Ok (combined_metrics t)).

(* ================================================================== *)
(** ** [simulate_cohort_analysis] *)

Record CohortRow : Type := mkCohortRow {
  coh_user_id : Z;
  coh_cohort_month : Z;
  coh_user_title : option string;
  coh_months_since_signup : Z;
  coh_is_retained : Z;
  coh_events_count : Z;
  coh_active_days : Z
}.

Definition cohort_columns : list string :=
  ["user_id"; "cohort_month"; "user_title"; "months_since_signup";
   "is_retained"; "events_count"; "active_days"].

(** [range(lo, hi)] *)
Definition range (lo hi : Z) : list Z :=
  map (fun i => lo + Z.of_nat i) (seq 0 (Z.to_nat (hi - lo))).

(** The body of the inner loop: one month after the signup month. *)
Definition cohort_record (user_id : Z) (user_info : User)
  (user_events : list Event) (months_since_signup : Z) : CohortRow :=
  let cohort_month := to_period_M (u_user_created_date user_info) in
  let target_month := cohort_month + months_since_signup in
  let month_events :=
    filter (fun e => to_period_M (e_event_created_at e) =? target_month)
           user_events in
  {| coh_user_id := user_id;
     coh_cohort_month := cohort_month;
     coh_user_title := u_user_title user_info;
     coh_months_since_signup := months_since_signup;
     coh_is_retained := flag (len month_events >? 0);
     coh_events_count := len month_events;
     coh_active_days :=
       if len month_events >? 0 then active_days_of month_events else 0 |}.

(** The body of the outer loop: a user without events is skipped
    ([continue]); the others get six rows. *)
Definition cohort_records (users : list User) (events : list Event)
  (user_id : Z) : result (list CohortRow) :=
  user_info <- iloc0 (users_with_id users user_id) ;;
  let user_events := events_of_user events user_id in
  if len user_events =? 0 then Ok []
  else Ok (map (cohort_record user_id user_info user_events) (range 0 6)).

Definition cohort_data (users : list User) (events : list Event)
  : result (list CohortRow) :=
  for_each_flat (cohort_records users events) (unique (map u_user_id users)).

(** One row of [cohort_summary]: a (cohort month, months since signup)
    group. *)
Record CohortSummaryRow : Type := mkCohortSummaryRow {
  cs_cohort_month : Z;
  cs_months_since_signup : Z;
  cs_user_id : Z;                 (* count *)
  cs_is_retained : Z;             (* sum *)
  cs_events_count : pyfloat;      (* mean *)
  cs_active_days : pyfloat;       (* mean *)
  cs_retention_rate_pct : pyfloat
}.

Definition compare_cohort_key (a b : Z * Z) : comparison :=
  lex (fst a ?= fst b) (snd a ?= snd b).

Definition cohort_key (r : CohortRow) : option (Z * Z) :=
  Some (coh_cohort_month r, coh_months_since_signup r).

Definition cohort_summary_record (grp : (Z * Z) * list CohortRow)
  : CohortSummaryRow :=
  let '(k, rows) := grp in
  let users := len (map coh_user_id rows) in
  let retained := sum (map coh_is_retained rows) in
  {| cs_cohort_month := fst k;
     cs_months_since_signup := snd k;
     cs_user_id := users;
     cs_is_retained := retained;
     cs_events_count := mean (map coh_events_count rows);
     cs_active_days := mean (map coh_active_days rows);
     cs_retention_rate_pct := rate_pct retained users |}.

Definition cohort_summary_columns : list string :=
  ["cohort_month"; "months_since_signup"; "user_id"; "is_retained";
   "events_count"; "active_days"; "retention_rate_pct"].

Definition cohort_summary (cohort_df : Frame CohortRow)
  : result (Frame CohortSummaryRow) :=
  _ <- require_columns cohort_df
         ["cohort_month"; "months_since_signup"; "user_id"; "is_retained";
          "events_count"; "active_days"] ;;
  Ok {| columns := cohort_summary_columns;
        records :=
          map cohort_summary_record
              (group_rows compare_cohort_key cohort_key
                          (records cohort_df)) |}.

(** The cohort table, which the function returns, and the summary it
    prints. *)
Definition cohort_analysis_tables (st : Store)
  : Store * result (Frame CohortRow * Frame CohortSummaryRow) :=
  let users :=
    assign_column "user_created_date" (set_user_created_date to_datetime)
                  (users_df st) in
  let events :=
    assign_column "event_created_at" (set_event_created_at to_datetime)
                  (events_df st) in
  let st' := {| users_df := users; firms_df := firms_df st;
                events_df := events |} in
  (st',
   data <- cohort_data (records users) (records events) ;;
   let cohort_df := DataFrame_of_dicts cohort_columns data in
   summary <- cohort_summary cohort_df ;;
   Ok (cohort_df, summary)).

Definition simulate_cohort_analysis (st : Store)
  : Store * result (Frame CohortRow) :=
  let '(st', tables) := cohort_analysis_tables st in
  (st', t <- tables ;; Ok (fst t)).

(* ================================================================== *)
(** ** [simulate_user_acquisition_metrics]: the per-user records

    The summary by month and title and the chart that follow the loop
    are not part of the model. *)

Record AcquisitionRow : Type := mkAcquisitionRow {
  am_user_id : Z;
  am_acquisition_month : Z;
  am_user_title : option string;
  am_firm_id : option Z;
  am_days_to_first_activity : option Z;
  am_is_activated : Z;
  am_is_quick_start : Z;
  am_total_events : Z;
  am_avg_satisfaction_score : option pyfloat
}.

(** The body of the loop: one user. *)
Definition acquisition_record (users : list User) (events : list Event)
  (user_id : Z) : result AcquisitionRow :=
  user_info <- iloc0 (users_with_id users user_id) ;;
  let user_events := events_of_user events user_id in
  let acquisition_month := to_period_M (u_user_created_date user_info) in
  let first_activity := first_activity_of user_events in
  let days_to_first_activity :=
    option_map (fun t => timedelta_days t (u_user_created_date user_info))
               first_activity in
  Ok {| am_user_id := user_id;
        am_acquisition_month := acquisition_month;
        am_user_title := u_user_title user_info;
        am_firm_id := first_firm_id user_events;
        am_days_to_first_activity := days_to_first_activity;
        am_is_activated :=
          flag (match first_activity with Some _ => true | None => false end);
        am_is_quick_start :=
          flag (match days_to_first_activity with
                | Some d => d <=? 7 | None => false end);
        am_total_events := len user_events;
        am_avg_satisfaction_score :=
          if_any user_events
                 (fun evs => mean_skipna (map e_feedback_score evs)) |}.

Definition acquisition_data (users : list User) (events : list Event)
  : result (list AcquisitionRow) :=
  for_each (acquisition_record users events) (unique (map u_user_id users)).

(* ================================================================== *)
(** ** Data-quality checks ([harvey_data_quality_analysis.py]) *)

(** The checks divide Python integers by the size of a collection; the
    only fault they can raise is the division by zero. *)
Inductive checked (A : Type) : Type :=
| Checked (a : A)
| ZeroDivisionError.

Arguments Checked {A} a.
Arguments ZeroDivisionError {A}.

(** [len(part) / len(whole) * 100] on Python integers: the true division
    rounds the exact quotient to a double, which is then multiplied. *)
Definition percentage (part whole : Z) : checked pyfloat :=
  if whole =? 0 then ZeroDivisionError
  else Checked (fmul (Fin (round_float64 (inject_Z part / inject_Z whole)))
                     (Fin 100)).

(** [events_df.merge(users_df[['user_id', 'user_created_date']],
    on='user_id', how='left')]: every event once per user with its id, in
    the order of the events; an event without such a user is kept, with a
    null creation date. *)
Definition merge_left_users (events : list Event) (users : list User)
  : list (Event * option Timestamp) :=
  flat_map
    (fun e =>
       match users_with_id users (e_user_id e) with
       | [] => [(e, None)]
       | matches =>
           map (fun u => (e, Some (u_user_created_date u))) matches
       end)
    events.

(** [event_created_at < user_created_date]; false on a null date. *)
Definition before_creation (row : Event * option Timestamp) : bool :=
  match snd row with
  | Some created => e_event_created_at (fst row) <? created
  | None => false
  end.

(** [~feedback_score.between(1, 5)]: a missing score is not between. *)
Definition feedback_invalid (e : Event) : bool :=
  match e_feedback_score e with
  | Some s => negb ((1 <=? s) && (s <=? 5))
  | None => true
  end.

Record ConsistencyResults : Type := mkConsistencyResults {
  timeline_issues : list (Event * option Timestamp);
  invalid_feedback : list Event;
  invalid_docs : list Event
}.

Definition analyze_consistency (users : list User) (firms : list Firm)
  (events : list Event) : checked ConsistencyResults :=
  let events_users := merge_left_users events users in
  let timeline_issues := filter before_creation events_users in
  match percentage (len timeline_issues) (len events) with
  | ZeroDivisionError => ZeroDivisionError
  | Checked _ =>
      let invalid_feedback := filter feedback_invalid events in
      match percentage (len invalid_feedback) (len events) with
      | ZeroDivisionError => ZeroDivisionError
      | Checked _ =>
          let invalid_docs := filter (fun e => e_num_docs e <=? 0) events in
          match percentage (len invalid_docs) (len events) with
          | ZeroDivisionError => ZeroDivisionError
          | Checked _ =>
              Checked {| timeline_issues := timeline_issues;
                         invalid_feedback := invalid_feedback;
                         invalid_docs := invalid_docs |}
          end
      end
  end.

(** The first check of [analyze_anomalies]:
    [users_df[~users_df['user_id'].isin(events_df['user_id'].unique())]]. *)
Definition orphaned_users (users : list User) (events : list Event)
  : list User :=
  let users_with_events := unique (map e_user_id events) in
  filter (fun u => negb (existsb (Z.eqb (u_user_id u)) users_with_events))
         users.

(* ================================================================== *)
(** ** Definitions used to state the properties *)

(** The growth formula [(current - previous) * 100 / previous] in float64
    arithmetic, with the two-decimal rounding the weekly table applies;
    [prev] is [None] for the first row of a series. *)
Definition expected_growth (prev : option Z) (curr : Z) : pyfloat :=
  match prev with
  | None => NaN
  | Some p =>
      if p =? 0 then NaN
      else round2 (fdiv (fmul (fsub (of_int curr) (of_int p)) (Fin 100))
                        (of_int p))
  end.

(** Growth along one series, first week first. *)
Fixpoint expected_series_growth (prev : option Z) (counts : list Z)
  : list pyfloat :=
  match counts with
  | [] => []
  | c :: cs => expected_growth prev c :: expected_series_growth (Some c) cs
  end.

Definition in_series (ty title : string) (c : CoreMetrics) : bool :=
  String.eqb ty (event_type c) && String.eqb title (user_title c).

(** The rows of one (event_type, user_title) series, in table order. *)
Definition series_of (ty title : string) (rows : list MetricsRow)
  : list MetricsRow :=
  filter (fun r => in_series ty title (core r)) rows.

(** The growth cell of a row of the weekly table. *)
Definition growth_cell (r : MetricsRow) : option pyfloat :=
  week_over_week_growth_pct (by_grain r).

(** Both key cells that can be null are present. *)
Definition keys_not_null (r : PerformanceRow) : bool :=
  match p_event_type r, p_user_title r with
  | Some _, Some _ => true
  | _, _ => false
  end.

(** The same test on an input event, through the user it refers to. *)
Definition event_keys_not_null (users : list User) (e : Event) : bool :=
  match e_event_type e, users_with_id users (e_user_id e) with
  | Some _, u :: _ =>
      match u_user_title u with Some _ => true | None => false end
  | _, _ => false
  end.

Definition grain_table (g : Grain) (t : PerformanceTables)
  : Frame MetricsRow :=
  match g with
  | Daily => daily_table t
  | Weekly => weekly_table t
  | Monthly => monthly_table t
  end.

Definition total_events_sum (rows : list MetricsRow) : Z :=
  sum (map (fun r => total_events (core r)) rows).

(** An event both of whose references resolve. *)
Definition references_resolve (users : list User) (firms : list Firm)
  (e : Event) : bool :=
  negb (Nat.eqb (List.length (users_with_id users (e_user_id e))) 0)
  && negb (Nat.eqb (List.length (firms_with_id firms (e_firm_id e))) 0).

Definition user_known (users : list User) (e : Event) : bool :=
  existsb (fun u => u_user_id u =? e_user_id e) users.

(** The columns of the combined table. *)
Definition combined_columns : list string :=
  daily_union_columns ++
  ["week_over_week_growth_pct"; "satisfaction_performance";
   "volume_performance"].

Definition day (d : Z) : Timestamp := d * ns_per_day.

(** *** Sample data *)

Definition sample_users : list User :=
  [mkUser 1 (day 100) (Some "Associate");
   mkUser 2 (day 90) (Some "Partner")].

Definition sample_firms : list Firm := [mkFirm 10 (day 0) 150 300].

(** User 1 has three events in one week and four in the next; user 2 has a
    single event, without a feedback score. *)
Definition sample_events : list Event :=
  [mkEvent (day 102) 10 1 (Some "ASSISTANT") 12 (Some 5);
   mkEvent (day 103) 10 1 (Some "ASSISTANT") 2 None;
   mkEvent (day 104) 10 1 (Some "ASSISTANT") 3 (Some 4);
   mkEvent (day 109) 10 1 (Some "ASSISTANT") 1 (Some 3);
   mkEvent (day 110) 10 1 (Some "ASSISTANT") 20 (Some 5);
   mkEvent (day 111) 10 1 (Some "ASSISTANT") 4 (Some 2);
   mkEvent (day 112) 10 1 (Some "ASSISTANT") 5 None;
   mkEvent (day 112) 10 2 (Some "VAULT") 7 None].

(** User 1 has three events in week 15 and four in week 17, none in
    week 16. *)
Definition skipping_events : list Event :=
  [mkEvent (day 102) 10 1 (Some "ASSISTANT") 12 (Some 5);
   mkEvent (day 103) 10 1 (Some "ASSISTANT") 2 None;
   mkEvent (day 104) 10 1 (Some "ASSISTANT") 3 (Some 4);
   mkEvent (day 116) 10 1 (Some "ASSISTANT") 1 (Some 3);
   mkEvent (day 117) 10 1 (Some "ASSISTANT") 20 (Some 5);
   mkEvent (day 118) 10 1 (Some "ASSISTANT") 4 (Some 2);
   mkEvent (day 119) 10 1 (Some "ASSISTANT") 5 None].

(** The double nearest to a decimal literal with two places. *)
Definition decimal2 (hundredths : Z) : pyfloat :=
  Fin (round_float64 (hundredths # 100)).

Definition sample_store : Store :=
  load_harvey_data sample_users sample_firms sample_events.

(** An event of a user that the Users collection does not have. *)
Definition orphan_user_event : Event :=
  mkEvent (day 105) 10 99 (Some "ASSISTANT") 1 (Some 4).


(** *** The tables in closed form *)

Definition grain_groups (g : Grain) (data : list PerformanceRow)
  : list (GroupKey * list PerformanceRow) :=
  group_rows compare_key (key_of g) data.

(** The labels of the three frames that are concatenated. *)
Definition daily_union_labels : list string :=
  daily_union_columns ++
  ["week_over_week_growth_pct"; "satisfaction_performance";
   "volume_performance"].

Definition weekly_union_labels : list string :=
  weekly_union_columns ++
  ["user_segment"; "documents_per_user"; "events_per_user";
   "satisfaction_performance"; "volume_performance"].

Definition monthly_union_labels : list string :=
  monthly_union_columns ++ ["week_over_week_growth_pct"].

(** What the union step makes of a row of each grain: the cells of the
    selected columns, then [None] under each label it assigns. *)
Definition daily_union_record (r : MetricsRow) : list cell :=
  map (cell_at daily_metrics_columns (row_cells r)) daily_union_columns
  ++ [PyNone; PyNone; PyNone].

Definition weekly_union_record (r : MetricsRow) : list cell :=
  map (cell_at weekly_metrics_columns (row_cells r)) weekly_union_columns
  ++ [PyNone; PyNone; PyNone; PyNone; PyNone].

Definition monthly_union_record (r : MetricsRow) : list cell :=
  map (cell_at monthly_metrics_columns (row_cells r)) monthly_union_columns
  ++ [PyNone].

Definition tables_of (data : list PerformanceRow) : PerformanceTables :=
  let daily := map daily_record (grain_groups Daily data) in
  let weekly := weekly_records (grain_groups Weekly data) in
  let monthly := map monthly_record (grain_groups Monthly data) in
  {| daily_table := mkFrame daily_metrics_columns daily;
     weekly_table := mkFrame weekly_metrics_columns weekly;
     monthly_table := mkFrame monthly_metrics_columns monthly;
     combined_metrics :=
       concat_frames
         [mkFrame daily_union_labels (map daily_union_record daily);
          mkFrame weekly_union_labels (map weekly_union_record weekly);
          mkFrame monthly_union_labels
                  (map monthly_union_record monthly)] |}.

(** *** The rows of the unified table *)

(** A weekly row whose growth is a number. *)
Definition growth_is_number (r : MetricsRow) : bool :=
  match week_over_week_growth_pct (by_grain r) with
  | Some NaN | None => false
  | Some _ => true
  end.

(** The null that the daily and monthly rows hold under
    [week_over_week_growth_pct] after the concatenation: NaN when some
    weekly growth is a number, which makes the column a float column, and
    [None] when no weekly growth is. *)
Definition null_growth (weekly : list MetricsRow) : cell :=
  if existsb growth_is_number weekly then PyFloat NaN else PyNone.

Definition daily_combined_record (growth : cell) (r : MetricsRow)
  : list cell :=
  map (cell_at daily_metrics_columns (row_cells r)) daily_union_columns
  ++ [growth; PyNone; PyNone].

Definition weekly_combined_record (r : MetricsRow) : list cell :=
  let cell_of := cell_at weekly_metrics_columns (row_cells r) in
  map cell_of ["time_grain"; "time_period"; "event_type"; "user_title"]
  ++ [PyNone]
  ++ map cell_of shared_columns
  ++ [PyFloat NaN; PyFloat NaN; cell_of "week_over_week_growth_pct";
      PyNone; PyNone].

Definition monthly_combined_record (growth : cell) (r : MetricsRow)
  : list cell :=
  let cell_of := cell_at monthly_metrics_columns (row_cells r) in
  map cell_of daily_union_columns
  ++ [growth; cell_of "satisfaction_performance";
      cell_of "volume_performance"].

Definition is_number (c : cell) : Prop := exists q, c = PyFloat (Fin q).

(** The shape of one row of the unified table, by its grain tag: it has a
    cell under every label; a weekly row holds [None] under the labels of
    object columns that the weekly table lacks and NaN under those of float
    columns; a daily or monthly row holds numbers as per-user ratios and a
    null as growth. *)
Definition row_well_formed (row : list cell) : Prop :=
  let cell_of := cell_at combined_columns row in
  List.length row = List.length combined_columns
  /\ ((cell_of "time_grain" = PyStr "weekly"
       /\ cell_of "user_segment" = PyNone
       /\ cell_of "documents_per_user" = PyFloat NaN
       /\ cell_of "events_per_user" = PyFloat NaN
       /\ cell_of "satisfaction_performance" = PyNone
       /\ cell_of "volume_performance" = PyNone)
      \/ ((cell_of "time_grain" = PyStr "daily"
           \/ cell_of "time_grain" = PyStr "monthly")
          /\ is_number (cell_of "documents_per_user")
          /\ is_number (cell_of "events_per_user")
          /\ is_null (cell_of "week_over_week_growth_pct") = true)).

(** The rows of the weekly frame before the concatenation: the union step
    has assigned [None] under the five labels the weekly table lacks. *)
Definition weekly_marked (labels : list string) (row : list cell) : Prop :=
  Forall (fun label => In label labels /\ cell_at labels row label = PyNone)
         ["user_segment"; "documents_per_user"; "events_per_user";
          "satisfaction_performance"; "volume_performance"].



(** *** Measures *)

(** Equal as int64: congruent modulo 2^64. *)
Definition same_int64 (a b : Z) : Prop := a mod 2 ^ 64 = b mod 2 ^ 64.

(** [b] is not negative, and [a] is [b] when [b] is below 2^63: what an
    int64 sum [a] of non-negative numbers is to their exact sum [b]. *)
Definition exact_below_2_63 (a b : Z) : Prop :=
  0 <= b /\ (b < 2 ^ 63 -> a = b).

(** The sum of a quantity over the rows of a table. *)
Definition total {A : Type} (w : A -> Z) (l : list A) : Z := sum (map w l).

(** A user id that some user carries. *)
Definition known_id (users : list User) (user_id : Z) : bool :=
  existsb (fun u => u_user_id u =? user_id) users.

(** *** Acquisition rows *)

(** How the activation flags, the event count and the activation category
    of one row go together. *)
Definition activation_consistent (r : AcquisitionBaseRow) : Prop :=
  (acq_is_activated r = 1 <-> 1 <= acq_total_events r)
  /\ (acq_is_activated r = 0 <-> acq_total_events r = 0)
  /\ (acq_days_to_first_activity r = None <-> acq_total_events r = 0)
  /\ acq_is_quick_start r <= acq_is_monthly_activated r
  /\ acq_is_monthly_activated r <= acq_is_activated r
  /\ (acq_activation_category r = NotActivated <-> acq_total_events r = 0)
  /\ (acq_is_quick_start r = 1 <->
      acq_activation_category r = ImmediateActivation
      \/ acq_activation_category r = QuickActivation)
  /\ (acq_is_monthly_activated r = 1 <->
      acq_activation_category r = ImmediateActivation
      \/ acq_activation_category r = QuickActivation
      \/ acq_activation_category r = StandardActivation).

(** The first activity of a row is the earliest event of its user. *)
Definition earliest_activity (events : list Event) (r : AcquisitionBaseRow)
  : Prop :=
  let user_events := events_of_user events (acq_user_id r) in
  match acq_first_activity_date r with
  | None => user_events = []
  | Some t =>
      In t (map e_event_created_at user_events)
      /\ Forall (fun e => t <= e_event_created_at e) user_events
  end.

(** A row of the acquisition metrics and a row of the acquisition base
    that say the same about a user. *)
Definition same_acquisition (a : AcquisitionRow) (b : AcquisitionBaseRow)
  : Prop :=
  am_user_id a = acq_user_id b
  /\ am_acquisition_month a = acq_acquisition_month b
  /\ am_user_title a = acq_user_title b
  /\ am_firm_id a = acq_firm_id b
  /\ am_days_to_first_activity a = acq_days_to_first_activity b
  /\ am_is_activated a = acq_is_activated b
  /\ am_is_quick_start a = acq_is_quick_start b
  /\ am_total_events a = acq_total_events b
  /\ am_avg_satisfaction_score a = acq_avg_satisfaction_score b.

(** *** Percentages *)

(** A finite cell between 0 and 100. *)
Definition is_percentage (x : pyfloat) : Prop :=
  match x with
  | Fin v => (0 <= v <= 100)%Q
  | _ => False
  end.

(** A finite cell that is at least 1. *)
Definition at_least_one (x : option pyfloat) : Prop :=
  match x with
  | Some (Fin v) => (1 <= v)%Q
  | _ => False
  end.

(** *** Cohort rows *)

(** The users the cohort loop does not skip: those with an event. *)
Definition active_ids (users : list User) (events : list Event) : list Z :=
  filter (fun uid => negb (len (events_of_user events uid) =? 0))
         (unique (map u_user_id users)).

(** The signup month of the user an id stands for. *)
Definition cohort_month_of (users : list User) (user_id : Z) : option Z :=
  match users_with_id users user_id with
  | u :: _ => Some (to_period_M (u_user_created_date u))
  | [] => None
  end.

(** An event of a known user, in the signup month of the user or in one of
    the five months after it. *)
Definition in_cohort_window (users : list User) (e : Event) : bool :=
  match cohort_month_of users (e_user_id e) with
  | Some c =>
      (c <=? to_period_M (e_event_created_at e))
      && (to_period_M (e_event_created_at e) <=? c + 5)
  | None => false
  end.

Definition cohort_row_consistent (r : CohortRow) : Prop :=
  (coh_is_retained r = 1 <-> 1 <= coh_events_count r)
  /\ (coh_is_retained r = 0 <-> coh_events_count r = 0)
  /\ (coh_active_days r = 0 <-> coh_events_count r = 0)
  /\ 0 <= coh_active_days r <= coh_events_count r.

Definition cohort_summary_consistent (s : CohortSummaryRow) : Prop :=
  1 <= cs_user_id s
  /\ 0 <= cs_is_retained s <= cs_user_id s
  /\ is_percentage (cs_retention_rate_pct s).

(** An event of user 1 dated ten months after the signup month. *)
Definition late_event : Event :=
  mkEvent (day 400) 10 1 (Some "ASSISTANT") 1 (Some 4).

(** *** Rows of the per-grain tables *)

(** The key cells of a row of a per-grain table. *)
Definition row_key (r : MetricsRow) : GroupKey :=
  {| k_period := time_period (core r);
     k_event_type := event_type (core r);
     k_user_title := user_title (core r);
     k_user_segment := user_segment_cell (by_grain r) |}.

(** How the counts and the rates of one row go together. *)
Definition counts_consistent (c : CoreMetrics) : Prop :=
  1 <= unique_users c <= total_events c
  /\ 1 <= unique_firms c <= total_events c
  /\ 0 <= high_satisfaction_events c <= total_events c
  /\ 0 <= high_volume_events c <= total_events c
  /\ is_percentage (satisfaction_rate_pct c)
  /\ is_percentage (high_volume_rate_pct c).

(** The sum of a quantity over the rows of all groups. *)
Definition group_total {K R : Type} (w : R -> Z) (gs : list (K * list R))
  : Z :=
  sum (map (fun g => total w (snd g)) gs).

(** What the per-event table holds for one event. *)
Definition joined (us : list User) (fs : list Firm) (e : Event)
  (r : PerformanceRow) : Prop :=
  p_event_type r = e_event_type e
  /\ p_event_created_at r = e_event_created_at e
  /\ p_num_docs r = e_num_docs e
  /\ p_feedback_score r = e_feedback_score e
  /\ p_user_id r = e_user_id e
  /\ p_firm_id r = e_firm_id e
  /\ (exists u rest,
         users_with_id us (e_user_id e) = u :: rest
         /\ p_user_title r = u_user_title u
         /\ p_user_tenure_days r
            = timedelta_days (e_event_created_at e) (u_user_created_date u))
  /\ (exists f rest,
         firms_with_id fs (e_firm_id e) = f :: rest
         /\ p_firm_size r = f_firm_size f
         /\ p_arr_in_thousands r = f_arr_in_thousands f)
  /\ p_user_segment r = user_segment (p_user_tenure_days r)
  /\ p_high_satisfaction_event r = high_satisfaction_flag (e_feedback_score e)
  /\ p_high_volume_event r = flag (e_num_docs e >=? 10).

(** An event without a type, of a user without a title. *)
Definition untyped_event : Event :=
  mkEvent (day 105) 10 1 None 3 (Some 4).

(** The three quantities the aggregation adds up, on an event. *)
Definition documents_of (e : Event) : Z := e_num_docs e.
Definition satisfied (e : Event) : Z :=
  high_satisfaction_flag (e_feedback_score e).
Definition voluminous (e : Event) : Z := flag (e_num_docs e >=? 10).

(** *** Data-quality findings *)

(** A score that is present and outside 1 to 5. *)
Definition out_of_range (e : Event) : bool :=
  match e_feedback_score e with
  | Some s => negb ((1 <=? s) && (s <=? 5))
  | None => false
  end.

Definition feedback_missing (e : Event) : bool :=
  match e_feedback_score e with
  | Some _ => false
  | None => true
  end.

(** Two users with the same id, the second created later. *)
Definition duplicated_users : list User :=
  [mkUser 1 (day 100) (Some "Associate");
   mkUser 1 (day 200) (Some "Associate")].

(** An event of user 1 dated before the creation of the user. *)
Definition early_event : Event :=
  mkEvent (day 95) 10 1 (Some "ASSISTANT") 1 None.

(** A user without any event. *)
Definition idle_user : User := mkUser 3 (day 50) (Some "Partner").

(** The per-user acquisition record of an id that shows no activity. *)
Definition not_activated (rows : list AcquisitionRow) (user_id : Z) : Prop :=
  exists r,
    In r rows /\ am_user_id r = user_id
    /\ am_is_activated r = 0 /\ am_total_events r = 0
    /\ am_days_to_first_activity r = None.

(** *** Shapes of rows and cells, for the concatenation *)

Definition is_none (c : cell) : bool :=
  match c with PyNone => true | _ => false end.

(** A cell of an object column: neither an integer nor a float. *)
Definition object_cell (c : cell) : bool :=
  negb (is_int c) && negb (is_float c).

(** A float cell that holds a number. *)
Definition number_cell (c : cell) : bool :=
  match c with PyFloat (Fin _) => true | _ => false end.

(** A row of the daily table: tagged daily, with numbers as ratios. *)
Definition daily_shape (r : MetricsRow) : Prop :=
  time_grain (core r) = Daily
  /\ match by_grain r with
     | DailyMetrics _ (Fin _) (Fin _) => True
     | _ => False
     end.

Definition weekly_shape (r : MetricsRow) : Prop :=
  time_grain (core r) = Weekly
  /\ match by_grain r with
     | WeeklyMetrics _ _ => True
     | _ => False
     end.

Definition monthly_shape (r : MetricsRow) : Prop :=
  time_grain (core r) = Monthly
  /\ match by_grain r with
     | MonthlyMetrics _ (Fin _) (Fin _) _ _ => True
     | _ => False
     end.

(** The dtypes that the concatenation finds for the columns whose cells it
    could change; [growth] is what becomes of a [None] under
    [week_over_week_growth_pct]. *)
Definition dtypes_resolved (dtype_for : string -> dtype) (growth : cell)
  : Prop :=
  dtype_for "total_events" = Int64
  /\ dtype_for "unique_users" = Int64
  /\ dtype_for "unique_firms" = Int64
  /\ dtype_for "total_documents_processed" = Int64
  /\ dtype_for "high_satisfaction_events" = Int64
  /\ dtype_for "high_volume_events" = Int64
  /\ dtype_for "user_segment" = Object
  /\ dtype_for "satisfaction_performance" = Object
  /\ dtype_for "volume_performance" = Object
  /\ dtype_for "documents_per_user" = Float64
  /\ dtype_for "events_per_user" = Float64
  /\ as_dtype (dtype_for "week_over_week_growth_pct") PyNone = growth.

(** What the concatenation makes of a row of a frame with these labels. *)
Definition concat_row (dtype_for : string -> dtype) (labels : list string)
  (row : list cell) : list cell :=
  map (fun label =>
         if existsb (String.eqb label) labels
         then as_dtype (dtype_for label) (cell_at labels row label)
         else PyFloat NaN)
      combined_columns.

(* ================================================================== *)
(** ** Threshold classifications *)


Ltac ladder :=
  repeat match goal with
         | |- context [?a >=? ?b] =>
             destruct (Z.geb_spec a b); cbn [andb negb]
         | |- context [?a <=? ?b] =>
             destruct (Z.leb_spec a b); cbn [andb negb]
         end;
  repeat split; intros; try discriminate; try lia; try reflexivity.

(** C6: [engagement_level] returns the first tier, in descending order,
    whose own condition holds: Power User for at least 50 queries on at
    least 15 days, else Active User for 20 and 8, else Regular User for 5
    and 3, else Occasional User for one query, else Inactive; (50, 15) is a
    Power User, (49, 15) an Active User and (0, 0) Inactive. *)
Theorem engagement_level_first_matching_tier (query_count active_days : Z) :
  let power := 50 <= query_count /\ 15 <= active_days in
  let active := 20 <= query_count /\ 8 <= active_days in
  let regular := 5 <= query_count /\ 3 <= active_days in
  let level := engagement_level query_count active_days in
  (level = PowerUser <-> power)
  /\ (level = ActiveUser <-> ~ power /\ active)
  /\ (level = RegularUser <-> ~ power /\ ~ active /\ regular)
  /\ (level = OccasionalUser <->
      ~ power /\ ~ active /\ ~ regular /\ 1 <= query_count)
  /\ (level = Inactive <->
      ~ power /\ ~ active /\ ~ regular /\ ~ 1 <= query_count)
  /\ engagement_level 50 15 = PowerUser
  /\ engagement_level 49 15 = ActiveUser
  /\ engagement_level 0 0 = Inactive.
Proof.
  cbv zeta.
  repeat match goal with |- _ /\ _ => split end; try reflexivity;
    unfold engagement_level; ladder.
Qed.

(** C7: [user_segment] is New User up to 7 days of tenure, Recent User up
    to 30, Established User up to 90 and Long-term User beyond; a negative
    tenure goes through the same ladder and is a New User. *)
Theorem user_segment_thresholds (tenure_days : Z) :
  (user_segment tenure_days = NewUser <-> tenure_days <= 7)
  /\ (user_segment tenure_days = RecentUser <->
      7 < tenure_days /\ tenure_days <= 30)
  /\ (user_segment tenure_days = EstablishedUser <->
      30 < tenure_days /\ tenure_days <= 90)
  /\ (user_segment tenure_days = LongTermUser <-> 90 < tenure_days)
  /\ (forall p : positive, user_segment (Z.neg p) = NewUser).
Proof.
  repeat match goal with |- _ /\ _ => split end; try reflexivity;
    unfold user_segment; ladder.
Qed.

Lemma timedelta_days_negative (event_at created : Timestamp) :
  event_at < created -> timedelta_days event_at created < 0.
Proof.
  intros H. unfold timedelta_days.
  apply Z.div_lt_upper_bound; [reflexivity | lia].
Qed.

(* ================================================================== *)
(** ** Satisfaction buckets *)

(** The ladder on a finite average, and the two outcomes without one. *)
Lemma satisfaction_category_ladder (q : Q) :
  satisfaction_category (Some (Fin q)) =
    (if Qle_bool (9 # 2) q then HighSatisfaction
     else if Qle_bool 4 q then GoodSatisfaction
     else if Qle_bool (7 # 2) q then FairSatisfaction
     else LowSatisfaction)
  /\ satisfaction_category None = NoFeedback
  /\ satisfaction_category (Some NaN) = LowSatisfaction.
Proof. repeat split. Qed.

Lemma dropna_all_missing {A : Type} (l : list (option A)) :
  Forall (fun x => x = None) l -> dropna l = [].
Proof.
  induction 1 as [| x l Hx _ IH]; [reflexivity |].
  subst x. exact IH.
Qed.

Lemma mean_skipna_all_missing (events : list Event) :
  Forall (fun e => e_feedback_score e = None) events ->
  mean_skipna (map e_feedback_score events) = NaN.
Proof.
  intros H. unfold mean_skipna.
  rewrite dropna_all_missing; [reflexivity |].
  induction H; constructor; assumption.
Qed.

(** C3: a user who has events but no feedback score on any of them gets an
    average of NaN, which is not [None]; the ladder then compares false
    three times and ends in Low Satisfaction instead of No Feedback. *)
Theorem satisfaction_category_without_scores
  (users : list User) (firms : list Firm) (events : list Event)
  (user_id : Z) (row : AcquisitionBaseRow) :
  acquisition_base_record users firms events user_id = Ok row ->
  events_of_user events user_id <> [] ->
  Forall (fun e => e_feedback_score e = None)
         (events_of_user events user_id) ->
  acq_avg_satisfaction_score row = Some NaN
  /\ acq_satisfaction_category row = LowSatisfaction.
Proof.
  intros Hrow Hne Hnone.
  unfold acquisition_base_record in Hrow.
  destruct (iloc0 (users_with_id users user_id)) as [u |]; [| discriminate].
  cbn [bind] in Hrow.
  destruct (firm_info_of firms _) as [fi |]; [| discriminate].
  cbn [bind] in Hrow.
  injection Hrow as <-. cbn.
  destruct (events_of_user events user_id) as [| e es] eqn:E;
    [contradiction |].
  cbn [if_any]. rewrite mean_skipna_all_missing by assumption.
  split; reflexivity.
Qed.

Lemma satisfaction_category_without_scores_witness :
  exists row,
    acquisition_base_record sample_users sample_firms sample_events 2 = Ok row
    /\ acq_total_events row = 1
    /\ acq_avg_satisfaction_score row = Some NaN
    /\ acq_satisfaction_category row = LowSatisfaction.
Proof.
  eexists. split; [vm_compute; reflexivity |].
  split; [reflexivity |].
  apply (satisfaction_category_without_scores
           sample_users sample_firms sample_events 2).
  - vm_compute. reflexivity.
  - vm_compute. discriminate.
  - vm_compute. repeat constructor.
Defined.

(* ================================================================== *)
(** ** Loops in the result monad *)

Lemma for_each_Ok {A B : Type} (body : A -> result B) (xs : list A)
  (rs : list B) :
  for_each body xs = Ok rs -> Forall2 (fun x r => body x = Ok r) xs rs.
Proof.
  revert rs. induction xs as [| x xs IH]; intros rs H; cbn in H.
  - injection H as <-. constructor.
  - destruct (body x) as [r |] eqn:Hx; [| discriminate]. cbn in H.
    destruct (for_each body xs) as [rs' |]; [| discriminate]. cbn in H.
    injection H as <-. constructor; auto.
Qed.


Lemma for_each_length {A B : Type} (body : A -> result B) (xs : list A)
  (rs : list B) :
  for_each body xs = Ok rs -> List.length rs = List.length xs.
Proof.
  intros H. apply for_each_Ok in H.
  induction H; cbn; congruence.
Qed.

Lemma for_each_flat_In {A B : Type} (body : A -> result (list B))
  (xs : list A) (rs : list B) (r : B) :
  for_each_flat body xs = Ok rs -> In r rs ->
  exists x part, In x xs /\ body x = Ok part /\ In r part.
Proof.
  revert rs. induction xs as [| x xs IH]; intros rs H Hin; cbn in H.
  - injection H as <-. destruct Hin.
  - destruct (body x) as [part |] eqn:Hx; [| discriminate]. cbn in H.
    destruct (for_each_flat body xs) as [rs' |]; [| discriminate].
    cbn in H. injection H as <-.
    apply in_app_or in Hin as [Hin | Hin].
    + exists x, part. cbn. auto.
    + destruct (IH rs' eq_refl Hin) as (x' & part' & ? & ? & ?).
      exists x', part'. cbn. auto.
Qed.

Lemma for_each_In {A B : Type} (body : A -> result B) (xs : list A)
  (rs : list B) (r : B) :
  for_each body xs = Ok rs -> In r rs ->
  exists x, In x xs /\ body x = Ok r.
Proof.
  intros H. apply for_each_Ok in H.
  induction H as [| x r' xs rs Hx _ IH]; intros Hin; [destruct Hin |].
  destruct Hin as [<- | Hin].
  - exists x. cbn. auto.
  - destruct (IH Hin) as (x' & ? & ?). exists x'. cbn. auto.
Qed.

(* ================================================================== *)
(** ** Rounding and the growth formula *)

Lemma pow2_pos (e : Z) : (0 < pow2 e)%Q.
Proof. apply Qpower_0_lt. reflexivity. Qed.

Lemma pow2_add (a b : Z) : (pow2 (a + b) == pow2 a * pow2 b)%Q.
Proof. apply Qpower_plus. discriminate. Qed.

Lemma pow2_le (a b : Z) : a <= b -> (pow2 a <= pow2 b)%Q.
Proof. intros H. apply Qpower_le_compat_l; [exact H | discriminate]. Qed.

Lemma pow2_lt_inv (a b : Z) : (pow2 a < pow2 b)%Q -> a < b.
Proof. intros H. apply (Qpower_lt_compat_l_inv 2); [exact H | reflexivity]. Qed.

Lemma pow2_Z (a : Z) : 0 <= a -> (pow2 a == inject_Z (2 ^ a))%Q.
Proof. intros H. unfold pow2. rewrite Zpower_Qpower by exact H. reflexivity. Qed.

Lemma ilog2_spec (q : Q) :
  (0 < q)%Q -> (pow2 (ilog2 q) <= q)%Q /\ (q < pow2 (ilog2 q + 1))%Q.
Proof.
  intros Hq. destruct q as [n d]. unfold ilog2. cbn [Qnum Qden].
  assert (Hn : 0 < n) by (unfold Qlt in Hq; cbn in Hq; lia).
  set (a := Z.log2 n). set (b := Z.log2 (Z.pos d)).
  assert (Ha0 : 0 <= a) by apply Z.log2_nonneg.
  assert (Hb0 : 0 <= b) by apply Z.log2_nonneg.
  destruct (Z.log2_spec n Hn) as [Ha1 Ha2]. fold a in Ha1, Ha2.
  destruct (Z.log2_spec (Z.pos d) (Pos2Z.is_pos d)) as [Hb1 Hb2].
  fold b in Hb1, Hb2.
  assert (En : (n # d == inject_Z n / inject_Z (Z.pos d))%Q)
    by apply Qmake_Qdiv.
  assert (Hd : (0 < inject_Z (Z.pos d))%Q) by reflexivity.
  assert (Hsucc : forall x, Z.succ x = x + 1) by (intros; lia).
  rewrite Hsucc in Ha2, Hb2.
  assert (Hpa : 0 < 2 ^ a) by (apply Z.pow_pos_nonneg; lia).
  assert (Hpb : 0 < 2 ^ b) by (apply Z.pow_pos_nonneg; lia).
  (* the quotient lies strictly between 2^(a-b-1) and 2^(a-b+1) *)
  assert (Hup : (n # d < pow2 (a - b + 1))%Q).
  { apply Qnot_le_lt. intros H.
    apply (Qmult_le_compat_r _ _ (pow2 b)) in H;
      [| apply Qlt_le_weak, pow2_pos].
    rewrite <- pow2_add in H.
    replace (a - b + 1 + b) with (a + 1) in H by lia.
    rewrite (pow2_Z (a + 1)), (pow2_Z b) in H by lia.
    unfold Qle, Qmult, inject_Z in H. cbn [Qnum Qden] in H.
    rewrite Pos.mul_1_r in H.
    assert (n * 2 ^ b < 2 ^ (a + 1) * 2 ^ b) by nia.
    nia. }
  assert (Hlow : (pow2 (a - b - 1) < n # d)%Q).
  { apply Qnot_le_lt. intros H.
    apply (Qmult_le_compat_r _ _ (pow2 (b + 1))) in H;
      [| apply Qlt_le_weak, pow2_pos].
    rewrite <- pow2_add in H.
    replace (a - b - 1 + (b + 1)) with a in H by lia.
    rewrite (pow2_Z a), (pow2_Z (b + 1)) in H by lia.
    unfold Qle, Qmult, inject_Z in H. cbn [Qnum Qden] in H.
    rewrite Pos.mul_1_r in H.
    assert (2 ^ a * Z.pos d < 2 ^ a * 2 ^ (b + 1)) by nia.
    nia. }
  destruct (Qle_bool (pow2 (a - b)) (n # d)) eqn:E.
  - apply Qle_bool_iff in E. split; assumption.
  - assert (Hlt : (n # d < pow2 (a - b))%Q).
    { apply Qnot_le_lt. intros H. apply Qle_bool_iff in H. congruence. }
    replace (a - b - 1 + 1) with (a - b) by lia.
    split; [apply Qlt_le_weak; exact Hlow | exact Hlt].
Qed.

Lemma rint_comp (p q : Q) : (p == q)%Q -> rint p = rint q.
Proof.
  intros H. unfold rint.
  rewrite (Qfloor_comp _ _ H).
  assert (E : (p - inject_Z (Qfloor q) == q - inject_Z (Qfloor q))%Q)
    by (rewrite H; reflexivity).
  rewrite (Qcompare_comp _ _ E _ _ (Qeq_refl (1 # 2))).
  reflexivity.
Qed.

(** The result is within one half of the argument. *)
Lemma rint_near (q : Q) :
  (inject_Z (rint q) - (1 # 2) <= q)%Q /\ (q <= inject_Z (rint q) + (1 # 2))%Q.
Proof.
  pose proof (Qfloor_le q) as Hlo.
  pose proof (Qlt_floor q) as Hhi.
  rewrite inject_Z_plus in Hhi. change (inject_Z 1) with 1%Q in Hhi.
  unfold rint.
  destruct ((q - inject_Z (Qfloor q)) ?= 1 # 2)%Q eqn:E.
  - apply Qeq_alt in E.
    destruct (Z.even (Qfloor q));
      [| rewrite inject_Z_plus; change (inject_Z 1) with 1%Q]; split; lra.
  - apply Qlt_alt in E. split; lra.
  - apply Qgt_alt in E. rewrite inject_Z_plus.
    change (inject_Z 1) with 1%Q. split; lra.
Qed.

Lemma rint_le (q : Q) (b : Z) : (q <= inject_Z b)%Q -> rint q <= b.
Proof.
  intros H. destruct (rint_near q) as [H1 _].
  assert (Hlt : (inject_Z (rint q) < inject_Z (b + 1))%Q)
    by (rewrite inject_Z_plus; change (inject_Z 1) with 1%Q; lra).
  rewrite <- Zlt_Qlt in Hlt. lia.
Qed.

Lemma rint_ge (q : Q) (a : Z) : (inject_Z a <= q)%Q -> a <= rint q.
Proof.
  intros H. destruct (rint_near q) as [_ H2].
  assert (Hlt : (inject_Z (a - 1) < inject_Z (rint q))%Q)
    by (unfold Z.sub; rewrite inject_Z_plus, inject_Z_opp;
        change (inject_Z 1) with 1%Q; lra).
  rewrite <- Zlt_Qlt in Hlt. lia.
Qed.

Lemma rint_mono (p q : Q) : (p <= q)%Q -> rint p <= rint q.
Proof.
  intros H.
  destruct (Z.le_gt_cases (rint p) (rint q)) as [Hle | Hgt]; [exact Hle |].
  exfalso.
  destruct (rint_near p) as [Hp _]. destruct (rint_near q) as [_ Hq].
  assert (Hz : (inject_Z (rint q + 1) <= inject_Z (rint p))%Q)
    by (rewrite <- Zle_Qle; lia).
  rewrite inject_Z_plus in Hz. change (inject_Z 1) with 1%Q in Hz.
  assert (E : (p == q)%Q) by lra.
  rewrite (rint_comp _ _ E) in Hgt. lia.
Qed.

Lemma rint_Z (z : Z) : rint (inject_Z z) = z.
Proof.
  pose proof (rint_le (inject_Z z) z (Qle_refl _)).
  pose proof (rint_ge (inject_Z z) z (Qle_refl _)). lia.
Qed.

Lemma Qzero_bool_iff (q : Q) : Qzero_bool q = true <-> (q == 0)%Q.
Proof.
  unfold Qzero_bool, Qeq. cbn. rewrite Z.eqb_eq. lia.
Qed.

(** A positive number rounds into the binade it lies in. *)
Lemma round_float64_binade (q : Q) :
  (0 < q)%Q ->
  (pow2 (ilog2 q) <= round_float64 q)%Q
  /\ (round_float64 q <= pow2 (ilog2 q + 1))%Q.
Proof.
  intros Hq. unfold round_float64.
  assert (Hz : Qzero_bool q = false).
  { destruct (Qzero_bool q) eqn:E; [| reflexivity].
    apply Qzero_bool_iff in E. lra. }
  rewrite Hz. cbv zeta.
  assert (Ea : (Qabs q == q)%Q) by (apply Qabs_pos; lra).
  assert (El : ilog2 (Qabs q) = ilog2 q).
  { destruct (ilog2_spec q Hq) as [A1 A2].
    assert (Hq' : (0 < Qabs q)%Q) by lra.
    destruct (ilog2_spec (Qabs q) Hq') as [B1 B2].
    assert (ilog2 q < ilog2 (Qabs q) + 1)
      by (apply pow2_lt_inv; lra).
    assert (ilog2 (Qabs q) < ilog2 q + 1)
      by (apply pow2_lt_inv; lra).
    lia. }
  rewrite El. set (L := ilog2 q).
  destruct (ilog2_spec q Hq) as [H1 H2]. fold L in H1, H2.
  rewrite Qred_correct.
  pose proof (pow2_pos (L - 52)) as He.
  assert (E52 : (pow2 L == inject_Z (2 ^ 52) * pow2 (L - 52))%Q).
  { rewrite <- (pow2_Z 52) by lia. rewrite <- pow2_add.
    replace (52 + (L - 52)) with L by lia. reflexivity. }
  assert (E53 : (pow2 (L + 1) == inject_Z (2 ^ 53) * pow2 (L - 52))%Q).
  { rewrite <- (pow2_Z 53) by lia. rewrite <- pow2_add.
    replace (53 + (L - 52)) with (L + 1) by lia. reflexivity. }
  split.
  - rewrite E52. apply Qmult_le_compat_r; [| lra].
    rewrite <- Zle_Qle. apply rint_ge.
    apply Qle_shift_div_l; [exact He | lra].
  - rewrite E53. apply Qmult_le_compat_r; [| lra].
    rewrite <- Zle_Qle. apply rint_le.
    apply Qle_shift_div_r; [exact He | lra].
Qed.

Lemma ilog2_mono (x y : Q) : (0 < x)%Q -> (x <= y)%Q -> ilog2 x <= ilog2 y.
Proof.
  intros Hx Hxy.
  destruct (ilog2_spec x Hx) as [A1 _].
  destruct (ilog2_spec y) as [_ B2]; [lra |].
  assert (ilog2 x < ilog2 y + 1) by (apply pow2_lt_inv; lra). lia.
Qed.

Lemma round_float64_0 : round_float64 0 = 0%Q.
Proof. reflexivity. Qed.


Lemma ilog2_unique (q : Q) (L : Z) :
  (pow2 L <= q)%Q -> (q < pow2 (L + 1))%Q -> ilog2 q = L.
Proof.
  intros H1 H2.
  assert (Hq : (0 < q)%Q) by (pose proof (pow2_pos L); lra).
  destruct (ilog2_spec q Hq) as [A1 A2].
  assert (ilog2 q < L + 1) by (apply pow2_lt_inv; lra).
  assert (L < ilog2 q + 1) by (apply pow2_lt_inv; lra).
  lia.
Qed.

Lemma ilog2_comp (x y : Q) : (0 < x)%Q -> (x == y)%Q -> ilog2 x = ilog2 y.
Proof.
  intros Hx E. destruct (ilog2_spec x Hx) as [A1 A2].
  symmetry. apply ilog2_unique; lra.
Qed.

Lemma Qabs_nonzero (q : Q) : ~ (q == 0)%Q -> (0 < Qabs q)%Q.
Proof.
  intros H. pose proof (Qabs_nonneg q) as Hn.
  destruct (Qlt_le_dec 0 (Qabs q)) as [Hlt | Hle]; [exact Hlt |].
  exfalso. apply H.
  destruct (Qlt_le_dec q 0) as [Hneg | Hpos].
  - rewrite Qabs_neg in Hle by lra. lra.
  - rewrite Qabs_pos in Hle by lra. lra.
Qed.

Lemma round_float64_comp (x y : Q) :
  (x == y)%Q -> round_float64 x = round_float64 y.
Proof.
  intros E. unfold round_float64.
  assert (Ez : Qzero_bool x = Qzero_bool y).
  { destruct (Qzero_bool x) eqn:Ex, (Qzero_bool y) eqn:Ey; try reflexivity.
    - apply Qzero_bool_iff in Ex.
      assert (Hy : (y == 0)%Q) by lra.
      apply Qzero_bool_iff in Hy. congruence.
    - apply Qzero_bool_iff in Ey.
      assert (Hx : (x == 0)%Q) by lra.
      apply Qzero_bool_iff in Hx. congruence. }
  rewrite Ez. destruct (Qzero_bool y) eqn:Ey; [reflexivity |].
  cbv zeta.
  assert (Hx : ~ (x == 0)%Q).
  { intros H. assert (Hy : (y == 0)%Q) by lra.
    apply Qzero_bool_iff in Hy. congruence. }
  assert (Ea : (Qabs x == Qabs y)%Q) by (rewrite E; reflexivity).
  rewrite (ilog2_comp (Qabs x) (Qabs y) (Qabs_nonzero x Hx) Ea).
  apply Qred_complete.
  rewrite (rint_comp (x / pow2 (ilog2 (Qabs y) - 52))
                     (y / pow2 (ilog2 (Qabs y) - 52)))
    by (rewrite E; reflexivity).
  reflexivity.
Qed.

(** Rounding keeps the order of non-negative numbers. *)
Lemma round_float64_mono (x y : Q) :
  (0 <= x)%Q -> (x <= y)%Q -> (round_float64 x <= round_float64 y)%Q.
Proof.
  intros Hx Hxy.
  destruct (Qlt_le_dec 0 x) as [Hpos | Hzero].
  2:{ assert (E : (x == 0)%Q) by lra.
      rewrite (round_float64_comp x 0 E). rewrite round_float64_0.
      destruct (Qlt_le_dec 0 y) as [Hy | Hy].
      - destruct (round_float64_binade y Hy) as [B _].
        pose proof (pow2_pos (ilog2 y)). lra.
      - assert (E' : (y == 0)%Q) by lra.
        rewrite (round_float64_comp y 0 E'). rewrite round_float64_0. lra. }
  assert (Hy : (0 < y)%Q) by lra.
  pose proof (ilog2_mono x y Hpos Hxy) as HL.
  destruct (Z.eq_dec (ilog2 x) (ilog2 y)) as [EL | NL].
  - unfold round_float64.
    assert (Zx : Qzero_bool x = false).
    { destruct (Qzero_bool x) eqn:Z0; [| reflexivity].
      apply Qzero_bool_iff in Z0. lra. }
    assert (Zy : Qzero_bool y = false).
    { destruct (Qzero_bool y) eqn:Z0; [| reflexivity].
      apply Qzero_bool_iff in Z0. lra. }
    rewrite Zx, Zy. cbv zeta.
    assert (Ax : (Qabs x == x)%Q) by (apply Qabs_pos; lra).
    assert (Ay : (Qabs y == y)%Q) by (apply Qabs_pos; lra).
    rewrite (ilog2_comp (Qabs x) x) by lra.
    rewrite (ilog2_comp (Qabs y) y) by lra.
    rewrite EL. rewrite !Qred_correct.
    pose proof (pow2_pos (ilog2 y - 52)) as He.
    apply Qmult_le_compat_r; [| lra].
    rewrite <- Zle_Qle. apply rint_mono.
    apply Qmult_le_compat_r; [exact Hxy |].
    apply Qlt_le_weak, Qinv_lt_0_compat. exact He.
  - destruct (round_float64_binade x Hpos) as [_ Bx].
    destruct (round_float64_binade y Hy) as [By _].
    pose proof (pow2_le (ilog2 x + 1) (ilog2 y)). 
    assert (pow2 (ilog2 x + 1) <= pow2 (ilog2 y))%Q by (apply pow2_le; lia).
    lra.
Qed.

(** Only zero rounds to zero. *)
Lemma round_float64_zero (q : Q) :
  Qzero_bool (round_float64 q) = Qzero_bool q.
Proof.
  destruct (Qzero_bool q) eqn:Hz.
  - unfold round_float64. rewrite Hz. reflexivity.
  - destruct (Qzero_bool (round_float64 q)) eqn:Hr; [| reflexivity].
    exfalso. apply Qzero_bool_iff in Hr.
    assert (Hq : ~ (q == 0)%Q)
      by (intros H; apply Qzero_bool_iff in H; congruence).
    destruct (Qlt_le_dec 0 q) as [Hpos | Hneg].
    + destruct (round_float64_binade q Hpos) as [B _].
      pose proof (pow2_pos (ilog2 q)). lra.
    + assert (Hlt : (q < 0)%Q) by (destruct (Qle_lt_or_eq _ _ Hneg); [assumption | contradiction]).
      unfold round_float64 in Hr. rewrite Hz in Hr. cbv zeta in Hr.
      rewrite Qred_correct in Hr.
      set (L := ilog2 (Qabs q)) in *.
      assert (Ha : (Qabs q == - q)%Q) by (apply Qabs_neg; lra).
      destruct (ilog2_spec (Qabs q) (Qabs_nonzero q Hq)) as [H1 _].
      fold L in H1.
      pose proof (pow2_pos (L - 52)) as He.
      assert (E52 : (pow2 L == inject_Z (2 ^ 52) * pow2 (L - 52))%Q).
      { rewrite <- (pow2_Z 52) by lia. rewrite <- pow2_add.
        replace (52 + (L - 52)) with L by lia. reflexivity. }
      assert (Hr' : rint (q / pow2 (L - 52)) <= - 2 ^ 52).
      { apply rint_le. rewrite inject_Z_opp.
        apply Qle_shift_div_r; [exact He | lra]. }
      rewrite Zle_Qle in Hr'. rewrite inject_Z_opp in Hr'.
      assert (Hm : (inject_Z (rint (q / pow2 (L - 52))) * pow2 (L - 52)
                    <= - inject_Z (2 ^ 52) * pow2 (L - 52))%Q)
        by (apply Qmult_le_compat_r; lra).
      pose proof (pow2_pos L). lra.
Qed.

Lemma round2_comp (p q : Q) : p == q -> round2 (Fin p) = round2 (Fin q).
Proof.
  intros H. unfold round2. cbn [fmul].
  assert (E : (p * 100 == q * 100)%Q) by (rewrite H; reflexivity).
  rewrite (round_float64_comp _ _ E). reflexivity.
Qed.

Lemma Qzero_bool_inject_Z (z : Z) : Qzero_bool (inject_Z z) = (z =? 0).
Proof. reflexivity. Qed.

(** The cell computed by the weekly table is the rounded growth formula;
    a missing or zero previous count gives NaN. *)
Lemma week_over_week_growth_expected (prev : option Z) (curr : Z) :
  week_over_week_growth
    (match prev with Some p => of_int p | None => NaN end) curr
  = expected_growth prev curr.
Proof.
  destruct prev as [p |]; [| reflexivity].
  unfold week_over_week_growth, expected_growth, of_int.
  cbn [fsub fmul replace_zero_nan].
  rewrite round_float64_zero, Qzero_bool_inject_Z.
  destruct (p =? 0); reflexivity.
Qed.

Lemma round2_never_infinite (q : Q) : exists v, round2 (Fin q) = Fin v.
Proof. unfold round2. cbn. eexists. reflexivity. Qed.

Lemma expected_growth_never_infinite (prev : option Z) (curr : Z) :
  expected_growth prev curr = NaN
  \/ exists q, expected_growth prev curr = Fin q.
Proof.
  destruct prev as [p |]; cbn [expected_growth]; [| auto].
  destruct (p =? 0) eqn:Hp; [auto |]. right.
  unfold of_int. cbn [fsub fmul fdiv].
  rewrite round_float64_zero, Qzero_bool_inject_Z, Hp.
  apply round2_never_infinite.
Qed.

(* ================================================================== *)
(** ** Comparisons that order keys *)

Lemma cmp_refl {A : Type} (c : A -> A -> comparison) `{!CmpOrder c} (a : A) :
  c a a = Eq.
Proof.
  pose proof (cmp_opp a a) as H. destruct (c a a); cbn in H; congruence.
Qed.

Lemma cmp_eq_r {A : Type} (c : A -> A -> comparison) `{!CmpOrder c}
  (a b x : A) : c a b = Eq -> c x a = c x b.
Proof.
  intros H. rewrite (cmp_opp a x), (cmp_opp b x).
  f_equal. apply cmp_eq_l. assumption.
Qed.

Lemma cmp_gt_lt {A : Type} (c : A -> A -> comparison) `{!CmpOrder c}
  (a b : A) : c a b = Gt -> c b a = Lt.
Proof. intros H. rewrite cmp_opp, H. reflexivity. Qed.

#[local] Instance Z_compare_order : CmpOrder Z.compare.
Proof.
  split.
  - intros a b. apply Z.compare_antisym.
  - intros a b x H. apply Z.compare_eq in H. congruence.
  - intros a b x. rewrite !Z.compare_lt_iff. lia.
Qed.

#[local] Instance string_compare_order : CmpOrder String_as_OT.compare.
Proof.
  split.
  - intros a b.
    pose proof (@StrictOrder_Irreflexive _ _ String_as_OT.lt_strorder) as Irr.
    pose proof (@StrictOrder_Transitive _ _ String_as_OT.lt_strorder) as Tr.
    destruct (String_as_OT.compare_spec a b) as [E | L | L];
      destruct (String_as_OT.compare_spec b a) as [E' | L' | L'];
      unfold String_as_OT.eq in *; cbn; try reflexivity; exfalso; subst;
      try (apply (Irr a); assumption); try (apply (Irr b); assumption);
      apply (Irr a); apply (Tr a b a); assumption.
  - intros a b x H.
    destruct (String_as_OT.compare_spec a b) as [E | |]; try discriminate.
    unfold String_as_OT.eq in E. congruence.
  - intros a b x.
    apply (@StrictOrder_Transitive _ _ String_as_OT.lt_strorder).
Qed.

(** A comparison read through a projection. *)
#[local] Instance pullback_order {A B : Type} (c : B -> B -> comparison)
  (f : A -> B) `{!CmpOrder c} : CmpOrder (fun a b => c (f a) (f b)).
Proof.
  split; intros.
  - apply cmp_opp.
  - apply cmp_eq_l; assumption.
  - eapply cmp_lt_trans; eassumption.
Qed.

#[local] Instance lex_order {A : Type} (c1 c2 : A -> A -> comparison)
  `{!CmpOrder c1} `{!CmpOrder c2} : CmpOrder (fun a b => lex (c1 a b) (c2 a b)).
Proof.
  split.
  - intros a b. rewrite (cmp_opp (c := c1) a b), (cmp_opp (c := c2) a b).
    destruct (c1 a b); reflexivity.
  - intros a b x H. destruct (c1 a b) eqn:H1; cbn in H; try discriminate.
    rewrite (cmp_eq_l (c := c1) a b x H1), (cmp_eq_l (c := c2) a b x H).
    reflexivity.
  - intros a b x Hab Hbx.
    destruct (c1 a b) eqn:H1; cbn in Hab; try discriminate.
    + rewrite (cmp_eq_l (c := c1) a b x H1).
      destruct (c1 b x); cbn in *; try congruence.
      eapply cmp_lt_trans; eassumption.
    + destruct (c1 b x) eqn:H2; cbn in Hbx; try discriminate.
      * rewrite <- (cmp_eq_r c1 b x a H2), H1. reflexivity.
      * rewrite (cmp_lt_trans (c := c1) a b x H1 H2). reflexivity.
Qed.

Lemma compare_segment_text (a b : option UserSegment) :
  compare_segment a b =
  String_as_OT.compare (segment_text a) (segment_text b).
Proof. destruct a as [[] |], b as [[] |]; reflexivity. Qed.

Lemma compare_key_lex (a b : GroupKey) :
  compare_key a b =
  lex (k_period a ?= k_period b)
      (lex (String_as_OT.compare (k_event_type a) (k_event_type b))
           (lex (String_as_OT.compare (k_user_title a) (k_user_title b))
                (String_as_OT.compare (segment_text (k_user_segment a))
                                      (segment_text (k_user_segment b))))).
Proof.
  unfold compare_key, lex. rewrite compare_segment_text.
  destruct (k_period a ?= k_period b); try reflexivity.
  destruct (String_as_OT.compare (k_event_type a) (k_event_type b));
    try reflexivity.
  destruct (String_as_OT.compare (k_user_title a) (k_user_title b));
    reflexivity.
Qed.

#[local] Instance compare_key_order : CmpOrder compare_key.
Proof.
  pose proof
    (lex_order (fun a b => k_period a ?= k_period b)
       (fun a b =>
          lex (String_as_OT.compare (k_event_type a) (k_event_type b))
            (lex (String_as_OT.compare (k_user_title a) (k_user_title b))
               (String_as_OT.compare (segment_text (k_user_segment a))
                  (segment_text (k_user_segment b)))))) as O.
  destruct O as [Oopp Oeq Otr].
  split; intros; rewrite ?compare_key_lex in *; eauto.
Qed.

(* ================================================================== *)
(** ** Properties of the group-by *)

Section GroupByFacts.
Context {K R : Type}.
Variable cmp : K -> K -> comparison.
Context `{!CmpOrder cmp}.
Variable key : R -> option K.

(** A property of keys that holds of the new key and of the old groups
    holds of the groups after the insertion. *)
Lemma insert_group_keys (P : K -> Prop) (k : K) (r : R)
  (gs : list (K * list R)) :
  P k -> Forall (fun g => P (fst g)) gs ->
  Forall (fun g => P (fst g)) (insert_group cmp k r gs).
Proof.
  intros Hk. induction 1 as [| [k' rs] gs Hg Hgs IH]; cbn.
  - repeat constructor. assumption.
  - destruct (cmp k k'); repeat constructor; auto.
Qed.

Lemma insert_group_sorted (k : K) (r : R) (gs : list (K * list R)) :
  StronglySorted (key_lt cmp) gs ->
  StronglySorted (key_lt cmp) (insert_group cmp k r gs).
Proof.
  induction 1 as [| [k' rs] gs Hs IH Hall]; cbn.
  - repeat constructor.
  - destruct (cmp k k') eqn:E.
    + constructor; [assumption |].
      eapply Forall_impl; [| exact Hall]. intros g Hg. exact Hg.
    + constructor; [constructor; assumption |].
      constructor; [exact E |].
      eapply Forall_impl; [| exact Hall].
      intros g Hg. unfold key_lt in *. cbn in *.
      eapply cmp_lt_trans; eassumption.
    + constructor; [assumption |].
      apply (insert_group_keys (fun x => cmp k' x = Lt)).
      * apply cmp_gt_lt; assumption.
      * exact Hall.
Qed.

Lemma insert_group_nonempty (k : K) (r : R) (gs : list (K * list R)) :
  Forall (fun g => snd g <> []) gs ->
  Forall (fun g => snd g <> []) (insert_group cmp k r gs).
Proof.
  induction 1 as [| [k' rs] gs Hg Hgs IH]; cbn.
  - repeat constructor. discriminate.
  - destruct (cmp k k'); repeat constructor; auto; cbn.
    + destruct rs; discriminate.
    + discriminate.
Qed.

Lemma insert_group_sizes (k : K) (r : R) (gs : list (K * list R)) :
  group_sizes (insert_group cmp k r gs) = group_sizes gs + 1.
Proof.
  unfold group_sizes, len, sum.
  induction gs as [| [k' rs] gs IH]; cbn [insert_group]; [reflexivity |].
  destruct (cmp k k'); cbn [map fold_right snd List.length] in *.
  - rewrite length_app, Nat2Z.inj_add. cbn [List.length]. lia.
  - lia.
  - rewrite IH. lia.
Qed.

(** Induction over the rows fed to [group_rows], first row first. *)
Lemma group_rows_invariant (P : list R -> list (K * list R) -> Prop) :
  P [] [] ->
  (forall done gs r k,
      P done gs -> key r = Some k ->
      P (done ++ [r]) (insert_group cmp k r gs)) ->
  (forall done gs r, P done gs -> key r = None -> P (done ++ [r]) gs) ->
  forall rows, P rows (group_rows cmp key rows).
Proof.
  intros H0 Hsome Hnone rows. unfold group_rows.
  enough (G : forall done gs,
             P done gs ->
             P (done ++ rows)
               (fold_left
                  (fun gs r =>
                     match key r with
                     | Some k => insert_group cmp k r gs
                     | None => gs
                     end) rows gs))
    by (apply (G [] []); exact H0).
  induction rows as [| r rows IH]; intros done gs H; cbn.
  - rewrite app_nil_r. exact H.
  - replace (done ++ r :: rows) with ((done ++ [r]) ++ rows)
      by (rewrite <- app_assoc; reflexivity).
    apply IH. destruct (key r) eqn:E; eauto.
Qed.

Lemma group_rows_sorted (rows : list R) :
  StronglySorted (key_lt cmp) (group_rows cmp key rows).
Proof.
  apply (group_rows_invariant (fun _ gs => StronglySorted (key_lt cmp) gs));
    auto using insert_group_sorted. constructor.
Qed.

Lemma group_rows_nonempty (rows : list R) :
  Forall (fun g => snd g <> []) (group_rows cmp key rows).
Proof.
  apply (group_rows_invariant
           (fun _ gs => Forall (fun g => snd g <> []) gs));
    auto using insert_group_nonempty.
Qed.

Lemma group_rows_keys (rows : list R) :
  Forall (fun g => exists r, key r = Some (fst g))
         (group_rows cmp key rows).
Proof.
  apply (group_rows_invariant
           (fun _ gs => Forall (fun g => exists r, key r = Some (fst g)) gs));
    auto.
  intros done gs r k H E.
  apply (insert_group_keys (fun x => exists r, key r = Some x)); eauto.
Qed.

(** The groups partition the rows that have a key. *)
Lemma group_rows_sizes (rows : list R) :
  group_sizes (group_rows cmp key rows) = len (filter (has_key key) rows).
Proof.
  apply (group_rows_invariant
           (fun done gs => group_sizes gs = len (filter (has_key key) done))).
  - reflexivity.
  - intros done gs r k H E. rewrite insert_group_sizes, H.
    assert (Hk : has_key key r = true)
      by (unfold has_key; rewrite E; reflexivity).
    rewrite filter_app. cbn [filter]. rewrite Hk.
    unfold len. rewrite length_app. cbn [List.length]. lia.
  - intros done gs r H E. rewrite H, filter_app.
    assert (Hk : has_key key r = false)
      by (unfold has_key; rewrite E; reflexivity).
    cbn [filter]. rewrite Hk, app_nil_r. reflexivity.
Qed.
End GroupByFacts.

(* ================================================================== *)
(** ** Week-over-week growth *)

Lemma filter_map_swap {A B : Type} (f : B -> bool) (g : A -> B) (l : list A) :
  filter f (map g l) = map g (filter (fun x => f (g x)) l).
Proof.
  induction l as [| x l IH]; [reflexivity |].
  cbn. destruct (f (g x)); cbn; rewrite IH; reflexivity.
Qed.

Lemma find_ext {A : Type} (f g : A -> bool) (l : list A) :
  (forall x, f x = g x) -> find f l = find g l.
Proof.
  intros H. induction l as [| x l IH]; [reflexivity |].
  cbn. rewrite H, IH. reflexivity.
Qed.

Lemma prev_week_events_length (earlier rows : list CoreMetrics) :
  List.length (prev_week_events earlier rows) = List.length rows.
Proof.
  revert earlier. induction rows as [| r rows IH]; intros earlier;
    [reflexivity |].
  cbn. rewrite IH. reflexivity.
Qed.

Lemma zip_with_weekly_core (cs : list CoreMetrics) (ps : list pyfloat) :
  List.length ps = List.length cs ->
  map core (zip_with weekly_record cs ps) = cs.
Proof.
  revert ps. induction cs as [| c cs IH]; intros [| p ps] H;
    try discriminate; [reflexivity |].
  cbn. rewrite IH; [reflexivity | cbn in H; lia].
Qed.

Lemma weekly_records_core (groups : list (GroupKey * list PerformanceRow)) :
  map core (weekly_records groups) = map (aggregate Weekly) groups.
Proof.
  unfold weekly_records. apply zip_with_weekly_core.
  apply prev_week_events_length.
Qed.

(** Inside a series, [same_series] with a row of the series is the
    membership test of the series. *)
Lemma same_series_in_series (ty title : string) (r x : CoreMetrics) :
  in_series ty title r = true -> same_series r x = in_series ty title x.
Proof.
  unfold in_series, same_series. intros H.
  apply andb_true_iff in H as [H1 H2].
  apply String.eqb_eq in H1, H2. subst. reflexivity.
Qed.

Section Series.
Variables ty title : string.

(** Along the rows of one series, each cell is the growth from the
    previous row of the same series. *)
Lemma series_growth (cores earlier : list CoreMetrics) :
  let rows := zip_with weekly_record cores (prev_week_events earlier cores) in
  map growth_cell (series_of ty title rows)
  = map Some
      (expected_series_growth
         (option_map total_events (find (in_series ty title) earlier))
         (map total_events (filter (in_series ty title) cores)))
  /\ map core (series_of ty title rows) = filter (in_series ty title) cores.
Proof.
  revert earlier. induction cores as [| c cs IH]; intros earlier;
    [split; reflexivity |].
  cbn zeta. cbn [prev_week_events zip_with].
  unfold series_of. cbn [filter weekly_record core].
  fold (series_of ty title
          (zip_with weekly_record cs (prev_week_events (c :: earlier) cs))).
  destruct (IH (c :: earlier)) as [IHg IHc]. cbn zeta in IHg, IHc.
  cbn [find] in IHg.
  destruct (in_series ty title c) eqn:Hc.
  - cbn [map expected_series_growth]. rewrite IHg, IHc.
    split; [| reflexivity]. f_equal.
    unfold growth_cell at 1. cbn [by_grain week_over_week_growth_pct].
    f_equal.
    rewrite (find_ext (same_series c) (in_series ty title))
      by (intros x; apply same_series_in_series; exact Hc).
    rewrite <- week_over_week_growth_expected.
    destruct (find (in_series ty title) earlier); reflexivity.
  - rewrite IHg, IHc. split; reflexivity.
Qed.
End Series.

Lemma sorted_map_filter {A : Type} (R : A -> A -> Prop) (f : A -> bool)
  (h : A -> Z) (l : list A) :
  StronglySorted R l ->
  (forall a b, In a l -> In b l -> R a b ->
               f a = true -> f b = true -> h a < h b) ->
  StronglySorted Z.lt (map h (filter f l)).
Proof.
  induction 1 as [| a l Hs IH Hall]; intros Hlt; [constructor |].
  cbn. assert (Hrest : StronglySorted Z.lt (map h (filter f l))).
  { apply IH. intros x y Hx Hy. apply Hlt; right; assumption. }
  destruct (f a) eqn:Ha; [| exact Hrest].
  cbn. constructor; [exact Hrest |].
  apply Forall_forall. intros z Hz.
  apply in_map_iff in Hz as (b & <- & Hb).
  apply filter_In in Hb as [Hb Hfb].
  apply Hlt; auto.
  - left; reflexivity.
  - right; assumption.
  - rewrite Forall_forall in Hall. apply Hall. assumption.
Qed.

Lemma weekly_key_segment (r : PerformanceRow) (k : GroupKey) :
  key_of Weekly r = Some k -> k_user_segment k = None.
Proof.
  unfold key_of. destruct (p_event_type r), (p_user_title r);
    try discriminate.
  intros H. injection H as <-. reflexivity.
Qed.

(** Two weekly keys of one series in ascending key order are in ascending
    week order. *)
Lemma weekly_keys_of_series (a b : GroupKey) :
  k_user_segment a = None -> k_user_segment b = None ->
  k_event_type a = k_event_type b -> k_user_title a = k_user_title b ->
  compare_key a b = Lt -> k_period a < k_period b.
Proof.
  intros Ha Hb Hty Htitle. unfold compare_key.
  rewrite Ha, Hb, Hty, Htitle, !(cmp_refl String_as_OT.compare).
  cbn. destruct (k_period a ?= k_period b) eqn:E; try discriminate.
  intros _. apply Z.compare_lt_iff. exact E.
Qed.

Lemma weekly_series_sorted (rows : list PerformanceRow) (ty title : string) :
  StronglySorted Z.lt
    (map (fun r => time_period (core r))
       (series_of ty title
          (weekly_records (group_rows compare_key (key_of Weekly) rows)))).
Proof.
  set (groups := group_rows compare_key (key_of Weekly) rows).
  pose proof (series_growth ty title (map (aggregate Weekly) groups) [])
    as [_ Hcore].
  cbn zeta in Hcore. fold (weekly_records groups) in Hcore.
  rewrite <- (map_map core time_period), Hcore.
  rewrite filter_map_swap, map_map.
  apply (sorted_map_filter (key_lt compare_key)).
  - apply group_rows_sorted. exact compare_key_order.
  - intros [ka ra] [kb rb] Ina Inb Hlt Ha Hb.
    pose proof (group_rows_keys compare_key (key_of Weekly) rows) as Hkeys.
    rewrite Forall_forall in Hkeys.
    destruct (Hkeys _ Ina) as [xa Hxa], (Hkeys _ Inb) as [xb Hxb].
    cbn in *. unfold in_series in Ha, Hb. cbn in Ha, Hb.
    apply andb_true_iff in Ha as [Ha1 Ha2], Hb as [Hb1 Hb2].
    apply String.eqb_eq in Ha1, Ha2, Hb1, Hb2.
    apply weekly_keys_of_series;
      eauto using weekly_key_segment; congruence.
Qed.

(** C5: in the weekly table, along every (event_type, user_title) series
    the weeks ascend, and the growth cell of a row is
    (current - previous) * 100 / previous in float64 arithmetic, rounded to
    two decimals as numpy rounds, where previous is the count of the
    preceding row of the series; it is NaN for the first row of a series
    and for a previous count of zero, and never an infinity.  Growth from
    0 to 5 is NaN, from 10 to 15 is 50.0 and from 4000 to 4023 is 0.57. *)
Theorem week_over_week_growth_by_series
  (rows : list PerformanceRow) (ty title : string) :
  let weekly := weekly_records (group_rows compare_key (key_of Weekly) rows) in
  let series := series_of ty title weekly in
  StronglySorted Z.lt (map (fun r => time_period (core r)) series)
  /\ map growth_cell series
     = map Some
         (expected_series_growth None
            (map (fun r => total_events (core r)) series))
  /\ (forall prev curr,
         expected_growth prev curr = NaN
         \/ exists q, expected_growth prev curr = Fin q)
  /\ week_over_week_growth (of_int 0) 5 = NaN
  /\ week_over_week_growth (of_int 10) 15 = Fin 50
  /\ week_over_week_growth (of_int 4000) 4023 = decimal2 57.
Proof.
  cbn zeta. split; [apply weekly_series_sorted |].
  split; [| split; [apply expected_growth_never_infinite |
                    split; [| split]; vm_compute; reflexivity]].
  set (groups := group_rows compare_key (key_of Weekly) rows).
  destruct (series_growth ty title (map (aggregate Weekly) groups) [])
    as [Hg Hc].
  cbn zeta in Hg, Hc. fold (weekly_records groups) in Hg, Hc.
  rewrite Hg. rewrite <- (map_map core total_events), Hc. reflexivity.
Qed.

(** Three events in week 15, none in week 16 and four in week 17: the
    growth cell of week 17 is not absent, although the series has no row
    for the previous week, and it holds 33.33, which is neither the
    quotient that the formula gives in float64 arithmetic nor 100/3. *)
Lemma growth_after_a_skipped_week_is_rounded :
  exists tables first second,
    snd (event_performance_tables
           (load_harvey_data sample_users sample_firms skipping_events))
    = Ok tables
    /\ series_of "ASSISTANT" "Associate" (records (weekly_table tables))
       = [first; second]
    /\ time_period (core first) = 15
    /\ time_period (core second) = 17
    /\ total_events (core first) = 3
    /\ total_events (core second) = 4
    /\ growth_cell second = Some (decimal2 3333)
    /\ growth_cell second <> Some NaN
    /\ growth_cell second
       <> Some (fdiv (fmul (fsub (of_int 4) (of_int 3)) (Fin 100))
                     (of_int 3))
    /\ ~ (round_float64 (3333 # 100) == inject_Z ((4 - 3) * 100) / inject_Z 3)%Q.
Proof.
  eexists. eexists. eexists.
  split; [vm_compute; reflexivity |].
  split; [vm_compute; reflexivity |].
  do 4 (split; [reflexivity |]).
  split; [vm_compute; reflexivity |].
  split; [vm_compute; discriminate |].
  split; [vm_compute; discriminate |].
  intros H. vm_compute in H. discriminate.
Qed.

(* ================================================================== *)
(** ** The stores after the in-place assignments *)

Lemma set_user_created_date_same (u : User) :
  set_user_created_date to_datetime u = u.
Proof. destruct u; reflexivity. Qed.

Lemma set_event_created_at_same (e : Event) :
  set_event_created_at to_datetime e = e.
Proof. destruct e; reflexivity. Qed.

Lemma map_same {A : Type} (f : A -> A) (l : list A) :
  (forall x, f x = x) -> map f l = l.
Proof.
  intros H. induction l as [| x l IH]; [reflexivity |].
  cbn. rewrite H, IH. reflexivity.
Qed.

Lemma users_reparsed (us : list User) :
  map (set_user_created_date to_datetime) us = us.
Proof. apply map_same, set_user_created_date_same. Qed.

Lemma events_reparsed (es : list Event) :
  map (set_event_created_at to_datetime) es = es.
Proof. apply map_same, set_event_created_at_same. Qed.

(** Re-assigning a column the frame has, with the values it holds, leaves
    the frame as it was. *)
Lemma assign_existing_column {R : Type} (c : string) (upd : R -> R)
  (df : Frame R) :
  has_column df c = true -> (forall r, upd r = r) ->
  assign_column c upd df = df.
Proof.
  intros Hc Hupd. unfold assign_column. rewrite Hc, (map_same upd) by auto.
  destruct df; reflexivity.
Qed.

(* ================================================================== *)
(** ** The aggregator in closed form *)

Lemma require_columns_labels {R : Type} (cols : list string)
  (rows : list R) (labels : list string) :
  require_columns (mkFrame cols rows) labels
  = require_columns (mkFrame cols (@nil R)) labels.
Proof.
  unfold require_columns.
  replace (missing_label (mkFrame cols rows) labels)
    with (missing_label (mkFrame cols (@nil R)) labels); [reflexivity |].
  induction labels as [| l labels IH]; [reflexivity |].
  cbn [missing_label]. unfold has_column. cbn [columns].
  rewrite IH. reflexivity.
Qed.

Lemma groupby_with_columns (g : Grain) (data : list PerformanceRow) :
  groupby g (mkFrame event_performance_columns data)
  = Ok (grain_groups g data).
Proof.
  unfold groupby. rewrite require_columns_labels.
  destruct g; reflexivity.
Qed.

Lemma groupby_without_columns (g : Grain) :
  groupby g (DataFrame_of_dicts event_performance_columns [])
  = Raise (KeyError (hd "" (key_columns g))).
Proof. destruct g; reflexivity. Qed.

Lemma select_columns_ok (cols labels : list string)
  (rows : list (list cell)) :
  require_columns (mkFrame cols (@nil (list cell))) labels = Ok tt ->
  select_columns labels (mkFrame cols rows)
  = Ok (mkFrame labels (map (fun row => map (cell_at cols row) labels) rows)).
Proof.
  intros H. unfold select_columns. rewrite require_columns_labels, H.
  reflexivity.
Qed.

Lemma set_cell_new (labels : list string) (row : list cell)
  (label : string) (v : cell) :
  existsb (String.eqb label) labels = false ->
  set_cell labels row label v = row ++ [v].
Proof.
  revert row. induction labels as [| l labels IH]; intros row H.
  - destruct row; reflexivity.
  - cbn [existsb] in H. apply orb_false_iff in H as [Hl H].
    destruct row as [| x row]; [reflexivity |].
    cbn [set_cell]. rewrite Hl, (IH row H). reflexivity.
Qed.

(** Assigning a label the frame lacks adds a column of [None]. *)
Lemma assign_none_new (label : string) (cols : list string)
  (rows : list (list cell)) :
  existsb (String.eqb label) cols = false ->
  assign_none label (mkFrame cols rows)
  = mkFrame (cols ++ [label]) (map (fun row => row ++ [PyNone]) rows).
Proof.
  intros H. unfold assign_none, assign_column, has_column.
  cbn [columns records]. rewrite H. f_equal.
  apply map_ext. intros row. apply set_cell_new. exact H.
Qed.

Lemma union_frames_closed (daily weekly monthly : list MetricsRow) :
  union_frames (mkFrame daily_metrics_columns daily)
               (mkFrame weekly_metrics_columns weekly)
               (mkFrame monthly_metrics_columns monthly)
  = Ok (mkFrame daily_union_labels (map daily_union_record daily),
        mkFrame weekly_union_labels (map weekly_union_record weekly),
        mkFrame monthly_union_labels (map monthly_union_record monthly)).
Proof.
  unfold union_frames, cells_of. cbn [columns records].
  rewrite !select_columns_ok by reflexivity. cbn [bind].
  rewrite !assign_none_new by reflexivity.
  rewrite !map_map.
  unfold daily_union_labels, weekly_union_labels, monthly_union_labels.
  rewrite <- !app_assoc. cbn [app].
  assert (Ed : forall rows : list MetricsRow,
             map (fun r => ((map (cell_at daily_metrics_columns (row_cells r))
                                 daily_union_columns ++ [PyNone])
                            ++ [PyNone]) ++ [PyNone]) rows
             = map daily_union_record rows).
  { intros rows. apply map_ext. intros r. unfold daily_union_record.
    rewrite <- !app_assoc. reflexivity. }
  assert (Ew : forall rows : list MetricsRow,
             map (fun r => ((((map (cell_at weekly_metrics_columns
                                            (row_cells r))
                                   weekly_union_columns ++ [PyNone])
                              ++ [PyNone]) ++ [PyNone]) ++ [PyNone])
                           ++ [PyNone]) rows
             = map weekly_union_record rows).
  { intros rows. apply map_ext. intros r. unfold weekly_union_record.
    rewrite <- !app_assoc. reflexivity. }
  rewrite Ed, Ew. reflexivity.
Qed.

Lemma combine_metrics_closed (daily weekly monthly : list MetricsRow) :
  combine_metrics (mkFrame daily_metrics_columns daily)
                  (mkFrame weekly_metrics_columns weekly)
                  (mkFrame monthly_metrics_columns monthly)
  = Ok (concat_frames
          [mkFrame daily_union_labels (map daily_union_record daily);
           mkFrame weekly_union_labels (map weekly_union_record weekly);
           mkFrame monthly_union_labels
                   (map monthly_union_record monthly)]).
Proof.
  unfold combine_metrics. rewrite union_frames_closed. reflexivity.
Qed.

Lemma aggregate_all_closed (data : list PerformanceRow) :
  aggregate_all (mkFrame event_performance_columns data)
  = Ok (tables_of data).
Proof.
  unfold aggregate_all, daily_metrics, weekly_metrics, monthly_metrics.
  rewrite !groupby_with_columns. cbn [bind].
  rewrite combine_metrics_closed. reflexivity.
Qed.

Lemma aggregate_all_no_columns :
  aggregate_all (DataFrame_of_dicts event_performance_columns [])
  = Raise (KeyError "event_date").
Proof. reflexivity. Qed.

Lemma iterrows_rows {A : Type} (start : Z) (l : list A) :
  map snd (iterrows start l) = l.
Proof.
  revert start. induction l as [| x l IH]; intros start; [reflexivity |].
  cbn. rewrite IH. reflexivity.
Qed.

Lemma iterrows_length {A : Type} (start : Z) (l : list A) :
  List.length (iterrows start l) = List.length l.
Proof. rewrite <- (iterrows_rows start l) at 2. symmetry. apply length_map. Qed.

(** The outcome of the whole function in terms of the per-event table. *)
Lemma event_performance_tables_closed (us : list User) (fs : list Firm)
  (es : list Event) :
  snd (event_performance_tables (load_harvey_data us fs es))
  = match es with
    | [] => Raise (KeyError "event_date")
    | _ :: _ => data <- event_performance_data us fs es ;; Ok (tables_of data)
    end.
Proof.
  unfold event_performance_tables, load_harvey_data, assign_column.
  cbn [snd users_df firms_df events_df records].
  rewrite users_reparsed, events_reparsed.
  destruct es as [| e es]; [reflexivity |].
  destruct (event_performance_data us fs (e :: es)) as [data |] eqn:E;
    [| reflexivity].
  cbn [bind].
  pose proof (for_each_length _ _ _ E) as L.
  rewrite iterrows_length in L.
  destruct data as [| r data]; [discriminate |].
  apply aggregate_all_closed.
Qed.

(* ================================================================== *)
(** ** Event counts per grain *)

Lemma aggregate_total_events (g : Grain)
  (grp : GroupKey * list PerformanceRow) :
  total_events (aggregate g grp) = len (snd grp).
Proof.
  destruct grp as [k rows]. cbn. unfold len. rewrite length_map.
  reflexivity.
Qed.

Lemma aggregate_time_grain (g : Grain)
  (grp : GroupKey * list PerformanceRow) :
  time_grain (aggregate g grp) = g.
Proof. destruct grp; reflexivity. Qed.

Lemma aggregate_unique_users (g : Grain)
  (grp : GroupKey * list PerformanceRow) :
  unique_users (aggregate g grp) = nunique (map p_user_id (snd grp)).
Proof. destruct grp; reflexivity. Qed.

(** The core columns of a grain's table are the aggregates of its groups. *)
Lemma grain_table_core (g : Grain) (data : list PerformanceRow) :
  map core (records (grain_table g (tables_of data)))
  = map (aggregate g) (grain_groups g data).
Proof.
  destruct g; cbn [grain_table tables_of daily_table weekly_table
                   monthly_table records].
  - rewrite map_map. reflexivity.
  - apply weekly_records_core.
  - rewrite map_map. reflexivity.
Qed.

Lemma has_key_keys_not_null (g : Grain) (r : PerformanceRow) :
  has_key (key_of g) r = keys_not_null r.
Proof.
  unfold has_key, key_of, keys_not_null.
  destruct (p_event_type r), (p_user_title r); reflexivity.
Qed.

Lemma filter_same {A : Type} (f g : A -> bool) (l : list A) :
  (forall x, f x = g x) -> filter f l = filter g l.
Proof. intros H. apply filter_ext_in. auto. Qed.

Lemma grain_total_events (g : Grain) (data : list PerformanceRow) :
  total_events_sum (records (grain_table g (tables_of data)))
  = len (filter keys_not_null data).
Proof.
  unfold total_events_sum.
  rewrite <- (map_map core total_events), grain_table_core, map_map.
  rewrite (map_ext _ (fun grp => len (snd grp)))
    by apply aggregate_total_events.
  fold (group_sizes (grain_groups g data)). unfold grain_groups.
  rewrite group_rows_sizes.
  rewrite (filter_same _ keys_not_null) by apply has_key_keys_not_null.
  reflexivity.
Qed.

Lemma filter_length_Forall2 {A B : Type} (p : A -> bool) (q : B -> bool)
  (xs : list A) (rs : list B) :
  Forall2 (fun x r => q r = p x) xs rs ->
  List.length (filter q rs) = List.length (filter p xs).
Proof.
  induction 1 as [| x r xs rs H _ IH]; [reflexivity |].
  cbn. rewrite H. destruct (p x); cbn; rewrite IH; reflexivity.
Qed.

(** A derived row has both key cells exactly when the event has a type
    and the user it refers to has a title. *)
Lemma event_performance_record_keys (us : list User) (fs : list Firm)
  (x : Z * Event) (r : PerformanceRow) :
  event_performance_record us fs x = Ok r ->
  keys_not_null r = event_keys_not_null us (snd x).
Proof.
  destruct x as [i e]. unfold event_performance_record, event_keys_not_null.
  cbn [snd].
  destruct (users_with_id us (e_user_id e)) as [| u l];
    [discriminate |].
  cbn [iloc0 bind].
  destruct (iloc0 (firms_with_id fs (e_firm_id e))); [| discriminate].
  cbn [bind]. intros H. injection H as <-.
  unfold keys_not_null. cbn.
  destruct (e_event_type e), (u_user_title u); reflexivity.
Qed.

Lemma derived_rows_with_keys (us : list User) (fs : list Firm)
  (es : list Event) (data : list PerformanceRow) :
  event_performance_data us fs es = Ok data ->
  len (filter keys_not_null data) = len (filter (event_keys_not_null us) es).
Proof.
  intros H. apply for_each_Ok in H. unfold len. f_equal.
  rewrite (filter_length_Forall2
             (fun x => event_keys_not_null us (snd x)) keys_not_null
             (iterrows 0 es) data).
  - rewrite <- (iterrows_rows 0 es) at 2.
    rewrite filter_map_swap, length_map. reflexivity.
  - eapply Forall2_impl; [| exact H].
    intros x r Hx. apply (event_performance_record_keys us fs). exact Hx.
Qed.

Lemma event_performance_tables_Ok (us : list User) (fs : list Firm)
  (es : list Event) (tables : PerformanceTables) :
  snd (event_performance_tables (load_harvey_data us fs es)) = Ok tables ->
  exists data,
    event_performance_data us fs es = Ok data
    /\ data <> [] /\ tables = tables_of data.
Proof.
  rewrite event_performance_tables_closed.
  destruct es as [| e es]; [discriminate |].
  destruct (event_performance_data us fs (e :: es)) as [data |] eqn:E;
    [| discriminate].
  cbn [bind]. intros H. injection H as <-.
  exists data. repeat split.
  pose proof (for_each_length _ _ _ E) as L.
  rewrite iterrows_length in L. destruct data; discriminate.
Qed.

(** C8: for each grain, the event counts of the groups add up to the
    number of input events whose key cells are all present, that is,
    whose event type is not null and whose user has a title. *)
Theorem group_counts_cover_keyed_events (us : list User) (fs : list Firm)
  (es : list Event) (tables : PerformanceTables) (g : Grain) :
  snd (event_performance_tables (load_harvey_data us fs es)) = Ok tables ->
  total_events_sum (records (grain_table g tables))
  = len (filter (event_keys_not_null us) es).
Proof.
  intros H.
  apply event_performance_tables_Ok in H as (data & Hdata & _ & ->).
  rewrite grain_total_events. apply (derived_rows_with_keys us fs es data).
  exact Hdata.
Qed.

Lemma group_counts_cover_keyed_events_witness :
  exists tables,
    snd (event_performance_tables sample_store) = Ok tables
    /\ total_events_sum (records (grain_table Weekly tables)) = 8
    /\ len (filter (event_keys_not_null sample_users) sample_events) = 8.
Proof.
  eexists. split; [vm_compute; reflexivity |].
  split; [| reflexivity].
  rewrite (group_counts_cover_keyed_events
             sample_users sample_firms sample_events _ Weekly);
    [reflexivity | vm_compute; reflexivity].
Defined.

(* ================================================================== *)
(** ** Groups are not empty *)

Lemma nunique_nonempty (l : list Z) : l <> [] -> nunique l <> 0.
Proof.
  destruct l as [| x l]; [contradiction |].
  intros _. unfold nunique. cbn. lia.
Qed.

Lemma of_int_zero (z : Z) :
  Qzero_bool (round_float64 (inject_Z z)) = (z =? 0).
Proof. rewrite round_float64_zero. apply Qzero_bool_inject_Z. Qed.

(** A ratio per user is a number when there is a user. *)
Lemma per_user_finite (amount users : Z) :
  users <> 0 -> exists q, per_user amount users = Fin q.
Proof.
  intros H. unfold per_user, of_int. cbn [fdiv].
  rewrite of_int_zero.
  destruct (Z.eqb_spec users 0); [contradiction |].
  apply round2_never_infinite.
Qed.

Lemma group_users_nonzero (g : Grain)
  (grp : GroupKey * list PerformanceRow) :
  snd grp <> [] -> unique_users (aggregate g grp) <> 0.
Proof.
  intros H. rewrite aggregate_unique_users. apply nunique_nonempty.
  destruct (snd grp); [contradiction | discriminate].
Qed.

Lemma weekly_records_grain (groups : list (GroupKey * list PerformanceRow)) :
  Forall (fun r => time_grain (core r) = Weekly) (weekly_records groups).
Proof.
  apply Forall_forall. intros r Hr.
  apply (in_map core) in Hr. rewrite weekly_records_core in Hr.
  apply in_map_iff in Hr as (grp & <- & _). apply aggregate_time_grain.
Qed.

Lemma grain_groups_nonempty (g : Grain) (data : list PerformanceRow) :
  Forall (fun grp => snd grp <> []) (grain_groups g data).
Proof. apply group_rows_nonempty. Qed.

Lemma Forall_map_of {A B : Type} (P : B -> Prop) (f : A -> B) (l : list A) :
  Forall (fun x => P (f x)) l -> Forall P (map f l).
Proof. intros H. apply Forall_map. exact H. Qed.

Lemma map_constant {A B : Type} (f : A -> B) (b : B) (l : list A) :
  Forall (fun x => f x = b) l -> map f l = repeat b (List.length l).
Proof.
  induction 1 as [| x l H _ IH]; [reflexivity |].
  cbn. rewrite H, IH. reflexivity.
Qed.

(* ================================================================== *)
(** ** Engagement rows *)

Lemma engagement_level_of_active (query_count active_days : Z) :
  1 <= query_count -> engagement_level query_count active_days <> Inactive.
Proof. intros H. unfold engagement_level. ladder. Qed.

Lemma iloc0_Ok_nonempty {A : Type} (l : list A) (x : A) :
  iloc0 l = Ok x -> l <> [].
Proof. destruct l; [discriminate | discriminate]. Qed.

Lemma len_nonempty {A : Type} (l : list A) : l <> [] -> 1 <= len l.
Proof.
  destruct l; [contradiction |]. intros _. unfold len. cbn [List.length]. lia.
Qed.

Lemma engagement_record_Ok (users : list User) (month : Z)
  (month_events : list Event) (user_id : Z) (r : EngagementRow) :
  engagement_record users month month_events user_id = Ok r ->
  eng_month r = month
  /\ eng_user_id r = user_id
  /\ eng_query_count r = len (events_of_user month_events user_id)
  /\ events_of_user month_events user_id <> []
  /\ eng_engagement_level r
     = engagement_level (eng_query_count r) (eng_active_days r).
Proof.
  unfold engagement_record.
  destruct (iloc0 (users_with_id users user_id)); [| discriminate].
  cbn [bind].
  destruct (iloc0 (map e_firm_id (events_of_user month_events user_id)))
    eqn:E; [| discriminate].
  cbn [bind]. intros H. injection H as <-. cbn.
  repeat split.
  apply iloc0_Ok_nonempty in E. intros Hnil. rewrite Hnil in E.
  apply E. reflexivity.
Qed.

Lemma simulate_user_engagement_Ok (us : list User) (fs : list Firm)
  (es : list Event) (df : Frame EngagementRow) :
  snd (simulate_user_engagement (load_harvey_data us fs es)) = Ok df ->
  engagement_data us es = Ok (records df).
Proof.
  unfold simulate_user_engagement, load_harvey_data, assign_column.
  cbn [snd users_df events_df records].
  rewrite users_reparsed, map_id.
  destruct (engagement_data us es) as [data |]; [| discriminate].
  cbn [bind].
  destruct (require_columns _ _); [| discriminate].
  cbn [bind]. intros H. injection H as <-. reflexivity.
Qed.

(** C10: every row of the engagement table counts the events of its user
    in its month, there is at least one such event, and so the level of
    the row is never Inactive. *)
Theorem engagement_rows_have_events (us : list User) (fs : list Firm)
  (es : list Event) (df : Frame EngagementRow) :
  snd (simulate_user_engagement (load_harvey_data us fs es)) = Ok df ->
  Forall
    (fun r =>
       eng_query_count r
       = len (events_of_user
                (filter (fun e => month_cell e =? eng_month r) es)
                (eng_user_id r))
       /\ 1 <= eng_query_count r
       /\ eng_engagement_level r <> Inactive)
    (records df).
Proof.
  intros H. apply simulate_user_engagement_Ok in H.
  apply Forall_forall. intros r Hr.
  unfold engagement_data in H.
  destruct (for_each_flat_In _ _ _ r H Hr) as (month & part & _ & Hm & Hp).
  destruct (for_each_In _ _ _ r Hm Hp) as (user_id & _ & Hrec).
  apply engagement_record_Ok in Hrec as (-> & -> & Hq & Hne & Hl).
  assert (1 <= eng_query_count r) by (rewrite Hq; apply len_nonempty, Hne).
  repeat split; auto.
  rewrite Hl. apply engagement_level_of_active. assumption.
Qed.

Lemma engagement_rows_have_events_witness :
  exists df,
    snd (simulate_user_engagement sample_store) = Ok df
    /\ map eng_query_count (records df) = [7; 1]
    /\ Forall (fun r => 1 <= eng_query_count r
                        /\ eng_engagement_level r <> Inactive)
              (records df).
Proof.
  eexists. split; [vm_compute; reflexivity |].
  split; [reflexivity |].
  eapply Forall_impl;
    [| apply (engagement_rows_have_events
                sample_users sample_firms sample_events);
       vm_compute; reflexivity].
  intros r (_ & H1 & H2). split; assumption.
Defined.

(* ================================================================== *)
(** ** References that do not resolve *)

Lemma references_resolve_lookups (us : list User) (fs : list Firm)
  (e : Event) :
  references_resolve us fs e = true <->
  users_with_id us (e_user_id e) <> []
  /\ firms_with_id fs (e_firm_id e) <> [].
Proof.
  unfold references_resolve.
  destruct (users_with_id us (e_user_id e)),
           (firms_with_id fs (e_firm_id e)); cbn;
    split; try discriminate; try (intros [? ?]; congruence);
    intros _; split; discriminate.
Qed.


Lemma unique_In (x : Z) (l : list Z) : In x (unique l) -> In x l.
Proof.
  induction l as [| y l IH]; [auto |].
  cbn. intros [-> | H]; [auto |].
  apply filter_In in H as [H _]. auto.
Qed.




Lemma known_user_found (us : list User) (user_id : Z) :
  In user_id (map u_user_id us) ->
  exists u l, users_with_id us user_id = u :: l.
Proof.
  intros Hin. apply in_map_iff in Hin as (u & Hu & Hin).
  assert (H : In u (users_with_id us user_id)).
  { apply filter_In. split; [exact Hin | apply Z.eqb_eq; exact Hu]. }
  destruct (users_with_id us user_id) as [| u' l]; [destruct H | eauto].
Qed.





(* ================================================================== *)
(** ** What the functions do to the frames they loaded *)

(** C9: the functions assign columns of the loaded frames in place.
    Re-parsing the two date columns stores the values they already hold,
    so [simulate_user_acquisition_base] and
    [simulate_event_performance_metrics] leave the three frames as loaded;
    [simulate_user_engagement] leaves Users, Firms and every Events record
    as loaded but adds the column [month] to the Events frame. *)
Theorem loaded_frames_after_run (us : list User) (fs : list Firm)
  (es : list Event) :
  let st := load_harvey_data us fs es in
  let st' := fst (simulate_user_engagement st) in
  fst (simulate_user_acquisition_base st) = st
  /\ fst (simulate_event_performance_metrics st) = st
  /\ users_df st' = users_df st
  /\ firms_df st' = firms_df st
  /\ records (events_df st') = records (events_df st)
  /\ columns (events_df st') = columns (events_df st) ++ ["month"].
Proof.
  cbn zeta.
  assert (Hu : assign_column "user_created_date"
                 (set_user_created_date to_datetime)
                 (mkFrame users_columns us)
               = mkFrame users_columns us)
    by (apply assign_existing_column;
        [reflexivity | apply set_user_created_date_same]).
  assert (He : assign_column "event_created_at"
                 (set_event_created_at to_datetime)
                 (mkFrame events_columns es)
               = mkFrame events_columns es)
    by (apply assign_existing_column;
        [reflexivity | apply set_event_created_at_same]).
  unfold simulate_event_performance_metrics, event_performance_tables,
    simulate_user_acquisition_base, simulate_user_engagement,
    load_harvey_data.
  cbn [fst users_df firms_df events_df]. rewrite Hu, He.
  repeat split.
  cbn [assign_column records]. apply map_id.
Qed.

(** After [simulate_user_engagement] the Events frame is not the frame
    that was loaded. *)
Lemma engagement_adds_month_column :
  let st' := fst (simulate_user_engagement sample_store) in
  events_df st' <> events_df sample_store
  /\ has_column (events_df sample_store) "month" = false
  /\ has_column (events_df st') "month" = true.
Proof.
  cbn zeta. split; [| split; reflexivity].
  intros H. apply (f_equal (fun df => has_column df "month")) in H.
  vm_compute in H. discriminate.
Qed.

(* ================================================================== *)
(** ** Distinct values and partitions by key *)

Lemma In_unique (x : Z) (l : list Z) : In x l -> In x (unique l).
Proof.
  induction l as [| y l IH]; [auto |].
  intros [-> | H]; cbn; [auto |].
  destruct (Z.eq_dec x y) as [-> | Hne]; [auto |].
  right. apply filter_In. split; [auto |].
  apply negb_true_iff, Z.eqb_neq. exact Hne.
Qed.

Lemma NoDup_unique (l : list Z) : NoDup (unique l).
Proof.
  induction l as [| y l IH]; cbn; constructor.
  - intros H. apply filter_In in H as [_ H].
    rewrite Z.eqb_refl in H. discriminate.
  - apply NoDup_filter. exact IH.
Qed.

Lemma unique_length (l : list Z) :
  (List.length (unique l) <= List.length l)%nat.
Proof.
  induction l as [| y l IH]; cbn; [lia |].
  pose proof (filter_length_le (fun z => negb (z =? y)) (unique l)). lia.
Qed.

Lemma nunique_bounds (l : list Z) :
  l <> [] -> 1 <= nunique l <= len l.
Proof.
  intros H. unfold nunique, len. pose proof (unique_length l).
  destruct l as [| y l]; [contradiction |]. cbn in *. lia.
Qed.

Lemma total_app {A : Type} (w : A -> Z) (l m : list A) :
  total w (l ++ m) = total w l + total w m.
Proof.
  unfold total, sum. induction l as [| x l IH]; cbn; [reflexivity |].
  rewrite IH. lia.
Qed.

Lemma total_ones {A : Type} (l : list A) : total (fun _ => 1) l = len l.
Proof.
  unfold total, sum, len. induction l as [| x l IH]; [reflexivity |].
  cbn [map fold_right List.length]. rewrite IH. lia.
Qed.

Lemma total_filter_split {A : Type} (w : A -> Z) (p q : A -> bool)
  (l : list A) :
  (forall x, p x = true -> q x = false) ->
  total w (filter (fun x => p x || q x) l)
  = total w (filter p l) + total w (filter q l).
Proof.
  intros H. unfold total, sum.
  induction l as [| x l IH]; [reflexivity |].
  cbn [filter]. destruct (p x) eqn:Hp.
  - rewrite (H x Hp). cbn. rewrite IH. lia.
  - destruct (q x); cbn; rewrite IH; lia.
Qed.

Lemma filter_all {A : Type} (p : A -> bool) (l : list A) :
  (forall x, In x l -> p x = true) -> filter p l = l.
Proof.
  induction l as [| x l IH]; intros H; [reflexivity |].
  cbn. rewrite (H x (or_introl eq_refl)). f_equal.
  apply IH. intros y Hy. apply H. right. exact Hy.
Qed.

Section ByKey.
Context {A : Type}.
Variable f : A -> Z.
Variable w : A -> Z.

(** The rows whose key is [k]. *)
Lemma total_by_keys (l : list A) (ks : list Z) :
  NoDup ks ->
  sum (map (fun k => total w (filter (fun x => f x =? k) l)) ks)
  = total w (filter (fun x => existsb (Z.eqb (f x)) ks) l).
Proof.
  induction 1 as [| k ks Hk Hks IH].
  - cbn. replace (filter (fun _ => false) l) with (@nil A); [reflexivity |].
    induction l; auto.
  - cbn [map sum fold_right existsb]. fold (sum (map
      (fun k0 => total w (filter (fun x => f x =? k0) l)) ks)).
    rewrite IH. rewrite (total_filter_split w (fun x => f x =? k)).
    + reflexivity.
    + intros x Hx. apply Z.eqb_eq in Hx. subst k.
      destruct (existsb (Z.eqb (f x)) ks) eqn:E; [| reflexivity].
      apply existsb_exists in E as (y & Hy & Hxy).
      apply Z.eqb_eq in Hxy. subst y. contradiction.
Qed.

(** Split by the distinct values of the key, the rows are all there. *)
Lemma total_by_unique (l : list A) :
  sum (map (fun k => total w (filter (fun x => f x =? k) l))
           (unique (map f l)))
  = total w l.
Proof.
  rewrite total_by_keys by apply NoDup_unique. f_equal.
  apply filter_all. intros y Hy. apply existsb_exists. exists (f y).
  split; [| apply Z.eqb_refl]. apply In_unique, in_map, Hy.
Qed.
End ByKey.

(* ================================================================== *)
(** ** Loops: outcomes and totals *)

Lemma for_each_flat_Ok {A B : Type} (body : A -> result (list B))
  (xs : list A) (rs : list B) :
  for_each_flat body xs = Ok rs ->
  exists parts,
    Forall2 (fun x p => body x = Ok p) xs parts /\ rs = List.concat parts.
Proof.
  revert rs. induction xs as [| x xs IH]; intros rs H; cbn in H.
  - injection H as <-. exists []. split; [constructor | reflexivity].
  - destruct (body x) as [p |] eqn:Hx; [| discriminate]. cbn in H.
    destruct (for_each_flat body xs) as [rs' |]; [| discriminate].
    cbn in H. injection H as <-.
    destruct (IH rs' eq_refl) as (parts & Hparts & ->).
    exists (p :: parts). split; [constructor; assumption | reflexivity].
Qed.

Lemma for_each_total {A B : Type} (body : A -> result B) (m : B -> Z)
  (g : A -> Z) (xs : list A) (rs : list B) :
  for_each body xs = Ok rs ->
  (forall x r, In x xs -> body x = Ok r -> m r = g x) ->
  total m rs = sum (map g xs).
Proof.
  intros H. apply for_each_Ok in H.
  induction H as [| x r xs rs Hx _ IH]; intros Hm; [reflexivity |].
  unfold total, sum in *. cbn.
  rewrite (Hm x r (or_introl eq_refl) Hx). f_equal.
  apply IH. intros y s Hy. apply Hm. right. exact Hy.
Qed.

Lemma for_each_flat_total {A B : Type} (body : A -> result (list B))
  (m : B -> Z) (g : A -> Z) (xs : list A) (rs : list B) :
  for_each_flat body xs = Ok rs ->
  (forall x p, In x xs -> body x = Ok p -> total m p = g x) ->
  total m rs = sum (map g xs).
Proof.
  intros H. apply for_each_flat_Ok in H as (parts & H & ->).
  induction H as [| x p xs parts Hx _ IH]; intros Hm; [reflexivity |].
  cbn [List.concat]. rewrite total_app.
  rewrite (Hm x p (or_introl eq_refl) Hx).
  unfold sum at 1. cbn [map fold_right]. f_equal.
  apply IH. intros y s Hy. apply Hm. right. exact Hy.
Qed.

(** A loop whose body can only fail with [e0], and does so exactly on the
    items that fail the test [ok]. *)
Lemma for_each_decide {A B : Type} (body : A -> result B) (ok : A -> bool)
  (e0 : exn) (xs : list A) :
  (forall x, In x xs ->
             if ok x then exists r, body x = Ok r else body x = Raise e0) ->
  if forallb ok xs then exists rs, for_each body xs = Ok rs
  else for_each body xs = Raise e0.
Proof.
  induction xs as [| x xs IH]; intros H; cbn; [eauto |].
  pose proof (H x (or_introl eq_refl)) as Hx.
  assert (IH' := IH (fun y Hy => H y (or_intror Hy))).
  destruct (ok x); cbn.
  - destruct Hx as [r ->]. cbn.
    destruct (forallb ok xs).
    + destruct IH' as [rs ->]. cbn. eauto.
    + rewrite IH'. reflexivity.
  - rewrite Hx. reflexivity.
Qed.

Lemma for_each_flat_decide {A B : Type} (body : A -> result (list B))
  (ok : A -> bool) (e0 : exn) (xs : list A) :
  (forall x, In x xs ->
             if ok x then exists r, body x = Ok r else body x = Raise e0) ->
  if forallb ok xs then exists rs, for_each_flat body xs = Ok rs
  else for_each_flat body xs = Raise e0.
Proof.
  induction xs as [| x xs IH]; intros H; cbn; [eauto |].
  pose proof (H x (or_introl eq_refl)) as Hx.
  assert (IH' := IH (fun y Hy => H y (or_intror Hy))).
  destruct (ok x); cbn.
  - destruct Hx as [r ->]. cbn.
    destruct (forallb ok xs).
    + destruct IH' as [rs ->]. cbn. eauto.
    + rewrite IH'. reflexivity.
  - rewrite Hx. reflexivity.
Qed.

(* ================================================================== *)
(** ** Sums of int64 columns *)

Lemma wrap_int64_mod (z : Z) : same_int64 (wrap_int64 z) z.
Proof.
  unfold same_int64, wrap_int64.
  rewrite Zminus_mod_idemp_l. f_equal. lia.
Qed.

Lemma wrap_int64_in_range (z : Z) :
  - 2 ^ 63 <= z < 2 ^ 63 -> wrap_int64 z = z.
Proof.
  intros H. unfold wrap_int64.
  rewrite Z.mod_small by lia. lia.
Qed.

Lemma same_int64_wrap (a b : Z) :
  same_int64 a b -> wrap_int64 a = wrap_int64 b.
Proof.
  unfold same_int64, wrap_int64. intros H.
  rewrite <- (Zplus_mod_idemp_l a), <- (Zplus_mod_idemp_l b), H.
  reflexivity.
Qed.

Lemma same_int64_add (a b c d : Z) :
  same_int64 a b -> same_int64 c d -> same_int64 (a + c) (b + d).
Proof.
  unfold same_int64. intros H1 H2.
  rewrite (Z.add_mod a), (Z.add_mod b), H1, H2 by lia. reflexivity.
Qed.

Lemma exact_below_2_63_add (a b c d : Z) :
  exact_below_2_63 a b -> exact_below_2_63 c d ->
  exact_below_2_63 (a + c) (b + d).
Proof.
  intros [Hb Hab] [Hd Hcd]. split; [lia |].
  intros H. rewrite Hab, Hcd by lia. reflexivity.
Qed.

(** The wrapping sum is the exact sum modulo 2^64. *)
Lemma sum_int64_mod (l : list Z) : same_int64 (sum_int64 l) (sum l).
Proof.
  induction l as [| x l IH]; [reflexivity |].
  cbn [sum_int64 sum fold_right].
  unfold same_int64 in *. rewrite wrap_int64_mod.
  apply (same_int64_add x x); [reflexivity | exact IH].
Qed.

Lemma sum_nonneg (l : list Z) : Forall (fun x => 0 <= x) l -> 0 <= sum l.
Proof.
  induction 1 as [| x l Hx _ IH]; cbn; [reflexivity |].
  unfold sum in IH. lia.
Qed.

(** The wrapping sum of non-negative numbers is their exact sum when that
    is below 2^63. *)
Lemma sum_int64_exact (l : list Z) :
  Forall (fun x => 0 <= x) l -> exact_below_2_63 (sum_int64 l) (sum l).
Proof.
  intros H. split; [apply sum_nonneg; exact H |].
  induction H as [| x l Hx Hl IH]; intros Hlt; [reflexivity |].
  pose proof (sum_nonneg l Hl) as Hs.
  change (sum (x :: l)) with (x + sum l) in *.
  change (sum_int64 (x :: l)) with (wrap_int64 (x + sum_int64 l)).
  rewrite IH by lia. apply wrap_int64_in_range. lia.
Qed.

(** Sums of related terms are related, for a relation that addition
    respects. *)
Section RelatedSums.
Variable R : Z -> Z -> Prop.
Hypothesis R_zero : R 0 0.
Hypothesis R_add : forall a b c d, R a b -> R c d -> R (a + c) (b + d).

Lemma total_related {A : Type} (f g : A -> Z) (l : list A) :
  (forall x, In x l -> R (f x) (g x)) -> R (total f l) (total g l).
Proof.
  induction l as [| x l IH]; intros H; [exact R_zero |].
  unfold total, sum in *. cbn [map fold_right].
  apply R_add; [apply H; left; reflexivity |].
  apply IH. intros y Hy. apply H. right. exact Hy.
Qed.

Lemma for_each_related {A B : Type} (body : A -> result B) (m : B -> Z)
  (g : A -> Z) (xs : list A) (rs : list B) :
  for_each body xs = Ok rs ->
  (forall x r, In x xs -> body x = Ok r -> R (m r) (g x)) ->
  R (total m rs) (total g xs).
Proof.
  intros H. apply for_each_Ok in H.
  induction H as [| x r xs rs Hx _ IH]; intros Hm; [exact R_zero |].
  unfold total, sum in *. cbn [map fold_right].
  apply R_add; [apply (Hm x r (or_introl eq_refl) Hx) |].
  apply IH. intros y s Hy. apply Hm. right. exact Hy.
Qed.

Lemma for_each_flat_related {A B : Type} (body : A -> result (list B))
  (m : B -> Z) (g : A -> Z) (xs : list A) (rs : list B) :
  for_each_flat body xs = Ok rs ->
  (forall x p, In x xs -> body x = Ok p -> R (total m p) (g x)) ->
  R (total m rs) (total g xs).
Proof.
  intros H. apply for_each_flat_Ok in H as (parts & H & ->).
  induction H as [| x p xs parts Hx _ IH]; intros Hm; [exact R_zero |].
  cbn [List.concat]. rewrite total_app.
  unfold total at 3. unfold sum. cbn [map fold_right].
  apply R_add; [apply (Hm x p (or_introl eq_refl) Hx) |].
  apply IH. intros y s Hy. apply Hm. right. exact Hy.
Qed.
End RelatedSums.

(* ================================================================== *)
(** ** The engagement table as a partition of the events *)

Lemma users_with_id_known (us : list User) (user_id : Z) :
  known_id us user_id = true <-> users_with_id us user_id <> [].
Proof.
  unfold known_id, users_with_id.
  induction us as [| u us IH]; cbn; [split; [discriminate | congruence] |].
  destruct (u_user_id u =? user_id); cbn; [split; [discriminate | auto] |].
  exact IH.
Qed.

Lemma user_known_known_id (us : list User) (e : Event) :
  user_known us e = known_id us (e_user_id e).
Proof. reflexivity. Qed.

Lemma events_of_user_nonempty (events : list Event) (user_id : Z) :
  In user_id (map e_user_id events) -> events_of_user events user_id <> [].
Proof.
  intros H. apply in_map_iff in H as (e & He & Hin).
  assert (Hf : In e (events_of_user events user_id))
    by (apply filter_In; split; [exact Hin | apply Z.eqb_eq; exact He]).
  intros E. rewrite E in Hf. destruct Hf.
Qed.

(** What a row of the engagement table holds. *)
Lemma engagement_record_fields (us : list User) (month : Z)
  (mev : list Event) (user_id : Z) (r : EngagementRow) :
  engagement_record us month mev user_id = Ok r ->
  let evs := events_of_user mev user_id in
  eng_month r = month /\ eng_user_id r = user_id
  /\ eng_query_count r = len evs
  /\ eng_active_days r = active_days_of evs
  /\ eng_total_documents_processed r = sum_int64 (map e_num_docs evs)
  /\ evs <> [].
Proof.
  unfold engagement_record.
  destruct (iloc0 (users_with_id us user_id)); [| discriminate].
  cbn [bind].
  destruct (iloc0 (map e_firm_id (events_of_user mev user_id)))
    eqn:E; [| discriminate].
  cbn [bind]. intros H. injection H as <-. cbn.
  repeat split.
  intros Hnil. rewrite Hnil in E. discriminate.
Qed.

(** For a user of the month the row is built unless the user is unknown. *)
Lemma engagement_record_outcome (us : list User) (month : Z)
  (mev : list Event) (user_id : Z) :
  In user_id (map e_user_id mev) ->
  if known_id us user_id
  then exists r, engagement_record us month mev user_id = Ok r
  else engagement_record us month mev user_id = Raise IndexError.
Proof.
  intros Hin. unfold engagement_record.
  pose proof (users_with_id_known us user_id) as Hk.
  destruct (known_id us user_id).
  - destruct (users_with_id us user_id) as [| u l];
      [exfalso; apply (proj1 Hk eq_refl); reflexivity |].
    cbn [iloc0 bind].
    pose proof (events_of_user_nonempty mev user_id Hin) as Hne.
    destruct (events_of_user mev user_id) as [| e evs];
      [contradiction |].
    cbn. eauto.
  - destruct (users_with_id us user_id) as [| u l]; [reflexivity |].
    assert (true = false) by (symmetry; apply Hk; discriminate).
    discriminate.
Qed.

(** The months and users the loops visit cover every event. *)
Lemma months_and_users_cover (us : list User) (es : list Event) :
  forallb
    (fun month =>
       forallb (known_id us)
         (unique
            (map e_user_id (filter (fun e => month_cell e =? month) es))))
    (unique (map month_cell es))
  = forallb (user_known us) es.
Proof.
  apply eq_iff_eq_true. rewrite !forallb_forall. split.
  - intros H e He. rewrite user_known_known_id.
    assert (Hm : In (month_cell e) (unique (map month_cell es)))
      by (apply In_unique, in_map, He).
    specialize (H _ Hm). rewrite forallb_forall in H. apply H.
    apply In_unique, in_map, filter_In. split; [exact He |].
    apply Z.eqb_refl.
  - intros H month _. apply forallb_forall. intros uid Hu.
    apply unique_In, in_map_iff in Hu as (e & <- & He).
    apply filter_In in He as [He _]. apply (H e He).
Qed.

Lemma engagement_data_outcome (us : list User) (es : list Event) :
  if forallb (user_known us) es
  then exists rows, engagement_data us es = Ok rows
  else engagement_data us es = Raise IndexError.
Proof.
  rewrite <- months_and_users_cover. unfold engagement_data.
  apply for_each_flat_decide. intros month _.
  apply for_each_decide. intros uid Hu.
  apply engagement_record_outcome, unique_In, Hu.
Qed.

Lemma engagement_data_total (m : EngagementRow -> Z) (w : Event -> Z)
  (us : list User) (es : list Event) (rows : list EngagementRow) :
  (forall month mev uid r,
      engagement_record us month mev uid = Ok r ->
      m r = total w (events_of_user mev uid)) ->
  engagement_data us es = Ok rows ->
  total m rows = total w es.
Proof.
  intros Hm H. unfold engagement_data in H.
  rewrite (for_each_flat_total _ m
             (fun month =>
                total w (filter (fun e => month_cell e =? month) es))
             _ _ H).
  - apply (total_by_unique month_cell w es).
  - intros month part _ Hpart.
    rewrite (for_each_total _ m
               (fun uid =>
                  total w
                    (events_of_user
                       (filter (fun e => month_cell e =? month) es) uid))
               _ _ Hpart).
    + apply (total_by_unique e_user_id w).
    + intros uid r _ Hr. apply (Hm _ _ _ _ Hr).
Qed.

(** The same for a quantity of the rows that is related to the sum over
    the events of each row by a relation that addition respects. *)
Lemma engagement_data_related (R : Z -> Z -> Prop)
  (m : EngagementRow -> Z) (w : Event -> Z)
  (us : list User) (es : list Event) (rows : list EngagementRow) :
  R 0 0 ->
  (forall a b c d, R a b -> R c d -> R (a + c) (b + d)) ->
  (forall month mev uid r,
      engagement_record us month (filter (fun e => month_cell e =? month) es)
                        uid = Ok r ->
      mev = filter (fun e => month_cell e =? month) es ->
      R (m r) (total w (events_of_user mev uid))) ->
  engagement_data us es = Ok rows ->
  R (total m rows) (total w es).
Proof.
  intros R0 Radd Hm H. unfold engagement_data in H.
  rewrite <- (total_by_unique month_cell w es).
  apply (for_each_flat_related R R0 Radd _ m
           (fun month =>
              total w (filter (fun e => month_cell e =? month) es))
           _ _ H).
  intros month part _ Hpart.
  rewrite <- (total_by_unique e_user_id w
                (filter (fun e => month_cell e =? month) es)).
  apply (for_each_related R R0 Radd _ m
           (fun uid =>
              total w
                (events_of_user
                   (filter (fun e => month_cell e =? month) es) uid))
           _ _ Hpart).
  intros uid r _ Hr. apply (Hm month _ uid r Hr eq_refl).
Qed.

(** X1: Every event is counted in exactly one row: the query counts add up
    to the number of events; the document totals, each the int64 sum of
    its row, add up to the sum of all documents modulo 2^64, and to that
    sum itself when no document count is negative and the sum is below
    2^63. *)
Theorem engagement_rows_partition_events (us : list User) (fs : list Firm)
  (es : list Event) (df : Frame EngagementRow) :
  snd (simulate_user_engagement (load_harvey_data us fs es)) = Ok df ->
  total eng_query_count (records df) = len es
  /\ wrap_int64 (total eng_total_documents_processed (records df))
     = wrap_int64 (total e_num_docs es)
  /\ (Forall (fun e => 0 <= e_num_docs e) es ->
      total e_num_docs es < 2 ^ 63 ->
      total eng_total_documents_processed (records df)
      = total e_num_docs es).
Proof.
  intros H. apply simulate_user_engagement_Ok in H. split; [| split].
  - rewrite <- total_ones.
    apply (engagement_data_total _ _ us); [| exact H].
    intros month mev uid r Hr.
    apply engagement_record_fields in Hr as (_ & _ & -> & _).
    symmetry. apply total_ones.
  - apply same_int64_wrap.
    apply (engagement_data_related same_int64 _ _ us es);
      [reflexivity | apply same_int64_add | | exact H].
    intros month mev uid r Hr ->.
    apply engagement_record_fields in Hr as (_ & _ & _ & _ & -> & _).
    apply sum_int64_mod.
  - intros Hpos Hlt.
    apply (engagement_data_related exact_below_2_63 _ e_num_docs us es);
      [split; [lia | reflexivity] | apply exact_below_2_63_add | | exact H
      | exact Hlt].
    intros month mev uid r Hr ->.
    apply engagement_record_fields in Hr as (_ & _ & _ & _ & -> & _).
    apply sum_int64_exact. apply Forall_map, Forall_forall.
    intros e He. rewrite Forall_forall in Hpos. apply Hpos.
    apply filter_In in He as [He _]. apply filter_In in He as [He _].
    exact He.
Qed.

Lemma engagement_rows_partition_events_witness :
  exists df,
    snd (simulate_user_engagement sample_store) = Ok df
    /\ total eng_query_count (records df) = 8
    /\ total eng_total_documents_processed (records df) = 54.
Proof.
  eexists. split; [vm_compute; reflexivity |].
  pose proof (engagement_rows_partition_events
                sample_users sample_firms sample_events) as H.
  specialize (H _ ltac:(vm_compute; reflexivity)).
  destruct H as (H1 & _ & H3). split.
  - rewrite H1. reflexivity.
  - rewrite H3; [reflexivity | | reflexivity].
    repeat constructor; discriminate.
Defined.

(** X2: In every row the active days are at least one and at most the number
    of queries. *)
Theorem engagement_active_days_bounds (us : list User) (fs : list Firm)
  (es : list Event) (df : Frame EngagementRow) :
  snd (simulate_user_engagement (load_harvey_data us fs es)) = Ok df ->
  Forall (fun r => 1 <= eng_active_days r <= eng_query_count r)
         (records df).
Proof.
  intros H. apply simulate_user_engagement_Ok in H.
  apply Forall_forall. intros r Hr. unfold engagement_data in H.
  destruct (for_each_flat_In _ _ _ r H Hr) as (month & part & _ & Hm & Hp).
  destruct (for_each_In _ _ _ r Hm Hp) as (uid & _ & Hrec).
  apply engagement_record_fields in Hrec as (_ & _ & -> & -> & _ & Hne).
  unfold active_days_of.
  set (evs := events_of_user _ uid) in *.
  pose proof (nunique_bounds (map (fun e => date_of (e_event_created_at e)) evs))
    as Hb.
  unfold len in *. rewrite length_map in Hb. apply Hb.
  destruct evs; [contradiction | discriminate].
Qed.

Lemma engagement_active_days_bounds_witness :
  exists df,
    snd (simulate_user_engagement sample_store) = Ok df
    /\ map eng_active_days (records df) = [7; 1]
    /\ Forall (fun r => 1 <= eng_active_days r <= eng_query_count r)
              (records df).
Proof.
  eexists. split; [vm_compute; reflexivity |].
  split; [reflexivity |].
  apply (engagement_active_days_bounds
           sample_users sample_firms sample_events).
  vm_compute. reflexivity.
Defined.

(** X3: The function returns its table exactly when there is at least one
    event and the user of every event is known.  Without events the
    summary fails on the missing [user_id] column; with an event of an
    unknown user the lookup raises the index fault. *)
Theorem simulate_user_engagement_outcome (us : list User) (fs : list Firm)
  (es : list Event) :
  match snd (simulate_user_engagement (load_harvey_data us fs es)) with
  | Ok df =>
      es <> [] /\ forallb (user_known us) es = true
      /\ columns df = engagement_columns
  | Raise e =>
      match es with
      | [] => e = KeyError "user_id"
      | _ :: _ => e = IndexError /\ forallb (user_known us) es = false
      end
  end.
Proof.
  destruct es as [| e0 es]; [reflexivity |].
  pose proof (engagement_data_outcome us (e0 :: es)) as Hout.
  unfold simulate_user_engagement, load_harvey_data, assign_column.
  cbn [snd users_df events_df records].
  rewrite users_reparsed, map_id.
  destruct (forallb (user_known us) (e0 :: es)) eqn:Hall.
  - destruct Hout as [rows Hrows]. rewrite Hrows. cbn [bind].
    assert (Htot : total eng_query_count rows = total (fun _ => 1) (e0 :: es)).
    { apply (engagement_data_total _ _ us); [| exact Hrows].
      intros month mev uid r Hr.
      apply engagement_record_fields in Hr as (_ & _ & -> & _).
      symmetry. apply total_ones. }
    rewrite total_ones in Htot.
    destruct rows as [| r rows].
    + unfold len in Htot. cbn in Htot. lia.
    + unfold DataFrame_of_dicts. rewrite require_columns_labels.
      cbn. repeat split. discriminate.
  - rewrite Hout. split; reflexivity.
Qed.

Lemma for_each_map {A B C : Type} (body : A -> result B) (h : B -> C)
  (g : A -> C) (xs : list A) (rs : list B) :
  for_each body xs = Ok rs ->
  (forall x r, In x xs -> body x = Ok r -> h r = g x) ->
  map h rs = map g xs.
Proof.
  intros H. apply for_each_Ok in H.
  induction H as [| x r xs rs Hx _ IH]; intros Hh; [reflexivity |].
  cbn. rewrite (Hh x r (or_introl eq_refl) Hx). f_equal.
  apply IH. intros y s Hy. apply Hh. right. exact Hy.
Qed.

Lemma for_each_flat_map {A B C : Type} (body : A -> result (list B))
  (h : B -> C) (G : A -> list C) (xs : list A) (rs : list B) :
  for_each_flat body xs = Ok rs ->
  (forall x p, In x xs -> body x = Ok p -> map h p = G x) ->
  map h rs = flat_map G xs.
Proof.
  intros H. apply for_each_flat_Ok in H as (parts & H & ->).
  induction H as [| x p xs parts Hx _ IH]; intros Hh; [reflexivity |].
  cbn [List.concat flat_map]. rewrite map_app.
  rewrite (Hh x p (or_introl eq_refl) Hx). f_equal.
  apply IH. intros y s Hy. apply Hh. right. exact Hy.
Qed.

Lemma NoDup_pairs {A B : Type} (U : A -> list B) (ms : list A) :
  NoDup ms -> (forall m, NoDup (U m)) ->
  NoDup (flat_map (fun m => map (pair m) (U m)) ms).
Proof.
  intros Hms HU. induction Hms as [| m ms Hm Hms IH]; [constructor |].
  cbn [flat_map]. apply NoDup_app.
  - apply NoDup_map_NoDup_ForallPairs; [| apply HU].
    intros x y _ _ E. injection E. auto.
  - exact IH.
  - intros [m' u] H1 H2.
    apply in_map_iff in H1 as (u1 & E1 & _). injection E1 as <- <-.
    apply in_flat_map in H2 as (m2 & Hm2 & H2).
    apply in_map_iff in H2 as (u2 & E2 & _). injection E2 as <- <-.
    contradiction.
Qed.

(** X4: No two rows of the engagement table are about the same user in the
    same month. *)
Theorem engagement_rows_distinct_keys (us : list User) (fs : list Firm)
  (es : list Event) (df : Frame EngagementRow) :
  snd (simulate_user_engagement (load_harvey_data us fs es)) = Ok df ->
  NoDup (map (fun r => (eng_month r, eng_user_id r)) (records df)).
Proof.
  intros H. apply simulate_user_engagement_Ok in H.
  unfold engagement_data in H.
  rewrite (for_each_flat_map _ _
             (fun month =>
                map (pair month)
                    (unique
                       (map e_user_id
                            (filter (fun e => month_cell e =? month) es))))
             _ _ H).
  - apply (NoDup_pairs
             (fun month =>
                unique
                  (map e_user_id
                     (filter (fun e => month_cell e =? month) es)))).
    + apply NoDup_unique.
    + intros m. apply NoDup_unique.
  - intros month part _ Hpart.
    apply (for_each_map _ _ _ _ _ Hpart).
    intros uid r _ Hr.
    apply engagement_record_fields in Hr as (-> & -> & _). reflexivity.
Qed.

Lemma engagement_rows_distinct_keys_witness :
  exists df,
    snd (simulate_user_engagement sample_store) = Ok df
    /\ List.length (records df) = 2%nat
    /\ NoDup (map (fun r => (eng_month r, eng_user_id r)) (records df)).
Proof.
  eexists. split; [vm_compute; reflexivity |].
  split; [reflexivity |].
  apply (engagement_rows_distinct_keys
           sample_users sample_firms sample_events).
  vm_compute. reflexivity.
Defined.

(* ================================================================== *)
(** ** The acquisition base table *)

(** What a row of the acquisition base holds, apart from the firm. *)
Lemma acquisition_base_record_fields (us : list User) (fs : list Firm)
  (es : list Event) (user_id : Z) (r : AcquisitionBaseRow) :
  acquisition_base_record us fs es user_id = Ok r ->
  exists u,
    iloc0 (users_with_id us user_id) = Ok u
    /\ acq_user_id r = user_id
    /\ acq_user_title r = u_user_title u
    /\ acq_acquisition_month r = to_period_M (u_user_created_date u)
    /\ acq_firm_id r = first_firm_id (events_of_user es user_id)
    /\ acq_total_events r = len (events_of_user es user_id)
    /\ acq_first_activity_date r
       = first_activity_of (events_of_user es user_id)
    /\ acq_days_to_first_activity r
       = option_map (fun t => timedelta_days t (u_user_created_date u))
                    (acq_first_activity_date r)
    /\ acq_is_activated r
       = flag (match acq_first_activity_date r with
               | Some _ => true | None => false end)
    /\ acq_is_quick_start r
       = flag (match acq_days_to_first_activity r with
               | Some d => d <=? 7 | None => false end)
    /\ acq_is_monthly_activated r
       = flag (match acq_days_to_first_activity r with
               | Some d => d <=? 30 | None => false end)
    /\ acq_activation_category r
       = activation_category (acq_is_activated r)
                             (acq_days_to_first_activity r)
    /\ acq_avg_satisfaction_score r
       = if_any (events_of_user es user_id)
                (fun evs => mean_skipna (map e_feedback_score evs)).
Proof.
  unfold acquisition_base_record.
  destruct (iloc0 (users_with_id us user_id)) as [u |]; [| discriminate].
  cbn [bind].
  destruct (firm_info_of fs _) as [fi |]; [| discriminate].
  cbn [bind]. intros H. injection H as <-. exists u. cbn.
  repeat split.
Qed.


(** X5: When the table is produced it has one row per distinct user id, in
    the order in which the ids first appear in Users. *)
Theorem acquisition_base_one_row_per_user (us : list User) (fs : list Firm)
  (es : list Event) (rows : list AcquisitionBaseRow) :
  acquisition_base_data us fs es = Ok rows ->
  map acq_user_id rows = unique (map u_user_id us)
  /\ NoDup (map acq_user_id rows).
Proof.
  intros H. unfold acquisition_base_data in H.
  assert (E : map acq_user_id rows = map (fun x => x)
                                         (unique (map u_user_id us))).
  { apply (for_each_map _ _ _ _ _ H). intros uid r _ Hr.
    apply acquisition_base_record_fields in Hr as (u & _ & -> & _).
    reflexivity. }
  rewrite map_id in E. rewrite E. split; [reflexivity |].
  apply NoDup_unique.
Qed.

Lemma acquisition_base_one_row_per_user_witness :
  exists rows,
    acquisition_base_data sample_users sample_firms sample_events = Ok rows
    /\ map acq_user_id rows = [1; 2].
Proof.
  eexists. split; [vm_compute; reflexivity |].
  apply (acquisition_base_one_row_per_user
           sample_users sample_firms sample_events).
  vm_compute. reflexivity.
Defined.

Lemma first_activity_none (evs : list Event) :
  first_activity_of evs = None <-> evs = [].
Proof. destruct evs; cbn; split; congruence. Qed.

Lemma len_zero {A : Type} (l : list A) : len l = 0 <-> l = [].
Proof.
  unfold len. destruct l; cbn [List.length]; split; try congruence; lia.
Qed.

Lemma len_nonneg {A : Type} (l : list A) : 0 <= len l.
Proof. unfold len. lia. Qed.

(** X6: The flags and the activation category of a row agree with each other
    and with the number of events of the user. *)
Theorem acquisition_base_activation (us : list User) (fs : list Firm)
  (es : list Event) (rows : list AcquisitionBaseRow) :
  acquisition_base_data us fs es = Ok rows ->
  Forall activation_consistent rows.
Proof.
  intros H. apply Forall_forall. intros r Hr.
  unfold acquisition_base_data in H.
  destruct (for_each_In _ _ _ r H Hr) as (uid & _ & Hrec).
  apply acquisition_base_record_fields in Hrec
    as (u & _ & _ & _ & _ & _ & Htot & Hfirst & Hdays & Hact & Hq & Hm
        & Hcat & _).
  unfold activation_consistent.
  rewrite Hcat, Hq, Hm, Hact, Hdays, Hfirst, Htot.
  destruct (events_of_user es uid) as [| e evs]; cbn.
  - unfold len. cbn. repeat split; intros; try lia; try discriminate;
      try tauto; auto;
      repeat match goal with H : _ \/ _ |- _ => destruct H end;
      discriminate.
  - set (d := timedelta_days _ _).
    assert (Hlen : 1 <= len (e :: evs)) by (unfold len; cbn; lia).
    destruct (Z.leb_spec d 1), (Z.leb_spec d 7), (Z.leb_spec d 30);
      try lia; cbn;
      repeat split; intros; try lia; try discriminate; auto;
      repeat match goal with H : _ \/ _ |- _ => destruct H end;
      try discriminate; try lia.
Qed.

Lemma acquisition_base_activation_witness :
  exists rows,
    acquisition_base_data sample_users sample_firms sample_events = Ok rows
    /\ map acq_activation_category rows
       = [QuickActivation; StandardActivation]
    /\ Forall activation_consistent rows.
Proof.
  eexists. split; [vm_compute; reflexivity |].
  split; [reflexivity |].
  apply (acquisition_base_activation sample_users sample_firms sample_events).
  vm_compute. reflexivity.
Defined.

Lemma minimum_lower (x : Z) (l : list Z) :
  minimum x l <= x /\ Forall (fun y => minimum x l <= y) l.
Proof.
  unfold minimum. induction l as [| y l [IH1 IH2]]; cbn.
  - split; [lia | constructor].
  - split; [lia |]. constructor; [lia |].
    eapply Forall_impl; [| exact IH2]. cbn. intros z Hz. lia.
Qed.

Lemma minimum_In (x : Z) (l : list Z) : In (minimum x l) (x :: l).
Proof.
  unfold minimum. induction l as [| y l IH]; cbn; [auto |].
  destruct (Z.min_spec y (fold_right Z.min x l)) as [[_ ->] | [_ ->]].
  - right. left. reflexivity.
  - cbn in IH. destruct IH as [IH | IH]; [left | right; right]; auto.
Qed.

(** X7: The first activity date of a row is the time of the earliest event of
    the user, and is absent exactly when the user has no event. *)
Theorem acquisition_base_first_activity (us : list User) (fs : list Firm)
  (es : list Event) (rows : list AcquisitionBaseRow) :
  acquisition_base_data us fs es = Ok rows ->
  Forall (earliest_activity es) rows.
Proof.
  intros H. apply Forall_forall. intros r Hr.
  unfold acquisition_base_data in H.
  destruct (for_each_In _ _ _ r H Hr) as (uid & _ & Hrec).
  apply acquisition_base_record_fields in Hrec
    as (u & _ & Hid & _ & _ & _ & _ & Hfirst & _).
  unfold earliest_activity. rewrite Hfirst, Hid.
  destruct (events_of_user es uid) as [| e evs]; [reflexivity |].
  cbn [first_activity_of map].
  split; [apply minimum_In |].
  destruct (minimum_lower (e_event_created_at e) (map e_event_created_at evs))
    as [H1 H2].
  constructor; [exact H1 |].
  rewrite Forall_map in H2. exact H2.
Qed.

Lemma acquisition_base_first_activity_witness :
  exists rows,
    acquisition_base_data sample_users sample_firms sample_events = Ok rows
    /\ map acq_first_activity_date rows = [Some (day 102); Some (day 112)]
    /\ Forall (earliest_activity sample_events) rows.
Proof.
  eexists. split; [vm_compute; reflexivity |].
  split; [reflexivity |].
  apply (acquisition_base_first_activity sample_users sample_firms).
  vm_compute. reflexivity.
Defined.

Lemma known_by_unique_ids (us : list User) (e : Event) :
  existsb (Z.eqb (e_user_id e)) (unique (map u_user_id us))
  = user_known us e.
Proof.
  apply eq_iff_eq_true. unfold user_known.
  rewrite !existsb_exists. split.
  - intros (k & Hk & E). apply Z.eqb_eq in E. subst k.
    apply unique_In, in_map_iff in Hk as (u & Hu & Hin).
    exists u. split; [exact Hin | apply Z.eqb_eq; exact Hu].
  - intros (u & Hin & E). apply Z.eqb_eq in E.
    exists (u_user_id u). split.
    + apply In_unique, in_map, Hin.
    + apply Z.eqb_eq. congruence.
Qed.

(** X8: The event counts of the rows add up to the number of events whose
    user is known: an event of an unknown user is counted nowhere, and no
    event is counted twice. *)
Theorem acquisition_base_counts_known_events (us : list User)
  (fs : list Firm) (es : list Event) (rows : list AcquisitionBaseRow) :
  acquisition_base_data us fs es = Ok rows ->
  total acq_total_events rows = len (filter (user_known us) es).
Proof.
  intros H. unfold acquisition_base_data in H.
  rewrite (for_each_total _ acq_total_events
             (fun uid => total (fun _ => 1) (events_of_user es uid))
             _ _ H).
  - unfold events_of_user.
    rewrite (total_by_keys e_user_id (fun _ => 1) es)
      by apply NoDup_unique.
    rewrite total_ones. f_equal. apply filter_same.
    intros e. apply known_by_unique_ids.
  - intros uid r _ Hr.
    apply acquisition_base_record_fields in Hr
      as (u & _ & _ & _ & _ & _ & -> & _).
    symmetry. apply total_ones.
Qed.

Lemma acquisition_base_counts_known_events_witness :
  exists rows,
    acquisition_base_data sample_users sample_firms
                          (orphan_user_event :: sample_events) = Ok rows
    /\ total acq_total_events rows = 8
    /\ len (orphan_user_event :: sample_events) = 9.
Proof.
  eexists. split; [vm_compute; reflexivity |].
  split; [| reflexivity].
  rewrite (acquisition_base_counts_known_events
             sample_users sample_firms (orphan_user_event :: sample_events));
    [reflexivity | vm_compute; reflexivity].
Defined.

(** X9: A firm is Small below 100, Medium from 100, Large from 200 and
    Enterprise from 500 employees; its revenue is Minimal Value below 100,
    Low Value from 100, Medium Value from 200 and High Value from 500
    thousand; neither function ever answers Unknown, which is kept for a
    row without a firm. *)
Theorem firm_categories_thresholds (firm_size arr_in_thousands : Z) :
  (firm_size_category firm_size = Small <-> firm_size < 100)
  /\ (firm_size_category firm_size = Medium <->
      100 <= firm_size /\ firm_size < 200)
  /\ (firm_size_category firm_size = Large <->
      200 <= firm_size /\ firm_size < 500)
  /\ (firm_size_category firm_size = Enterprise <-> 500 <= firm_size)
  /\ firm_size_category firm_size <> SizeUnknown
  /\ (arr_category arr_in_thousands = MinimalValue <->
      arr_in_thousands < 100)
  /\ (arr_category arr_in_thousands = LowValue <->
      100 <= arr_in_thousands /\ arr_in_thousands < 200)
  /\ (arr_category arr_in_thousands = MediumValue <->
      200 <= arr_in_thousands /\ arr_in_thousands < 500)
  /\ (arr_category arr_in_thousands = HighValue <->
      500 <= arr_in_thousands)
  /\ arr_category arr_in_thousands <> ArrUnknown.
Proof.
  repeat match goal with |- _ /\ _ => split end;
    unfold firm_size_category, arr_category; ladder.
Qed.

(** X10: An activated user is Immediate up to one day, Quick up to 7 days,
    Standard up to 30 days and Delayed beyond; a first event dated before
    the creation of the user gives a negative number of days and counts as
    Immediate.  Without a number of days, or without the activation flag,
    the category is Not Activated. *)
Theorem activation_category_thresholds (days : Z) :
  (activation_category 1 (Some days) = ImmediateActivation <-> days <= 1)
  /\ (activation_category 1 (Some days) = QuickActivation <->
      1 < days /\ days <= 7)
  /\ (activation_category 1 (Some days) = StandardActivation <->
      7 < days /\ days <= 30)
  /\ (activation_category 1 (Some days) = DelayedActivation <-> 30 < days)
  /\ (forall p : positive,
         activation_category 1 (Some (Z.neg p)) = ImmediateActivation)
  /\ (forall flag_value, activation_category flag_value None = NotActivated)
  /\ activation_category 0 (Some days) = NotActivated.
Proof.
  repeat match goal with |- _ /\ _ => split end;
    try reflexivity; unfold activation_category; cbn [Z.eqb Pos.eqb]; ladder.
Qed.

(* ================================================================== *)
(** ** The acquisition metrics records *)


Lemma for_each_Forall2 {A B C : Type} (f : A -> result B)
  (g : A -> result C) (P : B -> C -> Prop) (xs : list A)
  (rs : list B) (ss : list C) :
  for_each f xs = Ok rs -> for_each g xs = Ok ss ->
  (forall x r s, In x xs -> f x = Ok r -> g x = Ok s -> P r s) ->
  Forall2 P rs ss.
Proof.
  revert rs ss. induction xs as [| x xs IH]; intros rs ss Hf Hg HP;
    cbn in Hf, Hg.
  - injection Hf as <-. injection Hg as <-. constructor.
  - destruct (f x) as [r |] eqn:Ef; [| discriminate]. cbn in Hf.
    destruct (for_each f xs) as [rs' |]; [| discriminate].
    destruct (g x) as [s |] eqn:Eg; [| discriminate]. cbn in Hg.
    destruct (for_each g xs) as [ss' |]; [| discriminate].
    cbn in Hf, Hg. injection Hf as <-. injection Hg as <-.
    constructor.
    + apply (HP x); auto. left. reflexivity.
    + apply IH; auto. intros y r' s' Hy. apply HP. right. exact Hy.
Qed.

(** X12: Where the acquisition base table is produced, the metrics records
    say the same about every user, row for row. *)
Theorem acquisition_metrics_agree_with_base (us : list User)
  (fs : list Firm) (es : list Event) (base : list AcquisitionBaseRow)
  (metrics : list AcquisitionRow) :
  acquisition_base_data us fs es = Ok base ->
  acquisition_data us es = Ok metrics ->
  Forall2 same_acquisition metrics base.
Proof.
  intros Hb Hm.
  apply (for_each_Forall2 _ _ _ _ _ _ Hm Hb).
  intros uid a b _ Ha Hrec.
  apply acquisition_base_record_fields in Hrec
    as (u & Hu & Hid & Htitle & Hmonth & Hfirm & Htot & Hfirst & Hdays
        & Hact & Hq & _ & _ & Havg).
  unfold acquisition_record in Ha. rewrite Hu in Ha. cbn [bind] in Ha.
  injection Ha as <-. unfold same_acquisition. cbn.
  rewrite Hid, Htitle, Hmonth, Hfirm, Htot, Havg, Hq, Hact, Hdays, Hfirst.
  repeat split.
Qed.

Lemma acquisition_metrics_agree_with_base_witness :
  exists base metrics,
    acquisition_base_data sample_users sample_firms sample_events = Ok base
    /\ acquisition_data sample_users sample_events = Ok metrics
    /\ List.length metrics = 2%nat
    /\ Forall2 same_acquisition metrics base.
Proof.
  eexists. eexists.
  split; [vm_compute; reflexivity |].
  split; [vm_compute; reflexivity |].
  split; [reflexivity |].
  apply (acquisition_metrics_agree_with_base
           sample_users sample_firms sample_events);
    vm_compute; reflexivity.
Defined.

(* ================================================================== *)
(** ** Rounding keeps integer bounds *)

Lemma rint_between (a b : Z) (q : Q) :
  (inject_Z a <= q)%Q -> (q <= inject_Z b)%Q -> a <= rint q <= b.
Proof. intros Ha Hb. split; [apply rint_ge | apply rint_le]; assumption. Qed.

Lemma inject_Z_pos (z : Z) : 0 < z -> (0 < inject_Z z)%Q.
Proof. intros H. unfold Qlt. cbn. lia. Qed.

Lemma inject_Z_le (a b : Z) : a <= b -> (inject_Z a <= inject_Z b)%Q.
Proof. intros H. rewrite <- Zle_Qle. exact H. Qed.

(** Rounding to a double keeps a number between two doubles. *)
Lemma round_float64_between (a b q : Q) :
  round_float64 a = a -> round_float64 b = b ->
  (0 <= a)%Q -> (a <= q)%Q -> (q <= b)%Q ->
  (a <= round_float64 q)%Q /\ (round_float64 q <= b)%Q.
Proof.
  intros Ea Eb H0 Ha Hb. split.
  - rewrite <- Ea. apply round_float64_mono; assumption.
  - rewrite <- Eb. apply round_float64_mono; [lra | exact Hb].
Qed.

Lemma round_float64_at_least (a q : Q) :
  round_float64 a = a -> (0 <= a)%Q -> (a <= q)%Q ->
  (a <= round_float64 q)%Q.
Proof.
  intros Ea H0 Ha. rewrite <- Ea. apply round_float64_mono; assumption.
Qed.

(** Two decimals of a number from 0 to 100 are from 0 to 100. *)
Lemma round2_percentage (q : Q) :
  (0 <= q)%Q -> (q <= 100)%Q ->
  exists v, round2 (Fin q) = Fin v /\ (0 <= v)%Q /\ (v <= 100)%Q.
Proof.
  intros H0 H100. unfold round2. cbn [fmul fdiv].
  change (Qzero_bool 100) with false. cbv iota.
  eexists. split; [reflexivity |].
  destruct (round_float64_between 0 10000 (q * 100))
    as [B1 B2]; [reflexivity | reflexivity | lra | lra | lra |].
  destruct (rint_between 0 10000 (round_float64 (q * 100)) B1 B2)
    as [R1 R2].
  apply inject_Z_le in R1, R2.
  change (inject_Z 0) with 0%Q in R1.
  change (inject_Z 10000) with 10000%Q in R2.
  apply (round_float64_between 0 100); [reflexivity | reflexivity | lra | |].
  - apply Qle_shift_div_l; [reflexivity | lra].
  - apply Qle_shift_div_r; [reflexivity | lra].
Qed.

(** Two decimals of a number that is at least 1 are at least 1. *)
Lemma round2_at_least_one (q : Q) :
  (1 <= q)%Q -> exists v, round2 (Fin q) = Fin v /\ (1 <= v)%Q.
Proof.
  intros H1. unfold round2. cbn [fmul fdiv].
  change (Qzero_bool 100) with false. cbv iota.
  eexists. split; [reflexivity |].
  assert (B : (100 <= round_float64 (q * 100))%Q)
    by (apply round_float64_at_least; [reflexivity | lra | lra]).
  assert (R : 100 <= rint (round_float64 (q * 100)))
    by (apply rint_ge; exact B).
  apply inject_Z_le in R. change (inject_Z 100) with 100%Q in R.
  apply round_float64_at_least; [reflexivity | lra |].
  apply Qle_shift_div_l; [reflexivity | lra].
Qed.

(** Counts as doubles keep their order. *)
Lemma of_int_order (a b : Z) :
  0 <= a <= b ->
  (0 <= round_float64 (inject_Z a))%Q
  /\ (round_float64 (inject_Z a) <= round_float64 (inject_Z b))%Q.
Proof.
  intros H. split.
  - change 0%Q with (round_float64 (inject_Z 0)).
    apply round_float64_mono; [apply Qle_refl | apply inject_Z_le; lia].
  - apply round_float64_mono; [| apply inject_Z_le; lia].
    apply (inject_Z_le 0). lia.
Qed.

Lemma of_int_positive (a : Z) :
  0 < a -> (1 <= round_float64 (inject_Z a))%Q.
Proof.
  intros H. change 1%Q with (round_float64 (inject_Z 1)).
  apply round_float64_mono; [discriminate | apply inject_Z_le; lia].
Qed.

(** A part of a whole is a percentage. *)
Lemma rate_pct_percentage (part whole : Z) :
  0 <= part <= whole -> 0 < whole -> is_percentage (rate_pct part whole).
Proof.
  intros Hp Hw. unfold rate_pct, of_int. cbn [fdiv].
  rewrite of_int_zero.
  destruct (Z.eqb_spec whole 0) as [-> | _]; [lia |].
  cbn [fmul].
  destruct (of_int_order part whole Hp) as [P0 Pw].
  pose proof (of_int_positive whole Hw) as W1.
  set (p := round_float64 (inject_Z part)) in *.
  set (w := round_float64 (inject_Z whole)) in *.
  destruct (round_float64_between 0 1 (p / w)) as [Q0 Q1];
    [reflexivity | reflexivity | lra | | |].
  - apply Qle_shift_div_l; lra.
  - apply Qle_shift_div_r; lra.
  - destruct (round_float64_between 0 100 (round_float64 (p / w) * 100))
      as [S0 S1]; [reflexivity | reflexivity | lra | lra | lra |].
    destruct (round2_percentage _ S0 S1) as (v & -> & V0 & V1).
    cbn. split; assumption.
Qed.

(** No fewer of an amount than users gives at least one per user. *)
Lemma per_user_at_least_one (amount users : Z) :
  0 < users -> users <= amount ->
  at_least_one (Some (per_user amount users)).
Proof.
  intros Hu Ha. unfold per_user, of_int. cbn [fdiv].
  rewrite of_int_zero.
  destruct (Z.eqb_spec users 0) as [-> | _]; [lia |].
  destruct (of_int_order users amount) as [U0 Ua]; [lia |].
  pose proof (of_int_positive users Hu) as U1.
  set (a := round_float64 (inject_Z amount)) in *.
  set (u := round_float64 (inject_Z users)) in *.
  assert (Q1 : (1 <= round_float64 (a / u))%Q).
  { apply round_float64_at_least; [reflexivity | lra |].
    apply Qle_shift_div_l; lra. }
  destruct (round2_at_least_one _ Q1) as (v & -> & V1).
  cbn. exact V1.
Qed.

(* ================================================================== *)
(** ** The cohort table *)

Lemma range_six : range 0 6 = [0; 1; 2; 3; 4; 5].
Proof. reflexivity. Qed.

Lemma flat_map_filter {A B : Type} (p : A -> bool) (F : A -> list B)
  (l : list A) :
  flat_map (fun x => if p x then F x else []) l = flat_map F (filter p l).
Proof.
  induction l as [| x l IH]; [reflexivity |].
  cbn. destruct (p x); cbn; rewrite IH; reflexivity.
Qed.

Lemma total_flag {A : Type} (p : A -> bool) (l : list A) :
  total (fun x => flag (p x)) l = len (filter p l).
Proof.
  unfold total, sum, len. induction l as [| x l IH]; [reflexivity |].
  cbn [map fold_right filter]. destruct (p x); cbn [flag List.length];
    rewrite IH; lia.
Qed.

Lemma total_filter_zero {A : Type} (w : A -> Z) (q : A -> bool)
  (l : list A) :
  (forall x, q x = false -> w x = 0) -> total w (filter q l) = total w l.
Proof.
  intros H. unfold total, sum. induction l as [| x l IH]; [reflexivity |].
  cbn [filter]. destruct (q x) eqn:E; cbn [map fold_right]; rewrite IH.
  - reflexivity.
  - rewrite (H x E). lia.
Qed.

Lemma total_ext_in {A : Type} (v w : A -> Z) (l : list A) :
  (forall x, In x l -> v x = w x) -> total v l = total w l.
Proof.
  intros H. unfold total. f_equal. apply map_ext_in. exact H.
Qed.

(** The loop body on an id taken from Users. *)
Lemma cohort_records_known (us : list User) (es : list Event) (uid : Z) :
  In uid (unique (map u_user_id us)) ->
  exists u,
    users_with_id us uid <> []
    /\ cohort_month_of us uid = Some (to_period_M (u_user_created_date u))
    /\ cohort_records us es uid
       = Ok (if negb (len (events_of_user es uid) =? 0)
             then map (cohort_record uid u (events_of_user es uid))
                      (range 0 6)
             else []).
Proof.
  intros H. apply unique_In in H.
  destruct (known_user_found us uid H) as (u & l & Hu).
  exists u. unfold cohort_records, cohort_month_of. rewrite Hu.
  cbn [iloc0 bind]. repeat split; [discriminate |].
  destruct (len (events_of_user es uid) =? 0); reflexivity.
Qed.

Lemma cohort_data_Ok (us : list User) (es : list Event) :
  exists rows, cohort_data us es = Ok rows.
Proof.
  unfold cohort_data.
  pose proof (for_each_flat_decide (cohort_records us es) (fun _ => true)
                IndexError (unique (map u_user_id us))) as H.
  assert (Hall : forallb (fun _ : Z => true) (unique (map u_user_id us))
                 = true)
    by (apply forallb_forall; reflexivity).
  rewrite Hall in H. apply H. intros uid Hu.
  destruct (cohort_records_known us es uid Hu) as (u & _ & _ & ->). eauto.
Qed.

Lemma cohort_keys_of_active_users (us : list User)
  (es : list Event) (rows : list CohortRow) :
  cohort_data us es = Ok rows ->
  map (fun r => (coh_user_id r, coh_months_since_signup r)) rows
  = flat_map (fun uid => map (pair uid) [0; 1; 2; 3; 4; 5])
             (active_ids us es).
Proof.
  intros H. unfold cohort_data in H. unfold active_ids.
  rewrite <- flat_map_filter.
  apply (for_each_flat_map _ _ _ _ _ H). intros uid part Hu Hpart.
  destruct (cohort_records_known us es uid Hu) as (u & _ & _ & E).
  rewrite E in Hpart. injection Hpart as <-.
  destruct (negb (len (events_of_user es uid) =? 0)); reflexivity.
Qed.

(** X13: The cohort loop never raises.  It gives six rows, for the months 0 to
    5 after signup and in that order, to every user that has an event, and
    none to a user without events. *)
Theorem cohort_six_rows_per_active_user (us : list User) (es : list Event) :
  exists rows,
    cohort_data us es = Ok rows
    /\ map (fun r => (coh_user_id r, coh_months_since_signup r)) rows
       = flat_map (fun uid => map (pair uid) [0; 1; 2; 3; 4; 5])
                  (active_ids us es).
Proof.
  destruct (cohort_data_Ok us es) as [rows H]. exists rows.
  split; [exact H |]. apply cohort_keys_of_active_users, H.
Qed.

Lemma cohort_rows_In (us : list User) (es : list Event)
  (rows : list CohortRow) (r : CohortRow) :
  cohort_data us es = Ok rows -> In r rows ->
  exists uid u k,
    In k (range 0 6) /\ r = cohort_record uid u (events_of_user es uid) k.
Proof.
  intros H Hr. unfold cohort_data in H.
  destruct (for_each_flat_In _ _ _ r H Hr) as (uid & part & Hu & Hp & Hin).
  destruct (cohort_records_known us es uid Hu) as (u & _ & _ & E).
  rewrite E in Hp.
  assert (Hpart : part
                  = if negb (len (events_of_user es uid) =? 0)
                    then map (cohort_record uid u (events_of_user es uid))
                             (range 0 6)
                    else []) by congruence.
  clear Hp E. subst part.
  destruct (negb (len (events_of_user es uid) =? 0)); [| destruct Hin].
  apply in_map_iff in Hin as (k & <- & Hk). eauto.
Qed.

Lemma cohort_record_consistent (uid : Z) (u : User) (evs : list Event)
  (k : Z) : cohort_row_consistent (cohort_record uid u evs k).
Proof.
  unfold cohort_row_consistent, cohort_record. cbn.
  set (month_events := filter _ evs).
  destruct month_events as [| e l] eqn:E.
  - unfold len. cbn. repeat split; intros; try lia; discriminate.
  - assert (Hne : e :: l <> []) by discriminate.
    pose proof (nunique_bounds
                  (map (fun e => date_of (e_event_created_at e)) (e :: l)))
      as Hb.
    unfold active_days_of.
    assert (Hl : len (map (fun e0 => date_of (e_event_created_at e0))
                          (e :: l)) = len (e :: l))
      by (unfold len; rewrite length_map; reflexivity).
    rewrite Hl in Hb.
    assert (Hpos : 1 <= len (e :: l)) by (apply len_nonempty, Hne).
    destruct (Z.gtb_spec (len (e :: l)) 0); [| lia]. cbn [flag].
    specialize (Hb ltac:(discriminate)).
    repeat split; intros; try lia.
Qed.

(** X14: In every cohort row the retention flag is 1 exactly when the month has
    an event of the user, and the active days are none without events and
    otherwise between 1 and the number of events. *)
Theorem cohort_rows_consistent (us : list User) (es : list Event)
  (rows : list CohortRow) :
  cohort_data us es = Ok rows -> Forall cohort_row_consistent rows.
Proof.
  intros H. apply Forall_forall. intros r Hr.
  destruct (cohort_rows_In us es rows r H Hr) as (uid & u & k & _ & ->).
  apply cohort_record_consistent.
Qed.

Lemma cohort_rows_consistent_witness :
  exists rows,
    cohort_data sample_users sample_events = Ok rows
    /\ map coh_is_retained rows = [1; 0; 0; 0; 0; 0; 1; 0; 0; 0; 0; 0]
    /\ Forall cohort_row_consistent rows.
Proof.
  eexists. split; [vm_compute; reflexivity |].
  split; [reflexivity |].
  apply (cohort_rows_consistent sample_users sample_events).
  vm_compute. reflexivity.
Defined.

Lemma NoDup_range_six : NoDup (range 0 6).
Proof.
  rewrite range_six.
  repeat (constructor; [cbn; intuition discriminate |]). constructor.
Qed.

(** The six monthly counts of a user add up to the events of the user
    inside the window. *)
Lemma cohort_window_counts (uid : Z) (u : User) (evs : list Event) :
  let c := to_period_M (u_user_created_date u) in
  total coh_events_count (map (cohort_record uid u evs) (range 0 6))
  = len (filter
           (fun e => (c <=? to_period_M (e_event_created_at e))
                     && (to_period_M (e_event_created_at e) <=? c + 5))
           evs).
Proof.
  cbn zeta. set (c := to_period_M (u_user_created_date u)).
  set (m := fun e : Event => to_period_M (e_event_created_at e)).
  unfold total. rewrite map_map.
  transitivity
    (sum (map (fun k =>
                 total (fun _ => 1)
                       (filter (fun e => m e - c =? k) evs))
              (range 0 6))).
  - f_equal. apply map_ext. intros k. cbn. rewrite total_ones. f_equal.
    apply filter_same. intros e. fold c. fold (m e).
    destruct (Z.eqb_spec (m e) (c + k)), (Z.eqb_spec (m e - c) k);
      try reflexivity; lia.
  - rewrite (total_by_keys (fun e => m e - c) (fun _ => 1) evs)
      by apply NoDup_range_six.
    rewrite total_ones. f_equal. apply filter_same. intros e.
    rewrite range_six. fold (m e). cbn [existsb].
    destruct (Z.leb_spec c (m e)), (Z.leb_spec (m e) (c + 5));
      cbn [andb];
      repeat match goal with
             | |- context [Z.eqb ?a ?b] => destruct (Z.eqb_spec a b)
             end; cbn; try reflexivity; lia.
Qed.

Lemma in_cohort_window_of (us : list User) (u : User) (e : Event) :
  cohort_month_of us (e_user_id e)
  = Some (to_period_M (u_user_created_date u)) ->
  in_cohort_window us e
  = (to_period_M (u_user_created_date u)
       <=? to_period_M (e_event_created_at e))
    && (to_period_M (e_event_created_at e)
          <=? to_period_M (u_user_created_date u) + 5).
Proof. intros H. unfold in_cohort_window. rewrite H. reflexivity. Qed.

Lemma in_cohort_window_known (us : list User) (e : Event) :
  user_known us e = false -> in_cohort_window us e = false.
Proof.
  intros H. unfold in_cohort_window, cohort_month_of.
  destruct (users_with_id us (e_user_id e)) eqn:E; [reflexivity |].
  rewrite user_known_known_id in H.
  assert (Hk : known_id us (e_user_id e) = true)
    by (apply users_with_id_known; rewrite E; discriminate).
  congruence.
Qed.

(** X15: An event is counted in a cohort row exactly when its user is known and
    it falls in the signup month of the user or in one of the five months
    after it: the event counts of all rows add up to the number of those
    events. *)
Theorem cohort_counts_events_in_window (us : list User) (es : list Event)
  (rows : list CohortRow) :
  cohort_data us es = Ok rows ->
  total coh_events_count rows = len (filter (in_cohort_window us) es).
Proof.
  intros H. unfold cohort_data in H.
  rewrite (for_each_flat_total _ coh_events_count
             (fun uid =>
                total (fun e => flag (in_cohort_window us e))
                      (filter (fun e => e_user_id e =? uid) es))
             _ _ H).
  - rewrite (total_by_keys e_user_id
               (fun e => flag (in_cohort_window us e)) es)
      by apply NoDup_unique.
    rewrite (filter_same _ (user_known us)) by apply known_by_unique_ids.
    rewrite total_filter_zero.
    + apply total_flag.
    + intros e He. rewrite (in_cohort_window_known us e He). reflexivity.
  - intros uid part Hu Hpart.
    destruct (cohort_records_known us es uid Hu) as (u & _ & Hc & E).
    rewrite E in Hpart.
    assert (Hp : part
                 = if negb (len (events_of_user es uid) =? 0)
                   then map (cohort_record uid u (events_of_user es uid))
                            (range 0 6)
                   else []) by congruence.
    clear Hpart E. subst part.
    fold (events_of_user es uid).
    transitivity
      (len (filter
              (fun e =>
                 (to_period_M (u_user_created_date u)
                    <=? to_period_M (e_event_created_at e))
                 && (to_period_M (e_event_created_at e)
                       <=? to_period_M (u_user_created_date u) + 5))
              (events_of_user es uid))).
    + destruct (Z.eqb_spec (len (events_of_user es uid)) 0) as [Hz | Hz];
        cbn [negb].
      * apply len_zero in Hz. rewrite Hz. reflexivity.
      * apply cohort_window_counts.
    + rewrite <- total_flag. apply total_ext_in. intros e He.
      apply filter_In in He as [_ He]. apply Z.eqb_eq in He.
      f_equal. symmetry. apply in_cohort_window_of. rewrite He. exact Hc.
Qed.

Lemma cohort_counts_events_in_window_witness :
  exists rows,
    cohort_data sample_users
                (orphan_user_event :: late_event :: sample_events) = Ok rows
    /\ total coh_events_count rows = 8
    /\ len (orphan_user_event :: late_event :: sample_events) = 10.
Proof.
  eexists. split; [vm_compute; reflexivity |].
  split; [| reflexivity].
  rewrite (cohort_counts_events_in_window sample_users
             (orphan_user_event :: late_event :: sample_events));
    [reflexivity | vm_compute; reflexivity].
Defined.

Section GroupMembers.
Context {K R : Type}.
Variable cmp : K -> K -> comparison.
Variable key : R -> option K.

Lemma insert_group_members (Q : R -> Prop) (k : K) (r : R)
  (gs : list (K * list R)) :
  Q r -> Forall (fun g => Forall Q (snd g)) gs ->
  Forall (fun g => Forall Q (snd g)) (insert_group cmp k r gs).
Proof.
  intros Hr. induction 1 as [| [k' rs] gs Hg Hgs IH]; cbn.
  - repeat constructor. exact Hr.
  - destruct (cmp k k'); constructor; cbn; auto.
    apply Forall_app. split; [exact Hg | repeat constructor; exact Hr].
Qed.

(** The rows of the groups are rows of the table. *)
Lemma group_rows_members (rows : list R) :
  Forall (fun g => Forall (fun r => In r rows) (snd g))
         (group_rows cmp key rows).
Proof.
  apply (group_rows_invariant cmp key
           (fun done gs =>
              Forall (fun g => Forall (fun r => In r done) (snd g)) gs)).
  - constructor.
  - intros done gs r k H _. apply insert_group_members.
    + apply in_or_app. right. left. reflexivity.
    + eapply Forall_impl; [| exact H]. intros g Hg.
      eapply Forall_impl; [| exact Hg]. intros x Hx.
      apply in_or_app. left. exact Hx.
  - intros done gs r H _.
    eapply Forall_impl; [| exact H]. intros g Hg.
    eapply Forall_impl; [| exact Hg]. intros x Hx.
    apply in_or_app. left. exact Hx.
Qed.
End GroupMembers.

Lemma sum_of_flags {A : Type} (f : A -> Z) (l : list A) :
  Forall (fun x => 0 <= f x <= 1) l -> 0 <= sum (map f l) <= len l.
Proof.
  unfold sum, len. induction 1 as [| x l Hx _ IH]; cbn [map fold_right];
    [cbn; lia |].
  cbn [List.length]. lia.
Qed.

Lemma active_ids_none (us : list User) (es : list Event) :
  active_ids us es = [] <-> filter (user_known us) es = [].
Proof.
  unfold active_ids. split; intros H.
  - destruct (filter (user_known us) es) as [| e l] eqn:E; [reflexivity |].
    exfalso.
    assert (He : In e (filter (user_known us) es))
      by (rewrite E; left; reflexivity).
    apply filter_In in He as [He Hk].
    rewrite <- known_by_unique_ids in Hk.
    apply existsb_exists in Hk as (uid & Hu & Huid).
    apply Z.eqb_eq in Huid. subst uid.
    assert (Hin : In (e_user_id e)
                     (filter
                        (fun uid => negb (len (events_of_user es uid) =? 0))
                        (unique (map u_user_id us)))).
    { apply filter_In. split; [exact Hu |].
      apply negb_true_iff, Z.eqb_neq. intros Hz. apply len_zero in Hz.
      apply (events_of_user_nonempty es (e_user_id e));
        [apply in_map; exact He | exact Hz]. }
    rewrite H in Hin. destruct Hin.
  - destruct (filter _ (unique (map u_user_id us))) as [| uid l] eqn:E;
      [reflexivity |].
    exfalso.
    assert (Hu : In uid (filter
                           (fun uid =>
                              negb (len (events_of_user es uid) =? 0))
                           (unique (map u_user_id us))))
      by (rewrite E; left; reflexivity).
    apply filter_In in Hu as [Hu Hne].
    apply negb_true_iff, Z.eqb_neq in Hne.
    destruct (events_of_user es uid) as [| e evs] eqn:Ev;
      [apply Hne; reflexivity |].
    assert (He : In e (events_of_user es uid))
      by (rewrite Ev; left; reflexivity).
    apply filter_In in He as [He Hid]. apply Z.eqb_eq in Hid.
    assert (Hk : In e (filter (user_known us) es)).
    { apply filter_In. split; [exact He |].
      rewrite <- known_by_unique_ids. apply existsb_exists.
      exists uid. split; [exact Hu | apply Z.eqb_eq; exact Hid]. }
    rewrite H in Hk. destruct Hk.
Qed.

Lemma cohort_rows_none (us : list User) (es : list Event)
  (rows : list CohortRow) :
  cohort_data us es = Ok rows ->
  (rows = [] <-> filter (user_known us) es = []).
Proof.
  intros H. rewrite <- active_ids_none.
  pose proof (cohort_keys_of_active_users us es rows H) as E.
  split; intros Hn.
  - rewrite Hn in E. cbn in E.
    destruct (active_ids us es) as [| uid l]; [reflexivity | discriminate].
  - rewrite Hn in E. cbn in E. destruct rows; [reflexivity | discriminate].
Qed.

(** X16: The function returns the cohort table exactly when some event belongs
    to a known user.  Otherwise (no events, no users, or only events of
    unknown users) the table is built from no record, has no columns, and
    the summary fails on the missing [cohort_month] column. *)
Theorem simulate_cohort_analysis_outcome (us : list User) (fs : list Firm)
  (es : list Event) :
  match snd (simulate_cohort_analysis (load_harvey_data us fs es)) with
  | Ok df =>
      filter (user_known us) es <> []
      /\ columns df = cohort_columns
      /\ cohort_data us es = Ok (records df)
  | Raise e =>
      e = KeyError "cohort_month" /\ filter (user_known us) es = []
  end.
Proof.
  unfold simulate_cohort_analysis, cohort_analysis_tables, load_harvey_data,
    assign_column.
  cbn [snd users_df events_df firms_df records].
  rewrite users_reparsed, events_reparsed.
  destruct (cohort_data_Ok us es) as [rows H]. rewrite H. cbn [bind].
  pose proof (cohort_rows_none us es rows H) as Hnone.
  destruct rows as [| r rows].
  - cbn. split; [reflexivity | apply Hnone; reflexivity].
  - unfold cohort_summary, DataFrame_of_dicts.
    rewrite require_columns_labels. cbn.
    repeat split. intros Hn. apply Hnone in Hn. discriminate.
Qed.

Lemma cohort_record_flag (uid : Z) (u : User) (evs : list Event) (k : Z) :
  0 <= coh_is_retained (cohort_record uid u evs k) <= 1.
Proof.
  cbn. destruct (len _ >? 0); cbn; lia.
Qed.

(** X17: Every row of the cohort summary stands for at least one user, counts
    no more retained users than users, and has a retention rate between 0
    and 100. *)
Theorem cohort_summary_rates (us : list User) (fs : list Firm)
  (es : list Event) (df : Frame CohortRow)
  (summary : Frame CohortSummaryRow) :
  snd (cohort_analysis_tables (load_harvey_data us fs es))
  = Ok (df, summary) ->
  Forall cohort_summary_consistent (records summary).
Proof.
  unfold cohort_analysis_tables, load_harvey_data, assign_column.
  cbn [snd users_df events_df firms_df records].
  rewrite users_reparsed, events_reparsed.
  destruct (cohort_data_Ok us es) as [rows H]. rewrite H. cbn [bind].
  unfold cohort_summary.
  destruct (require_columns _ _); [| discriminate]. cbn [bind].
  intros E. injection E as <- <-. cbn [records DataFrame_of_dicts].
  apply Forall_map_of.
  pose proof (group_rows_nonempty compare_cohort_key cohort_key rows) as Hne.
  pose proof (group_rows_members compare_cohort_key cohort_key rows) as Hin.
  rewrite Forall_forall in *. intros [k grows] Hg.
  specialize (Hne _ Hg). specialize (Hin _ Hg). cbn in Hne, Hin.
  unfold cohort_summary_consistent. cbn.
  assert (Hlen : len (map coh_user_id grows) = len grows)
    by (unfold len; rewrite length_map; reflexivity).
  rewrite Hlen.
  assert (Hpos : 1 <= len grows) by (apply len_nonempty, Hne).
  assert (Hflags : 0 <= sum (map coh_is_retained grows) <= len grows).
  { apply sum_of_flags. rewrite Forall_forall in *. intros r Hr.
    destruct (cohort_rows_In us es rows r H (Hin r Hr))
      as (uid & u & j & _ & ->).
    apply cohort_record_flag. }
  repeat split; try lia.
  apply rate_pct_percentage; lia.
Qed.

Lemma cohort_summary_rates_witness :
  exists df summary,
    snd (cohort_analysis_tables sample_store) = Ok (df, summary)
    /\ map cs_retention_rate_pct (records summary)
       = [Fin 100; Fin 0; Fin 0; Fin 0; Fin 0; Fin 0]
    /\ Forall cohort_summary_consistent (records summary).
Proof.
  eexists. eexists. split; [vm_compute; reflexivity |].
  split; [reflexivity |].
  eapply (cohort_summary_rates sample_users sample_firms sample_events).
  vm_compute. reflexivity.
Defined.

(* ================================================================== *)
(** ** The per-event table *)

Lemma event_performance_record_joined (us : list User) (fs : list Firm)
  (i : Z) (e : Event) (r : PerformanceRow) :
  event_performance_record us fs (i, e) = Ok r ->
  p_event_id r = i /\ joined us fs e r.
Proof.
  unfold event_performance_record.
  destruct (users_with_id us (e_user_id e)) as [| u ul] eqn:Eu;
    [discriminate |].
  cbn [iloc0 bind].
  destruct (firms_with_id fs (e_firm_id e)) as [| f fl] eqn:Ef;
    [discriminate |].
  cbn [iloc0 bind]. intros H. injection H as <-.
  unfold joined. cbn. rewrite Eu, Ef.
  repeat split; eauto.
Qed.

Lemma iterrows_positions {A : Type} (start : Z) (l : list A) :
  map fst (iterrows start l)
  = map (fun i => start + Z.of_nat i) (seq 0 (List.length l)).
Proof.
  revert start. induction l as [| x l IH]; intros start; [reflexivity |].
  cbn [iterrows map List.length seq fst].
  replace (start + Z.of_nat 0) with start by lia. f_equal.
  rewrite IH, <- seq_shift, map_map. apply map_ext. intros i. lia.
Qed.

Lemma Forall2_iterrows {A B : Type} (P : A -> B -> Prop) (start : Z)
  (l : list A) (rs : list B) :
  Forall2 (fun x r => P (snd x) r) (iterrows start l) rs -> Forall2 P l rs.
Proof.
  revert start rs. induction l as [| x l IH]; intros start rs H;
    inversion H; subst; constructor; eauto.
Qed.

Lemma derived_rows_joined (us : list User) (fs : list Firm)
  (es : list Event) (data : list PerformanceRow) :
  event_performance_data us fs es = Ok data ->
  Forall2 (joined us fs) es data.
Proof.
  intros H. unfold event_performance_data in H.
  apply for_each_Ok in H. apply (Forall2_iterrows _ 0).
  eapply Forall2_impl; [| exact H]. intros [i e] r Hr.
  apply event_performance_record_joined in Hr as [_ Hj]. exact Hj.
Qed.

(** X18: When the per-event table is derived it has one row per event, in the
    order of the events; [event_id] is the position of the event, and the
    user and firm columns are those of the first user and the first firm
    with the event's ids. *)
Theorem event_performance_rows_in_order (us : list User) (fs : list Firm)
  (es : list Event) (data : list PerformanceRow) :
  event_performance_data us fs es = Ok data ->
  map p_event_id data = map Z.of_nat (seq 0 (List.length es))
  /\ Forall2 (joined us fs) es data.
Proof.
  intros H. split; [| apply derived_rows_joined, H].
  unfold event_performance_data in H.
  rewrite (for_each_map _ p_event_id fst _ _ H).
  - rewrite iterrows_positions. apply map_ext. intros i. lia.
  - intros [i e] r _ Hr.
    apply event_performance_record_joined in Hr as [-> _]. reflexivity.
Qed.

Lemma event_performance_rows_in_order_witness :
  exists data,
    event_performance_data sample_users sample_firms sample_events = Ok data
    /\ map p_event_id data = [0; 1; 2; 3; 4; 5; 6; 7]
    /\ Forall2 (joined sample_users sample_firms) sample_events data.
Proof.
  eexists. split; [vm_compute; reflexivity |].
  split; [reflexivity |].
  apply (event_performance_rows_in_order
           sample_users sample_firms sample_events).
  vm_compute. reflexivity.
Defined.

(* ================================================================== *)
(** ** Keys of the per-grain tables *)

Lemma daily_row_key (grp : GroupKey * list PerformanceRow) :
  row_key (daily_record grp) = fst grp.
Proof. destruct grp as [[] rows]. reflexivity. Qed.

Lemma monthly_row_key (grp : GroupKey * list PerformanceRow) :
  row_key (monthly_record grp) = fst grp.
Proof. destruct grp as [[] rows]. reflexivity. Qed.

Lemma weekly_row_keys (groups : list (GroupKey * list PerformanceRow)) :
  Forall (fun g => k_user_segment (fst g) = None) groups ->
  map row_key (weekly_records groups) = map fst groups.
Proof.
  intros Hseg. unfold weekly_records.
  generalize (@nil CoreMetrics) as earlier.
  induction Hseg as [| [k rows] gs Hk _ IH]; intros earlier;
    [reflexivity |].
  cbn [map prev_week_events zip_with]. f_equal; [| apply IH].
  destruct k. cbn in Hk. subst. reflexivity.
Qed.

Lemma grain_table_keys (g : Grain) (data : list PerformanceRow) :
  map row_key (records (grain_table g (tables_of data)))
  = map fst (grain_groups g data).
Proof.
  destruct g; cbn [grain_table tables_of daily_table weekly_table
                   monthly_table records].
  - rewrite map_map. apply map_ext, daily_row_key.
  - apply weekly_row_keys.
    pose proof (group_rows_keys compare_key (key_of Weekly) data) as H.
    eapply Forall_impl; [| exact H]. intros grp [r Hr].
    apply (weekly_key_segment r). exact Hr.
  - rewrite map_map. apply map_ext, monthly_row_key.
Qed.

Lemma sorted_keys {A : Type} (gs : list (GroupKey * list A)) :
  StronglySorted (key_lt compare_key) gs ->
  StronglySorted (fun a b => compare_key a b = Lt) (map fst gs).
Proof.
  induction 1 as [| g gs _ IH Hall]; cbn; constructor; [exact IH |].
  apply Forall_map. exact Hall.
Qed.

Lemma sorted_keys_distinct (ks : list GroupKey) :
  StronglySorted (fun a b => compare_key a b = Lt) ks -> NoDup ks.
Proof.
  induction 1 as [| k ks _ IH Hall]; constructor; [| exact IH].
  intros Hin. rewrite Forall_forall in Hall. specialize (Hall k Hin).
  rewrite (cmp_refl compare_key) in Hall. discriminate.
Qed.

(** X19: Each per-grain table is in strictly ascending order of its key
    (period, event type, user title and, for the daily and monthly grains,
    user segment), so no two of its rows have the same key. *)
Theorem grain_tables_sorted_by_key (us : list User) (fs : list Firm)
  (es : list Event) (tables : PerformanceTables) (g : Grain) :
  snd (event_performance_tables (load_harvey_data us fs es)) = Ok tables ->
  StronglySorted (fun a b => compare_key a b = Lt)
                 (map row_key (records (grain_table g tables)))
  /\ NoDup (map row_key (records (grain_table g tables))).
Proof.
  intros H.
  apply event_performance_tables_Ok in H as (data & _ & _ & ->).
  assert (Hs : StronglySorted (fun a b => compare_key a b = Lt)
                 (map row_key (records (grain_table g (tables_of data))))).
  { rewrite grain_table_keys. apply sorted_keys.
    apply group_rows_sorted. exact compare_key_order. }
  split; [exact Hs | apply sorted_keys_distinct, Hs].
Qed.

Lemma grain_tables_sorted_by_key_witness :
  exists tables,
    snd (event_performance_tables sample_store) = Ok tables
    /\ map (fun r => time_period (core r))
           (records (grain_table Weekly tables)) = [15; 16; 16]
    /\ NoDup (map row_key (records (grain_table Weekly tables))).
Proof.
  eexists. split; [vm_compute; reflexivity |].
  split; [reflexivity |].
  apply (grain_tables_sorted_by_key
           sample_users sample_firms sample_events _ Weekly).
  vm_compute. reflexivity.
Defined.

(* ================================================================== *)
(** ** Counts, rates and totals of the per-grain tables *)

Lemma joined_flags (us : list User) (fs : list Firm) (e : Event)
  (r : PerformanceRow) :
  joined us fs e r ->
  0 <= p_high_satisfaction_event r <= 1 /\ 0 <= p_high_volume_event r <= 1.
Proof.
  intros (_ & _ & _ & _ & _ & _ & _ & _ & _ & -> & ->).
  unfold high_satisfaction_flag.
  destruct (e_feedback_score e) as [s |];
    [destruct (s >=? 4) |]; destruct (e_num_docs e >=? 10); cbn; lia.
Qed.

Lemma derived_rows_flags (us : list User) (fs : list Firm)
  (es : list Event) (data : list PerformanceRow) :
  event_performance_data us fs es = Ok data ->
  Forall (fun r => 0 <= p_high_satisfaction_event r <= 1
                   /\ 0 <= p_high_volume_event r <= 1) data.
Proof.
  intros H. apply derived_rows_joined in H.
  induction H as [| e r es data Hj _ IH]; constructor; [| exact IH].
  apply (joined_flags us fs e r Hj).
Qed.

Lemma aggregate_counts_consistent (g : Grain)
  (grp : GroupKey * list PerformanceRow) :
  snd grp <> [] ->
  Forall (fun r => 0 <= p_high_satisfaction_event r <= 1
                   /\ 0 <= p_high_volume_event r <= 1) (snd grp) ->
  counts_consistent (aggregate g grp).
Proof.
  destruct grp as [k rows]. cbn [snd]. intros Hne Hflags.
  unfold counts_consistent. cbn.
  assert (Hlen : forall (A : Type) (f : PerformanceRow -> A),
             len (map f rows) = len rows)
    by (intros; unfold len; rewrite length_map; reflexivity).
  rewrite (Hlen _ p_event_id).
  assert (Hpos : 1 <= len rows) by (apply len_nonempty, Hne).
  pose proof (nunique_bounds (map p_user_id rows)) as Hu.
  pose proof (nunique_bounds (map p_firm_id rows)) as Hf.
  rewrite Hlen in Hu, Hf.
  assert (Hmap : forall f : PerformanceRow -> Z, map f rows <> [])
    by (intros f E; apply map_eq_nil in E; contradiction).
  specialize (Hu (Hmap _)). specialize (Hf (Hmap _)).
  assert (Hs : 0 <= sum (map p_high_satisfaction_event rows) <= len rows).
  { apply sum_of_flags. eapply Forall_impl; [| exact Hflags].
    cbn. intros r [H _]. exact H. }
  assert (Hv : 0 <= sum (map p_high_volume_event rows) <= len rows).
  { apply sum_of_flags. eapply Forall_impl; [| exact Hflags].
    cbn. intros r [_ H]. exact H. }
  repeat split; try lia; apply rate_pct_percentage; lia.
Qed.

Lemma grain_groups_flags (us : list User) (fs : list Firm)
  (es : list Event) (data : list PerformanceRow) (g : Grain) :
  event_performance_data us fs es = Ok data ->
  Forall (fun grp =>
            snd grp <> []
            /\ Forall (fun r => 0 <= p_high_satisfaction_event r <= 1
                                /\ 0 <= p_high_volume_event r <= 1)
                      (snd grp))
         (grain_groups g data).
Proof.
  intros H. pose proof (derived_rows_flags us fs es data H) as Hflags.
  pose proof (grain_groups_nonempty g data) as Hne.
  pose proof (group_rows_members compare_key (key_of g) data) as Hin.
  fold (grain_groups g data) in Hin.
  rewrite Forall_forall in *. intros grp Hg. split; [apply Hne, Hg |].
  specialize (Hin grp Hg). rewrite Forall_forall in *.
  intros r Hr. apply Hflags, Hin, Hr.
Qed.

(** X20: In every row of every per-grain table the distinct users and the
    distinct firms are at least one and at most the events; the counts of
    high-satisfaction and high-volume events are at most the events; both
    rates lie between 0 and 100; and on the daily and monthly rows the
    events per user are at least one. *)
Theorem grain_rows_counts_and_rates (us : list User) (fs : list Firm)
  (es : list Event) (tables : PerformanceTables) :
  snd (event_performance_tables (load_harvey_data us fs es)) = Ok tables ->
  (forall g,
      Forall (fun r => counts_consistent (core r))
             (records (grain_table g tables)))
  /\ Forall (fun r => at_least_one (events_per_user (by_grain r)))
            (records (daily_table tables) ++ records (monthly_table tables)).
Proof.
  intros H.
  apply event_performance_tables_Ok in H as (data & Hdata & _ & ->).
  split.
  - intros g. rewrite <- Forall_map, grain_table_core.
    apply Forall_map_of.
    eapply Forall_impl; [| apply (grain_groups_flags us fs es data g Hdata)].
    intros grp [Hne Hf]. apply aggregate_counts_consistent; assumption.
  - cbn [tables_of daily_table monthly_table records].
    apply Forall_app. split; apply Forall_map_of.
    + eapply Forall_impl;
        [| apply (grain_groups_flags us fs es data Daily Hdata)].
      intros grp [Hne Hf]. cbn [daily_record by_grain events_per_user].
      destruct (aggregate_counts_consistent Daily grp Hne Hf)
        as ([H1 H2] & _).
      apply per_user_at_least_one; lia.
    + eapply Forall_impl;
        [| apply (grain_groups_flags us fs es data Monthly Hdata)].
      intros grp [Hne Hf]. cbn [monthly_record by_grain events_per_user].
      destruct (aggregate_counts_consistent Monthly grp Hne Hf)
        as ([H1 H2] & _).
      apply per_user_at_least_one; lia.
Qed.

Lemma grain_rows_counts_and_rates_witness :
  exists tables,
    snd (event_performance_tables sample_store) = Ok tables
    /\ map (fun r => satisfaction_rate_pct (core r))
           (records (weekly_table tables))
       = [decimal2 6667; Fin 25; Fin 0]
    /\ Forall (fun r => counts_consistent (core r))
              (records (grain_table Weekly tables)).
Proof.
  eexists. split; [vm_compute; reflexivity |].
  split; [vm_compute; reflexivity |].
  apply (grain_rows_counts_and_rates sample_users sample_firms sample_events).
  vm_compute. reflexivity.
Defined.

Section GroupTotals.
Context {K R : Type}.
Variable cmp : K -> K -> comparison.
Variable key : R -> option K.
Variable w : R -> Z.

Lemma insert_group_total (k : K) (r : R) (gs : list (K * list R)) :
  group_total w (insert_group cmp k r gs) = group_total w gs + w r.
Proof.
  unfold group_total, sum.
  induction gs as [| [k' rs] gs IH]; cbn [insert_group].
  - unfold total, sum. cbn. lia.
  - destruct (cmp k k'); cbn [map fold_right snd].
    + rewrite total_app. unfold total at 2, sum. cbn. lia.
    + unfold total at 1, sum. cbn. lia.
    + rewrite IH. lia.
Qed.

(** Grouping loses and repeats nothing of the rows that have a key. *)
Lemma group_rows_total (rows : list R) :
  group_total w (group_rows cmp key rows)
  = total w (filter (has_key key) rows).
Proof.
  apply (group_rows_invariant cmp key
           (fun done gs =>
              group_total w gs = total w (filter (has_key key) done))).
  - reflexivity.
  - intros done gs r k H E. rewrite insert_group_total, H.
    assert (Hk : has_key key r = true)
      by (unfold has_key; rewrite E; reflexivity).
    rewrite filter_app, total_app. cbn [filter]. rewrite Hk.
    unfold total at 3, sum. cbn. lia.
  - intros done gs r H E. rewrite H, filter_app.
    assert (Hk : has_key key r = false)
      by (unfold has_key; rewrite E; reflexivity).
    cbn [filter]. rewrite Hk, app_nil_r. reflexivity.
Qed.

Lemma group_rows_no_key (rows : list R) :
  Forall (fun r => key r = None) rows -> group_rows cmp key rows = [].
Proof.
  intros H. unfold group_rows.
  induction H as [| r rows Hr _ IH]; [reflexivity |].
  cbn [fold_left]. rewrite Hr. exact IH.
Qed.
End GroupTotals.

Lemma total_filter_Forall2 {A B : Type} (p : A -> bool) (q : B -> bool)
  (v : A -> Z) (w : B -> Z) (xs : list A) (rs : list B) :
  Forall2 (fun x r => q r = p x /\ w r = v x) xs rs ->
  total w (filter q rs) = total v (filter p xs).
Proof.
  unfold total, sum.
  induction 1 as [| x r xs rs [Hq Hw] _ IH]; [reflexivity |].
  cbn [filter]. rewrite Hq. destruct (p x); cbn [map fold_right];
    rewrite IH; [rewrite Hw |]; reflexivity.
Qed.

Lemma joined_keys (us : list User) (fs : list Firm) (e : Event)
  (r : PerformanceRow) :
  joined us fs e r -> keys_not_null r = event_keys_not_null us e.
Proof.
  intros (Hty & _ & _ & _ & _ & _ & (u & rest & Hu & Htitle & _) & _).
  unfold keys_not_null, event_keys_not_null. rewrite Hty, Htitle, Hu.
  reflexivity.
Qed.

(** A quantity that a per-grain table sums by group, over all its rows,
    is the quantity summed over the events with a key. *)
Lemma grain_total_of (us : list User) (fs : list Firm) (es : list Event)
  (data : list PerformanceRow) (g : Grain) (m : CoreMetrics -> Z)
  (w : PerformanceRow -> Z) (v : Event -> Z) :
  event_performance_data us fs es = Ok data ->
  (forall grp, m (aggregate g grp) = total w (snd grp)) ->
  (forall e r, joined us fs e r -> w r = v e) ->
  total (fun r => m (core r)) (records (grain_table g (tables_of data)))
  = total v (filter (event_keys_not_null us) es).
Proof.
  intros Hdata Hm Hw. unfold total at 1.
  rewrite <- (map_map core m), grain_table_core, map_map.
  rewrite (map_ext _ (fun grp => total w (snd grp))) by apply Hm.
  fold (group_total w (grain_groups g data)). unfold grain_groups.
  rewrite group_rows_total.
  rewrite (filter_same _ keys_not_null) by apply has_key_keys_not_null.
  apply total_filter_Forall2.
  eapply Forall2_impl; [| apply (derived_rows_joined us fs es data Hdata)].
  intros e r Hj. split; [apply (joined_keys us fs e r Hj) | apply Hw, Hj].
Qed.

(** The rows of the groups of the per-event table carry the documents of
    events. *)
Lemma group_documents_of_events (us : list User) (fs : list Firm)
  (es : list Event) (data : list PerformanceRow) (g : Grain)
  (grp : GroupKey * list PerformanceRow) :
  event_performance_data us fs es = Ok data ->
  Forall (fun e => 0 <= e_num_docs e) es ->
  In grp (grain_groups g data) ->
  Forall (fun x => 0 <= x) (map p_num_docs (snd grp)).
Proof.
  intros Hdata Hpos Hin. apply Forall_map.
  pose proof (group_rows_members compare_key (key_of g) data) as Hmem.
  rewrite Forall_forall in Hmem. specialize (Hmem grp Hin).
  eapply Forall_impl; [| exact Hmem]. intros r Hr.
  pose proof (derived_rows_joined us fs es data Hdata) as Hj.
  clear - Hj Hr Hpos.
  induction Hj as [| e r' es data He _ IH]; [destruct Hr |].
  inversion Hpos as [| ? ? He0 Hrest]; subst.
  destruct Hr as [<- | Hr]; [| exact (IH Hrest Hr)].
  destruct He as (_ & _ & -> & _). exact He0.
Qed.

(** X21: Whatever the grain, the document totals of the groups, each the
    int64 sum of its group, add up to the documents of the events that
    have a key modulo 2^64, and to that sum itself when no document count
    is negative and the sum is below 2^63; the high-satisfaction and
    high-volume counts add up to the numbers of such events with a score
    of at least 4 and with at least 10 documents. *)
Theorem grain_totals_are_conserved (us : list User) (fs : list Firm)
  (es : list Event) (tables : PerformanceTables) (g : Grain) :
  snd (event_performance_tables (load_harvey_data us fs es)) = Ok tables ->
  let rows := records (grain_table g tables) in
  let keyed := filter (event_keys_not_null us) es in
  wrap_int64 (total (fun r => total_documents_processed (core r)) rows)
  = wrap_int64 (total documents_of keyed)
  /\ (Forall (fun e => 0 <= e_num_docs e) es ->
      total documents_of keyed < 2 ^ 63 ->
      total (fun r => total_documents_processed (core r)) rows
      = total documents_of keyed)
  /\ total (fun r => high_satisfaction_events (core r)) rows
     = total satisfied keyed
  /\ total (fun r => high_volume_events (core r)) rows
     = total voluminous keyed.
Proof.
  intros H.
  apply event_performance_tables_Ok in H as (data & Hdata & _ & ->).
  cbn zeta.
  assert (Hexact : total (fun grp => total p_num_docs (snd grp))
                         (grain_groups g data)
                   = total documents_of
                           (filter (event_keys_not_null us) es)).
  { unfold total at 1.
    fold (group_total p_num_docs (grain_groups g data)).
    unfold grain_groups. rewrite group_rows_total.
    rewrite (filter_same _ keys_not_null) by apply has_key_keys_not_null.
    apply total_filter_Forall2.
    eapply Forall2_impl;
      [| apply (derived_rows_joined us fs es data Hdata)].
    intros e r Hj. split; [apply (joined_keys us fs e r Hj) |].
    destruct Hj as (_ & _ & Hd & _). exact Hd. }
  assert (Hrows : total (fun r => total_documents_processed (core r))
                        (records (grain_table g (tables_of data)))
                  = total (fun grp => sum_int64 (map p_num_docs (snd grp)))
                          (grain_groups g data)).
  { unfold total.
    rewrite <- (map_map core total_documents_processed), grain_table_core,
      map_map.
    f_equal. apply map_ext. intros [k rows]. reflexivity. }
  rewrite Hrows, <- Hexact.
  split; [| split; [| split]].
  - apply same_int64_wrap.
    apply (total_related same_int64);
      [reflexivity | apply same_int64_add |].
    intros grp _. apply sum_int64_mod.
  - intros Hpos Hlt.
    apply (total_related exact_below_2_63
             (ltac:(split; [lia | reflexivity]))
             exact_below_2_63_add
             (fun grp => sum_int64 (map p_num_docs (snd grp)))
             (fun grp => total p_num_docs (snd grp))
             (grain_groups g data));
      [| exact Hlt].
    intros grp Hin. apply sum_int64_exact.
    apply (group_documents_of_events us fs es data g grp Hdata Hpos Hin).
  - apply (grain_total_of us fs es data g _ p_high_satisfaction_event); auto.
    + intros [k rows]. reflexivity.
    + intros e r (_ & _ & _ & _ & _ & _ & _ & _ & _ & Hs & _). exact Hs.
  - apply (grain_total_of us fs es data g _ p_high_volume_event); auto.
    + intros [k rows]. reflexivity.
    + intros e r (_ & _ & _ & _ & _ & _ & _ & _ & _ & _ & Hv). exact Hv.
Qed.

Lemma grain_totals_are_conserved_witness :
  exists tables,
    snd (event_performance_tables sample_store) = Ok tables
    /\ total (fun r => total_documents_processed (core r))
             (records (grain_table Monthly tables)) = 54
    /\ total (fun r => high_satisfaction_events (core r))
             (records (grain_table Monthly tables)) = 3
    /\ total (fun r => high_volume_events (core r))
             (records (grain_table Monthly tables)) = 2.
Proof.
  eexists. split; [vm_compute; reflexivity |].
  destruct (grain_totals_are_conserved
              sample_users sample_firms sample_events _ Monthly
              ltac:(vm_compute; reflexivity)) as (_ & H1 & H2 & H3).
  cbv zeta in H1, H2, H3.
  split; [rewrite H1; [reflexivity | | reflexivity];
          repeat constructor; discriminate |].
  split; [rewrite H2 | rewrite H3]; reflexivity.
Defined.

(** X22: When no event has a key (each lacks its type, or its user lacks a
    title) the three group-bys find no group: the per-grain tables have
    their columns and no row, and the combined table is the header of the
    shared columns alone. *)
Theorem tables_without_keys (us : list User) (fs : list Firm)
  (es : list Event) (tables : PerformanceTables) :
  snd (event_performance_tables (load_harvey_data us fs es)) = Ok tables ->
  filter (event_keys_not_null us) es = [] ->
  tables
  = {| daily_table := mkFrame daily_metrics_columns [];
       weekly_table := mkFrame weekly_metrics_columns [];
       monthly_table := mkFrame monthly_metrics_columns [];
       combined_metrics := mkFrame combined_columns [] |}.
Proof.
  intros H Hnone.
  apply event_performance_tables_Ok in H as (data & Hdata & _ & ->).
  assert (Hkeys : forall g, grain_groups g data = []).
  { intros g. apply group_rows_no_key.
    pose proof (derived_rows_joined us fs es data Hdata) as Hj.
    assert (Hall : Forall (fun e => event_keys_not_null us e = false) es).
    { apply Forall_forall. intros e He.
      destruct (event_keys_not_null us e) eqn:E; [| reflexivity].
      assert (Hin : In e (filter (event_keys_not_null us) es))
        by (apply filter_In; split; assumption).
      rewrite Hnone in Hin. destruct Hin. }
    clear Hnone Hdata.
    induction Hj as [| e r es data Hj _ IH]; constructor.
    - apply joined_keys in Hj. inversion Hall; subst.
      pose proof (has_key_keys_not_null g r) as Hk. unfold has_key in Hk.
      destruct (key_of g r); [congruence | reflexivity].
    - apply IH. inversion Hall; assumption. }
  unfold tables_of. rewrite !Hkeys. reflexivity.
Qed.

Lemma tables_without_keys_witness :
  exists tables,
    snd (event_performance_tables
           (load_harvey_data sample_users sample_firms [untyped_event]))
    = Ok tables
    /\ records (combined_metrics tables) = []
    /\ columns (combined_metrics tables) = combined_columns.
Proof.
  destruct (snd (event_performance_tables
                   (load_harvey_data sample_users sample_firms
                                     [untyped_event])))
    as [tables |] eqn:E; [| vm_compute in E; discriminate E].
  exists tables. split; [reflexivity |].
  rewrite (tables_without_keys sample_users sample_firms [untyped_event]
             tables E eq_refl).
  split; reflexivity.
Defined.

(* ================================================================== *)
(** ** The consistency check *)

Lemma percentage_checked (part whole : Z) :
  whole <> 0 -> exists q, percentage part whole = Checked q.
Proof.
  intros H. unfold percentage.
  destruct (Z.eqb_spec whole 0); [contradiction | eauto].
Qed.

Lemma analyze_consistency_results (us : list User) (fs : list Firm)
  (es : list Event) :
  es <> [] ->
  analyze_consistency us fs es
  = Checked
      {| timeline_issues := filter before_creation (merge_left_users es us);
         invalid_feedback := filter feedback_invalid es;
         invalid_docs := filter (fun e => e_num_docs e <=? 0) es |}.
Proof.
  intros H. unfold analyze_consistency.
  assert (Hlen : len es <> 0) by (intros E; apply len_zero in E; auto).
  destruct (percentage_checked
              (len (filter before_creation (merge_left_users es us)))
              (len es) Hlen) as [q1 ->].
  destruct (percentage_checked (len (filter feedback_invalid es))
                               (len es) Hlen) as [q2 ->].
  destruct (percentage_checked
              (len (filter (fun e => e_num_docs e <=? 0) es))
              (len es) Hlen) as [q3 ->].
  reflexivity.
Qed.

(** X23: The check raises the division by zero exactly on an empty Events
    table.  Otherwise the feedback findings are the events whose score is
    missing together with those whose score is outside 1 to 5: a missing
    score counts as invalid. *)
Theorem analyze_consistency_feedback (us : list User) (fs : list Firm)
  (es : list Event) :
  match analyze_consistency us fs es with
  | ZeroDivisionError => es = []
  | Checked res =>
      es <> []
      /\ invalid_feedback res
         = filter (fun e => feedback_missing e || out_of_range e) es
      /\ len (invalid_feedback res)
         = len (filter feedback_missing es) + len (filter out_of_range es)
  end.
Proof.
  destruct es as [| e es]; [reflexivity |].
  rewrite analyze_consistency_results by discriminate.
  cbn [invalid_feedback].
  assert (E : filter feedback_invalid (e :: es)
              = filter (fun e => feedback_missing e || out_of_range e)
                       (e :: es)).
  { apply filter_same. intros x.
    unfold feedback_invalid, feedback_missing, out_of_range.
    destruct (e_feedback_score x); reflexivity. }
  split; [discriminate |]. split; [exact E |].
  rewrite E, <- !total_ones.
  apply (total_filter_split (fun _ => 1)).
  intros x Hx. unfold feedback_missing, out_of_range in *.
  destruct (e_feedback_score x); [discriminate | reflexivity].
Qed.

Lemma filter_zero {A : Type} (p : A -> bool) (l : list A) :
  (forall x, In x l -> p x = false) -> filter p l = [].
Proof.
  induction l as [| a l IH]; intros H; [reflexivity |].
  cbn. rewrite (H a (or_introl eq_refl)).
  apply IH. intros x Hx. apply H. right. exact Hx.
Qed.

Lemma users_with_unique_id (us : list User) (uid : Z) :
  NoDup (map u_user_id us) ->
  (List.length (users_with_id us uid) <= 1)%nat.
Proof.
  intros Hnd. unfold users_with_id.
  induction us as [| u us IHu]; cbn; [lia |].
  inversion Hnd as [| ? ? Hnot Hrest]; subst.
  destruct (Z.eqb_spec (u_user_id u) uid) as [E | E].
  - cbn. replace (filter _ us) with (@nil User); [cbn; lia |].
    symmetry. apply filter_zero.
    intros x Hx. apply Z.eqb_neq. intros Ex. apply Hnot.
    rewrite E, <- Ex. apply in_map. exact Hx.
  - apply IHu. exact Hrest.
Qed.

Lemma merge_left_unique_users (us : list User) (es : list Event) :
  NoDup (map u_user_id us) ->
  map fst (merge_left_users es us) = es.
Proof.
  intros Hnd. unfold merge_left_users.
  induction es as [| e es IH]; [reflexivity |].
  cbn [flat_map]. rewrite map_app, IH.
  pose proof (users_with_unique_id us (e_user_id e) Hnd) as Hone.
  destruct (users_with_id us (e_user_id e)) as [| u [| u' l]];
    cbn in Hone; try lia; reflexivity.
Qed.

(** X24: When no two users share an id, the timeline check flags an event at
    most once, so its findings are no more than the events. *)
Theorem timeline_issues_at_most_events (us : list User) (fs : list Firm)
  (es : list Event) (res : ConsistencyResults) :
  NoDup (map u_user_id us) ->
  analyze_consistency us fs es = Checked res ->
  len (timeline_issues res) <= len es.
Proof.
  intros Hnd H. destruct es as [| e es]; [discriminate |].
  rewrite analyze_consistency_results in H by discriminate.
  injection H as <-. cbn [timeline_issues].
  pose proof (f_equal (@List.length Event)
                (merge_left_unique_users us (e :: es) Hnd)) as Hl.
  rewrite length_map in Hl.
  pose proof (filter_length_le before_creation
                (merge_left_users (e :: es) us)) as Hf.
  unfold len. rewrite <- Hl. apply inj_le. exact Hf.
Qed.

Lemma timeline_issues_at_most_events_witness :
  exists res,
    analyze_consistency sample_users sample_firms
                        (early_event :: sample_events) = Checked res
    /\ len (timeline_issues res) = 1
    /\ len (timeline_issues res) <= len (early_event :: sample_events).
Proof.
  eexists. split; [vm_compute; reflexivity |].
  split; [reflexivity |].
  apply (timeline_issues_at_most_events
           sample_users sample_firms (early_event :: sample_events)).
  - vm_compute. repeat constructor; cbn; intuition discriminate.
  - vm_compute. reflexivity.
Defined.

(** With two users of the same id the left merge repeats the event, and
    one event can be flagged more than once. *)
Lemma timeline_issues_with_duplicated_users :
  exists res,
    analyze_consistency duplicated_users sample_firms [early_event]
    = Checked res
    /\ len (timeline_issues res) = 2.
Proof. eexists. split; vm_compute; reflexivity. Qed.

Lemma merged_row_of_event (us : list User) (es : list Event) (e : Event)
  (created : Timestamp) :
  In (e, Some created) (merge_left_users es us) ->
  In e es
  /\ exists u, In u (users_with_id us (e_user_id e))
               /\ u_user_created_date u = created.
Proof.
  unfold merge_left_users. intros H.
  apply in_flat_map in H as (e0 & He0 & H).
  destruct (users_with_id us (e_user_id e0)) as [| u l] eqn:E.
  - destruct H as [H | []]. discriminate.
  - rewrite <- E in H. apply in_map_iff in H as (u' & Hu' & Hin).
    injection Hu' as -> <-. split; [exact He0 |].
    exists u'. split; [exact Hin | reflexivity].
Qed.

(** X25: When no two users share an id, an event that the timeline check flags
    has a negative tenure in the per-event performance table and is
    counted there as an event of a New User. *)
Theorem timeline_issues_are_new_user_events (us : list User)
  (fs : list Firm) (es : list Event) (res : ConsistencyResults)
  (data : list PerformanceRow) :
  NoDup (map u_user_id us) ->
  analyze_consistency us fs es = Checked res ->
  event_performance_data us fs es = Ok data ->
  Forall2 (fun e r =>
             In e (map fst (timeline_issues res)) ->
             p_user_tenure_days r < 0 /\ p_user_segment r = NewUser)
          es data.
Proof.
  intros Hnd Hres Hdata.
  assert (Hne : es <> []) by (intros ->; discriminate).
  rewrite (analyze_consistency_results us fs es Hne) in Hres.
  injection Hres as <-. cbn [timeline_issues].
  apply derived_rows_joined in Hdata.
  eapply Forall2_impl; [| exact Hdata]. intros e r Hj Hin.
  destruct Hj as (_ & _ & _ & _ & _ & _ & (u & rest & Hu & _ & Ht)
                  & _ & Hseg & _).
  apply in_map_iff in Hin as ([e' c] & He' & Hin). cbn in He'. subst e'.
  apply filter_In in Hin as [Hin Hb].
  unfold before_creation in Hb. cbn [fst snd] in Hb.
  destruct c as [created |]; [| discriminate].
  apply Z.ltb_lt in Hb.
  apply merged_row_of_event in Hin as (_ & u' & Hu' & Hc).
  pose proof (users_with_unique_id us (e_user_id e) Hnd) as Hone.
  rewrite Hu in Hu', Hone.
  destruct rest as [| ? ?]; [| cbn in Hone; lia].
  destruct Hu' as [<- | []].
  assert (Hneg : p_user_tenure_days r < 0).
  { rewrite Ht, Hc. apply timedelta_days_negative. exact Hb. }
  split; [exact Hneg |].
  rewrite Hseg. unfold user_segment.
  destruct (Z.leb_spec (p_user_tenure_days r) 7); [reflexivity | lia].
Qed.

Lemma timeline_issues_are_new_user_events_witness :
  exists res data,
    analyze_consistency sample_users sample_firms
                        (early_event :: sample_events) = Checked res
    /\ event_performance_data sample_users sample_firms
                              (early_event :: sample_events) = Ok data
    /\ map fst (timeline_issues res) = [early_event]
    /\ Forall2 (fun e r =>
                  In e (map fst (timeline_issues res)) ->
                  p_user_tenure_days r < 0 /\ p_user_segment r = NewUser)
               (early_event :: sample_events) data.
Proof.
  eexists. eexists.
  split; [vm_compute; reflexivity |].
  split; [vm_compute; reflexivity |].
  split; [reflexivity |].
  apply (timeline_issues_are_new_user_events
           sample_users sample_firms (early_event :: sample_events)).
  - vm_compute. repeat constructor; cbn; intuition discriminate.
  - vm_compute. reflexivity.
  - vm_compute. reflexivity.
Defined.

(* ================================================================== *)
(** ** Users without events *)

Lemma events_of_user_nil (es : list Event) (uid : Z) :
  events_of_user es uid = [] <-> ~ In uid (map e_user_id es).
Proof.
  unfold events_of_user. induction es as [| e es IH]; cbn.
  - split; [intros _ [] | reflexivity].
  - destruct (Z.eqb_spec (e_user_id e) uid) as [E | E].
    + split; [discriminate | intros H; exfalso; apply H; left; exact E].
    + rewrite IH. split; [intros H [H' | H']; auto | intros H H'; auto].
Qed.

Lemma orphaned_users_spec (us : list User) (es : list Event) (u : User) :
  In u (orphaned_users us es)
  <-> In u us /\ events_of_user es (u_user_id u) = [].
Proof.
  unfold orphaned_users. rewrite filter_In, events_of_user_nil.
  apply and_iff_compat_l. rewrite negb_true_iff.
  split.
  - intros H Hin. apply In_unique in Hin.
    assert (Ht : existsb (Z.eqb (u_user_id u)) (unique (map e_user_id es))
                 = true).
    { apply existsb_exists. exists (u_user_id u).
      split; [exact Hin | apply Z.eqb_refl]. }
    congruence.
  - intros H. destruct (existsb _ _) eqn:E; [| reflexivity].
    apply existsb_exists in E as (x & Hx & Ex).
    apply Z.eqb_eq in Ex. subst x. apply unique_In in Hx. contradiction.
Qed.

Lemma for_each_image {A B : Type} (body : A -> result B) (xs : list A)
  (rs : list B) (x : A) :
  for_each body xs = Ok rs -> In x xs ->
  exists r, In r rs /\ body x = Ok r.
Proof.
  intros H. apply for_each_Ok in H.
  induction H as [| x' r xs rs Hx _ IH]; intros Hin; [destruct Hin |].
  destruct Hin as [-> | Hin].
  - exists r. cbn. auto.
  - destruct (IH Hin) as (r' & ? & ?). exists r'. cbn. auto.
Qed.

(** X26: The orphaned users of the anomaly check are the users whose
    acquisition record shows no activity (not activated, no events, no
    first activity), and the users without a row in the cohort table. *)
Theorem orphaned_users_have_no_activity (us : list User) (es : list Event)
  (rows : list AcquisitionRow) (crows : list CohortRow) (u : User) :
  acquisition_data us es = Ok rows ->
  cohort_data us es = Ok crows ->
  In u us ->
  (In u (orphaned_users us es) <-> not_activated rows (u_user_id u))
  /\ (In u (orphaned_users us es)
      <-> ~ In (u_user_id u) (map coh_user_id crows)).
Proof.
  intros Hrows Hcrows Hu.
  assert (Huid : In (u_user_id u) (unique (map u_user_id us)))
    by (apply In_unique, in_map; exact Hu).
  rewrite orphaned_users_spec. split.
  - unfold acquisition_data in Hrows. split.
    + intros [_ Hnil].
      destruct (for_each_image _ _ _ _ Hrows Huid) as (r & Hr & Er).
      exists r. split; [exact Hr |].
      unfold acquisition_record in Er.
      destruct (iloc0 (users_with_id us (u_user_id u))) as [info |];
        [| discriminate].
      cbn in Er. injection Er as <-. rewrite Hnil. cbn. auto.
    + intros (r & Hr & Hid & _ & Htot & _). split; [exact Hu |].
      destruct (for_each_In _ _ _ _ Hrows Hr) as (uid & _ & Er).
      unfold acquisition_record in Er.
      destruct (iloc0 (users_with_id us uid)) as [info |]; [| discriminate].
      cbn in Er. injection Er as <-. cbn in Hid, Htot. subst uid.
      apply len_zero. exact Htot.
  - assert (Hact : In (u_user_id u) (map coh_user_id crows)
                   <-> In (u_user_id u) (active_ids us es)).
    { pose proof (cohort_keys_of_active_users us es crows Hcrows) as Hk.
      apply (f_equal (map fst)) in Hk. rewrite map_map in Hk.
      change (map coh_user_id crows
              = map fst (flat_map (fun uid => map (pair uid) [0; 1; 2; 3; 4; 5])
                                  (active_ids us es))) in Hk.
      rewrite Hk. rewrite in_map_iff. split.
      - intros ([uid m] & E & Hin). cbn in E. subst uid.
        apply in_flat_map in Hin as (uid & Huid' & Hin).
        apply in_map_iff in Hin as (m' & E & _). injection E as -> _.
        exact Huid'.
      - intros Hin. exists (u_user_id u, 0). split; [reflexivity |].
        apply in_flat_map. exists (u_user_id u). split; [exact Hin |].
        cbn. auto. }
    rewrite Hact. unfold active_ids. rewrite filter_In, negb_true_iff.
    rewrite Z.eqb_neq, len_zero. split.
    + intros [_ Hnil] [_ Hne]. contradiction.
    + intros H. split; [exact Hu |].
      destruct (events_of_user es (u_user_id u)) as [| e l] eqn:E;
        [reflexivity |].
      exfalso. apply H. split; [exact Huid | discriminate].
Qed.

Lemma orphaned_users_have_no_activity_witness :
  exists rows crows,
    acquisition_data (idle_user :: sample_users) sample_events = Ok rows
    /\ cohort_data (idle_user :: sample_users) sample_events = Ok crows
    /\ orphaned_users (idle_user :: sample_users) sample_events
       = [idle_user]
    /\ not_activated rows (u_user_id idle_user)
    /\ ~ In (u_user_id idle_user) (map coh_user_id crows).
Proof.
  eexists. eexists.
  split; [vm_compute; reflexivity |].
  split; [vm_compute; reflexivity |].
  split; [reflexivity |].
  assert (Hin : In idle_user (idle_user :: sample_users))
    by (left; reflexivity).
  assert (Ho : In idle_user
                  (orphaned_users (idle_user :: sample_users)
                                  sample_events))
    by (left; reflexivity).
  destruct (orphaned_users_have_no_activity
              (idle_user :: sample_users) sample_events _ _ idle_user
              eq_refl eq_refl Hin) as [H1 H2].
  split; [apply H1; exact Ho | apply H2; exact Ho].
Defined.

(* ================================================================== *)
(** ** Dtypes of concatenated columns *)

Lemma common_dtype_all (d : dtype) (ds : list dtype) :
  ds <> [] -> Forall (eq d) ds ->
  common_dtype ds = match d with Int64 => Int64 | Float64 => Float64
                                 | Object => Object end.
Proof.
  intros Hne H. destruct ds as [| x ds]; [contradiction |].
  assert (Hx : d = x) by (inversion H; assumption).
  assert (Hrest : Forall (eq d) ds) by (inversion H; assumption).
  subst x. clear H Hne.
  unfold common_dtype.
  assert (Hall : forall p : dtype -> bool,
             forallb p (d :: ds) = p d).
  { intros p. induction Hrest as [| y ds Hy _ IH].
    - cbn [forallb]. apply andb_true_r.
    - subst y. cbn [forallb] in *. rewrite IH.
      destruct (p d); reflexivity. }
  rewrite !Hall. destruct d; reflexivity.
Qed.

Lemma dtype_of_int (cells : list cell) :
  forallb is_int cells = true -> dtype_of cells = Int64.
Proof. intros H. unfold dtype_of. rewrite H. reflexivity. Qed.

Lemma dtype_of_object (cells : list cell) :
  cells <> [] -> forallb object_cell cells = true -> dtype_of cells = Object.
Proof.
  intros Hne H. destruct cells as [| c cells]; [contradiction |].
  cbn [forallb] in H. apply andb_true_iff in H as [Hc _].
  unfold object_cell in Hc. apply andb_true_iff in Hc as [Hi Hf].
  apply negb_true_iff in Hi, Hf.
  unfold dtype_of. cbn [forallb]. rewrite Hi, Hf. reflexivity.
Qed.

Lemma dtype_of_float (cells : list cell) :
  cells <> [] -> forallb is_float cells = true -> dtype_of cells = Float64.
Proof.
  intros Hne H. destruct cells as [| c cells]; [contradiction |].
  unfold dtype_of. rewrite H.
  cbn [forallb] in *. apply andb_true_iff in H as [Hc _].
  destruct c; try discriminate. reflexivity.
Qed.

Lemma number_cells_not_null (cells : list cell) :
  cells <> [] -> forallb number_cell cells = true ->
  forallb is_null cells = false.
Proof.
  intros Hne H. destruct cells as [| c cells]; [contradiction |].
  cbn [forallb] in *. apply andb_true_iff in H as [Hc _].
  destruct c as [| | [| |] | | |]; try discriminate. reflexivity.
Qed.

Lemma number_cells_float (cells : list cell) :
  forallb number_cell cells = true -> forallb is_float cells = true.
Proof.
  intros H. rewrite forallb_forall in *. intros c Hc.
  specialize (H c Hc). destruct c; try discriminate. reflexivity.
Qed.

Lemma none_cells_null (cells : list cell) :
  forallb is_none cells = true -> forallb is_null cells = true.
Proof.
  intros H. rewrite forallb_forall in *. intros c Hc.
  specialize (H c Hc). destruct c; try discriminate. reflexivity.
Qed.

Lemma none_cells_object (cells : list cell) :
  forallb is_none cells = true -> forallb object_cell cells = true.
Proof.
  intros H. rewrite forallb_forall in *. intros c Hc.
  specialize (H c Hc). destruct c; try discriminate. reflexivity.
Qed.

(** Three integer columns make an integer column. *)
Lemma result_dtype_int (a b c : list cell) :
  forallb is_int a = true -> forallb is_int b = true ->
  forallb is_int c = true ->
  result_dtype [Some a; Some b; Some c] = Int64.
Proof.
  intros Ha Hb Hc. unfold result_dtype. cbn [dropna existsb orb].
  set (present := [a; b; c]).
  assert (Hp : Forall (fun cells => Int64 = dtype_of cells) present)
    by (repeat constructor; symmetry; apply dtype_of_int; assumption).
  set (deciding := filter _ present).
  assert (Hd : Forall (fun cells => Int64 = dtype_of cells) deciding).
  { apply Forall_forall. intros x Hx. apply filter_In in Hx as [Hx _].
    rewrite Forall_forall in Hp. apply Hp, Hx. }
  assert (E : common_dtype
                (map dtype_of
                   (match deciding with [] => present | _ :: _ => deciding end))
              = Int64).
  { destruct deciding as [| x l].
    - apply (common_dtype_all Int64); [discriminate |].
      apply Forall_map. exact Hp.
    - apply (common_dtype_all Int64); [discriminate |].
      apply Forall_map. exact Hd. }
  rewrite E. reflexivity.
Qed.

(** Three object columns with rows make an object column. *)
Lemma result_dtype_object (a b c : list cell) :
  a <> [] -> b <> [] -> c <> [] ->
  forallb object_cell a = true -> forallb object_cell b = true ->
  forallb object_cell c = true ->
  result_dtype [Some a; Some b; Some c] = Object.
Proof.
  intros Na Nb Nc Ha Hb Hc. unfold result_dtype. cbn [dropna existsb orb].
  set (present := [a; b; c]).
  assert (Hp : Forall (fun cells => Object = dtype_of cells) present)
    by (repeat constructor; symmetry; apply dtype_of_object; assumption).
  set (deciding := filter _ present).
  assert (Hd : Forall (fun cells => Object = dtype_of cells) deciding).
  { apply Forall_forall. intros x Hx. apply filter_In in Hx as [Hx _].
    rewrite Forall_forall in Hp. apply Hp, Hx. }
  assert (E : common_dtype
                (map dtype_of
                   (match deciding with [] => present | _ :: _ => deciding end))
              = Object).
  { destruct deciding as [| x l].
    - apply (common_dtype_all Object); [discriminate |].
      apply Forall_map. exact Hp.
    - apply (common_dtype_all Object); [discriminate |].
      apply Forall_map. exact Hd. }
  rewrite E. reflexivity.
Qed.

(** A column of [None] between two columns of numbers: a float column. *)
Lemma result_dtype_numbers (a b c : list cell) :
  a <> [] -> c <> [] ->
  forallb number_cell a = true -> forallb is_none b = true ->
  forallb number_cell c = true ->
  result_dtype [Some a; Some b; Some c] = Float64.
Proof.
  intros Na Nc Ha Hb Hc. unfold result_dtype.
  cbn [dropna existsb orb filter].
  rewrite (number_cells_not_null a Na Ha), (none_cells_null b Hb),
    (number_cells_not_null c Nc Hc).
  cbn [negb map].
  rewrite (dtype_of_float a Na (number_cells_float a Ha)),
    (dtype_of_float c Nc (number_cells_float c Hc)).
  reflexivity.
Qed.

(** A float column between two columns of [None]: a float column when it
    holds a number, an object column when all its cells are NaN. *)
Lemma result_dtype_growth (a b c : list cell) :
  a <> [] -> b <> [] -> c <> [] ->
  forallb is_none a = true -> forallb is_float b = true ->
  forallb is_none c = true ->
  result_dtype [Some a; Some b; Some c]
  = if forallb is_null b then Object else Float64.
Proof.
  intros Na Nb Nc Ha Hb Hc. unfold result_dtype.
  cbn [dropna existsb orb filter].
  rewrite (none_cells_null a Ha), (none_cells_null c Hc).
  destruct (forallb is_null b); cbn [negb map];
    rewrite ?(dtype_of_object a Na (none_cells_object a Ha)),
      ?(dtype_of_object c Nc (none_cells_object c Hc)),
      ?(dtype_of_float b Nb Hb);
    reflexivity.
Qed.

Lemma as_dtype_kept (d : dtype) (c : cell) :
  is_int c = false -> is_none c = false -> as_dtype d c = c.
Proof. intros Hi Hn. destruct d, c; try discriminate; reflexivity. Qed.

(* ================================================================== *)
(** ** The unified table *)

Lemma column_of_map {A : Type} (labels : list string) (f : A -> list cell)
  (rows : list A) (label : string) :
  existsb (String.eqb label) labels = true ->
  column_of (mkFrame labels (map f rows)) label
  = Some (map (fun r => cell_at labels (f r) label) rows).
Proof.
  intros H. unfold column_of, has_column. cbn [columns records].
  rewrite H, map_map. reflexivity.
Qed.

Lemma forallb_map_of {A : Type} (P : A -> Prop) (p : cell -> bool)
  (f : A -> cell) (l : list A) :
  Forall P l -> (forall r, P r -> p (f r) = true) ->
  forallb p (map f l) = true.
Proof.
  intros H Hp. induction H as [| r l Hr _ IH]; [reflexivity |].
  cbn [map forallb]. rewrite (Hp r Hr), IH. reflexivity.
Qed.

Lemma map_nonempty {A B : Type} (f : A -> B) (l : list A) :
  l <> [] -> map f l <> [].
Proof. destruct l; [contradiction | discriminate]. Qed.

(** Case analysis on a row of a known shape. *)
Ltac by_shape :=
  let r := fresh "r" in
  let H := fresh "H" in
  intros r H; destruct r as [c m]; destruct H as [_ H];
  cbn [core by_grain] in H; destruct m; try contradiction;
  repeat match goal with
         | x : pyfloat |- _ => destruct x; try contradiction
         end;
  reflexivity.

Lemma weekly_growth_null (weekly : list MetricsRow) :
  Forall weekly_shape weekly ->
  forallb is_null
    (map (fun r => cell_at weekly_union_labels (weekly_union_record r)
                           "week_over_week_growth_pct") weekly)
  = negb (existsb growth_is_number weekly).
Proof.
  induction 1 as [| r l Hr _ IH]; [reflexivity |].
  cbn [map forallb existsb]. rewrite IH, negb_orb. f_equal.
  revert r Hr. by_shape.
Qed.

(** The dtypes of the columns of the unified table. *)
Lemma concat_dtypes (daily weekly monthly : list MetricsRow) :
  Forall daily_shape daily -> Forall weekly_shape weekly ->
  Forall monthly_shape monthly ->
  daily <> [] -> weekly <> [] -> monthly <> [] ->
  dtypes_resolved
    (fun label =>
       result_dtype
         (map (fun df => column_of df label)
              [mkFrame daily_union_labels (map daily_union_record daily);
               mkFrame weekly_union_labels (map weekly_union_record weekly);
               mkFrame monthly_union_labels
                       (map monthly_union_record monthly)]))
    (null_growth weekly).
Proof.
  intros Hd Hw Hm Nd Nw Nm. unfold dtypes_resolved. cbn [map].
  rewrite !column_of_map by reflexivity.
  repeat match goal with |- _ /\ _ => split end.
  1-6: apply result_dtype_int;
    [apply (forallb_map_of daily_shape); [exact Hd | by_shape]
    | apply (forallb_map_of weekly_shape); [exact Hw | by_shape]
    | apply (forallb_map_of monthly_shape); [exact Hm | by_shape]].
  1-3: apply result_dtype_object;
    [apply map_nonempty; assumption | apply map_nonempty; assumption
    | apply map_nonempty; assumption
    | apply (forallb_map_of daily_shape); [exact Hd |]
    | apply (forallb_map_of weekly_shape); [exact Hw | by_shape]
    | apply (forallb_map_of monthly_shape); [exact Hm |]].
  1-6: try by_shape;
    intros [c m] [_ H]; cbn [core by_grain] in H;
    destruct m as [[s |] d e | | [s |] e d sp vp]; try contradiction;
    reflexivity.
  1-2: apply result_dtype_numbers;
    [apply map_nonempty; assumption | apply map_nonempty; assumption
    | apply (forallb_map_of daily_shape); [exact Hd | by_shape]
    | apply (forallb_map_of weekly_shape); [exact Hw | by_shape]
    | apply (forallb_map_of monthly_shape); [exact Hm | by_shape]].
  rewrite result_dtype_growth;
    [| apply map_nonempty; assumption | apply map_nonempty; assumption
     | apply map_nonempty; assumption
     | apply (forallb_map_of daily_shape); [exact Hd | by_shape]
     | apply (forallb_map_of weekly_shape); [exact Hw | by_shape]
     | apply (forallb_map_of monthly_shape); [exact Hm | by_shape]].
  rewrite (weekly_growth_null weekly Hw). unfold null_growth.
  destruct (existsb growth_is_number weekly); reflexivity.
Qed.

Lemma concat_frames_records (daily weekly monthly : list (list cell)) :
  let frames := [mkFrame daily_union_labels daily;
                 mkFrame weekly_union_labels weekly;
                 mkFrame monthly_union_labels monthly] in
  let dtype_for label :=
    result_dtype (map (fun df => column_of df label) frames) in
  records (concat_frames frames)
  = map (concat_row dtype_for daily_union_labels) daily
    ++ map (concat_row dtype_for weekly_union_labels) weekly
    ++ map (concat_row dtype_for monthly_union_labels) monthly.
Proof.
  cbv zeta. unfold concat_frames. cbn [records flat_map].
  rewrite app_nil_r. reflexivity.
Qed.

Section ConcatRows.
Variable dtype_for : string -> dtype.
Variable growth : cell.
Hypothesis resolved : dtypes_resolved dtype_for growth.

Ltac resolve_dtypes :=
  destruct resolved
    as (E1 & E2 & E3 & E4 & E5 & E6 & E7 & E8 & E9 & E10 & E11 & E12);
  cbn;
  rewrite ?E1, ?E2, ?E3, ?E4, ?E5, ?E6, ?E7, ?E8, ?E9, ?E10, ?E11, ?E12;
  cbn [as_dtype];
  rewrite ?as_dtype_kept by reflexivity;
  reflexivity.

Lemma concat_row_daily (r : MetricsRow) :
  daily_shape r ->
  concat_row dtype_for daily_union_labels (daily_union_record r)
  = daily_combined_record growth r.
Proof.
  intros [_ H]. destruct r as [c m]. cbn [by_grain] in H.
  destruct m as [s d e | |]; try contradiction.
  unfold concat_row, daily_union_record, daily_combined_record.
  resolve_dtypes.
Qed.

Lemma concat_row_weekly (r : MetricsRow) :
  weekly_shape r ->
  concat_row dtype_for weekly_union_labels (weekly_union_record r)
  = weekly_combined_record r.
Proof.
  intros [_ H]. destruct r as [c m]. cbn [by_grain] in H.
  destruct m as [| p g |]; try contradiction.
  unfold concat_row, weekly_union_record, weekly_combined_record.
  resolve_dtypes.
Qed.

Lemma concat_row_monthly (r : MetricsRow) :
  monthly_shape r ->
  concat_row dtype_for monthly_union_labels (monthly_union_record r)
  = monthly_combined_record growth r.
Proof.
  intros [_ H]. destruct r as [c m]. cbn [by_grain] in H.
  destruct m as [| | s e d sp vp]; try contradiction.
  unfold concat_row, monthly_union_record, monthly_combined_record.
  resolve_dtypes.
Qed.
End ConcatRows.

(** The rows of the unified table, in closed form. *)
Lemma concat_records_closed (daily weekly monthly : list MetricsRow) :
  Forall daily_shape daily -> Forall weekly_shape weekly ->
  Forall monthly_shape monthly ->
  daily <> [] -> weekly <> [] -> monthly <> [] ->
  records
    (concat_frames
       [mkFrame daily_union_labels (map daily_union_record daily);
        mkFrame weekly_union_labels (map weekly_union_record weekly);
        mkFrame monthly_union_labels (map monthly_union_record monthly)])
  = map (daily_combined_record (null_growth weekly)) daily
    ++ map weekly_combined_record weekly
    ++ map (monthly_combined_record (null_growth weekly)) monthly.
Proof.
  intros Hd Hw Hm Nd Nw Nm.
  pose proof (concat_dtypes daily weekly monthly Hd Hw Hm Nd Nw Nm) as Hdt.
  rewrite concat_frames_records. cbv zeta.
  set (dtype_for := fun label : string => result_dtype _) in *.
  rewrite !map_map.
  f_equal; [| f_equal]; apply map_ext_in; intros r Hr.
  - apply (concat_row_daily dtype_for _ Hdt).
    rewrite Forall_forall in Hd. apply Hd, Hr.
  - apply (concat_row_weekly dtype_for _ Hdt).
    rewrite Forall_forall in Hw. apply Hw, Hr.
  - apply (concat_row_monthly dtype_for _ Hdt).
    rewrite Forall_forall in Hm. apply Hm, Hr.
Qed.

Lemma daily_rows_shape (data : list PerformanceRow) :
  Forall daily_shape (map daily_record (grain_groups Daily data)).
Proof.
  apply Forall_map.
  eapply Forall_impl; [| apply (grain_groups_nonempty Daily)].
  intros grp Hne. unfold daily_shape, daily_record. cbn [core by_grain].
  split; [apply aggregate_time_grain |].
  pose proof (group_users_nonzero Daily grp Hne) as Hu.
  destruct (per_user_finite
              (total_documents_processed (aggregate Daily grp))
              _ Hu) as [q1 ->].
  destruct (per_user_finite (total_events (aggregate Daily grp)) _ Hu)
    as [q2 ->].
  exact I.
Qed.

Lemma monthly_rows_shape (data : list PerformanceRow) :
  Forall monthly_shape (map monthly_record (grain_groups Monthly data)).
Proof.
  apply Forall_map.
  eapply Forall_impl; [| apply (grain_groups_nonempty Monthly)].
  intros grp Hne. unfold monthly_shape, monthly_record. cbn [core by_grain].
  split; [apply aggregate_time_grain |].
  pose proof (group_users_nonzero Monthly grp Hne) as Hu.
  destruct (per_user_finite
              (total_documents_processed (aggregate Monthly grp))
              _ Hu) as [q1 ->].
  destruct (per_user_finite (total_events (aggregate Monthly grp)) _ Hu)
    as [q2 ->].
  exact I.
Qed.

Lemma zip_with_Forall {A B C : Type} (P : C -> Prop) (f : A -> B -> C)
  (l : list A) (m : list B) :
  (forall a b, P (f a b)) -> Forall P (zip_with f l m).
Proof.
  intros H. revert m. induction l as [| a l IH]; intros [| b m];
    cbn [zip_with]; constructor; auto.
Qed.

Lemma weekly_rows_shape (groups : list (GroupKey * list PerformanceRow)) :
  Forall weekly_shape (weekly_records groups).
Proof.
  pose proof (weekly_records_grain groups) as Hg.
  assert (Hm : Forall (fun r => match by_grain r with
                                | WeeklyMetrics _ _ => True
                                | _ => False
                                end) (weekly_records groups))
    by (apply zip_with_Forall; intros c p; exact I).
  rewrite Forall_forall in *. intros r Hr.
  split; [apply Hg, Hr | apply Hm, Hr].
Qed.

(** The three per-grain tables have rows together or not at all. *)
Lemma grain_groups_empty (g : Grain) (data : list PerformanceRow) :
  grain_groups g data = [] <-> filter keys_not_null data = [].
Proof.
  unfold grain_groups.
  rewrite <- (filter_same _ keys_not_null data (has_key_keys_not_null g)).
  split; intros H.
  - pose proof (group_rows_sizes compare_key (key_of g) data) as Hs.
    rewrite H in Hs. apply len_zero. symmetry. exact Hs.
  - apply group_rows_no_key. apply Forall_forall. intros r Hr.
    destruct (key_of g r) as [k |] eqn:E; [| reflexivity].
    assert (Hin : In r (filter (has_key (key_of g)) data)).
    { apply filter_In. split; [exact Hr |].
      unfold has_key. rewrite E. reflexivity. }
    rewrite H in Hin. destruct Hin.
Qed.

Lemma weekly_records_empty (groups : list (GroupKey * list PerformanceRow)) :
  weekly_records groups = [] <-> groups = [].
Proof.
  pose proof (f_equal (@List.length CoreMetrics)
                (weekly_records_core groups)) as H.
  rewrite !length_map in H.
  split; intros E.
  - rewrite E in H. destruct groups; [reflexivity | discriminate].
  - rewrite E. reflexivity.
Qed.

(** The rows of the unified table of a per-event table. *)
Lemma combined_rows_closed (data : list PerformanceRow) :
  let t := tables_of data in
  let growth := null_growth (records (weekly_table t)) in
  records (combined_metrics t)
  = map (daily_combined_record growth) (records (daily_table t))
    ++ map weekly_combined_record (records (weekly_table t))
    ++ map (monthly_combined_record growth) (records (monthly_table t)).
Proof.
  cbv zeta.
  cbn [tables_of combined_metrics daily_table weekly_table monthly_table
       records].
  destruct (filter keys_not_null data) as [| r l] eqn:E.
  - pose proof (proj2 (grain_groups_empty Daily data) E) as ->.
    pose proof (proj2 (grain_groups_empty Weekly data) E) as ->.
    pose proof (proj2 (grain_groups_empty Monthly data) E) as ->.
    reflexivity.
  - assert (Hne : forall g, grain_groups g data <> []).
    { intros g H. apply grain_groups_empty in H. congruence. }
    apply concat_records_closed.
    + apply daily_rows_shape.
    + apply weekly_rows_shape.
    + apply monthly_rows_shape.
    + apply map_nonempty, Hne.
    + intros H. apply weekly_records_empty in H. exact (Hne Weekly H).
    + apply map_nonempty, Hne.
Qed.

(** C2: with no event at all the per-event table is built from an empty
    list of records and has no columns, so the first aggregation, the daily
    one, raises a key fault for [event_date]: no grain yields groups and no
    combined table is produced.  With at least one event, and once the
    per-event table is derived, all three aggregations succeed and the
    union is the concatenation of the daily, the weekly and the monthly
    frame, in that order, each widened to the shared columns, which are
    the columns of the result; its rows are the daily rows, then the
    weekly rows, then the monthly rows, each with a null under the labels
    its grain lacks. *)
Theorem aggregation_of_event_set (us : list User) (fs : list Firm)
  (es : list Event) :
  snd (event_performance_tables (load_harvey_data us fs es))
  = match es with
    | [] => Raise (KeyError "event_date")
    | _ :: _ =>
        data <- event_performance_data us fs es ;;
        Ok {| daily_table :=
                mkFrame daily_metrics_columns
                        (map daily_record (grain_groups Daily data));
              weekly_table :=
                mkFrame weekly_metrics_columns
                        (weekly_records (grain_groups Weekly data));
              monthly_table :=
                mkFrame monthly_metrics_columns
                        (map monthly_record (grain_groups Monthly data));
              combined_metrics := combined_metrics (tables_of data) |}
    end
  /\ snd (simulate_event_performance_metrics (load_harvey_data us fs es))
     = match es with
       | [] => Raise (KeyError "event_date")
       | _ :: _ =>
           data <- event_performance_data us fs es ;;
           Ok (concat_frames
                 [mkFrame daily_union_labels
                    (map daily_union_record
                       (map daily_record (grain_groups Daily data)));
                  mkFrame weekly_union_labels
                    (map weekly_union_record
                       (weekly_records (grain_groups Weekly data)));
                  mkFrame monthly_union_labels
                    (map monthly_union_record
                       (map monthly_record (grain_groups Monthly data)))])
       end
  /\ (forall daily weekly monthly,
         columns (concat_frames [mkFrame daily_union_labels daily;
                                 mkFrame weekly_union_labels weekly;
                                 mkFrame monthly_union_labels monthly])
         = combined_columns)
  /\ (forall data,
         let daily := map daily_record (grain_groups Daily data) in
         let weekly := weekly_records (grain_groups Weekly data) in
         let monthly := map monthly_record (grain_groups Monthly data) in
         records (combined_metrics (tables_of data))
         = map (daily_combined_record (null_growth weekly)) daily
           ++ map weekly_combined_record weekly
           ++ map (monthly_combined_record (null_growth weekly)) monthly).
Proof.
  unfold simulate_event_performance_metrics.
  pose proof (event_performance_tables_closed us fs es) as H.
  destruct (event_performance_tables (load_harvey_data us fs es))
    as [st' tables].
  cbn [snd] in *. subst tables.
  split; [| split; [| split; [reflexivity | apply combined_rows_closed]]].
  - destruct es as [| e es]; [reflexivity |].
    destruct (event_performance_data us fs (e :: es)); reflexivity.
  - destruct es as [| e es]; [reflexivity |].
    destruct (event_performance_data us fs (e :: es)); reflexivity.
Qed.

(** An empty event set makes the aggregation fail. *)
Lemma empty_event_set_raises :
  snd (event_performance_tables
         (load_harvey_data sample_users sample_firms []))
  = Raise (KeyError "event_date")
  /\ ~ (exists combined,
          snd (simulate_event_performance_metrics
                 (load_harvey_data sample_users sample_firms []))
          = Ok combined).
Proof. split; [reflexivity | intros [c H]; discriminate H]. Qed.

Lemma null_growth_null (weekly : list MetricsRow) :
  is_null (null_growth weekly) = true.
Proof. unfold null_growth. destruct (existsb _ _); reflexivity. Qed.

Lemma daily_combined_well_formed (growth : cell) (r : MetricsRow) :
  is_null growth = true -> daily_shape r ->
  row_well_formed (daily_combined_record growth r)
  /\ cell_at combined_columns (daily_combined_record growth r) "time_grain"
     = PyStr "daily".
Proof.
  intros Hg [Ht H]. destruct r as [c m]. cbn [core by_grain] in Ht, H.
  destruct m as [s [| | d] [| | e] | |]; try contradiction.
  unfold row_well_formed, daily_combined_record. cbn. rewrite Ht. cbn.
  split; [| reflexivity]. split; [reflexivity |]. right.
  split; [left; reflexivity |].
  split; [exists d; reflexivity |]. split; [exists e; reflexivity |].
  exact Hg.
Qed.

Lemma monthly_combined_well_formed (growth : cell) (r : MetricsRow) :
  is_null growth = true -> monthly_shape r ->
  row_well_formed (monthly_combined_record growth r)
  /\ cell_at combined_columns (monthly_combined_record growth r)
             "time_grain"
     = PyStr "monthly".
Proof.
  intros Hg [Ht H]. destruct r as [c m]. cbn [core by_grain] in Ht, H.
  destruct m as [| | s [| | e] [| | d] sp vp]; try contradiction.
  unfold row_well_formed, monthly_combined_record. cbn. rewrite Ht. cbn.
  split; [| reflexivity]. split; [reflexivity |]. right.
  split; [right; reflexivity |].
  split; [exists d; reflexivity |]. split; [exists e; reflexivity |].
  exact Hg.
Qed.

Lemma weekly_combined_well_formed (r : MetricsRow) :
  weekly_shape r ->
  row_well_formed (weekly_combined_record r)
  /\ cell_at combined_columns (weekly_combined_record r) "time_grain"
     = PyStr "weekly".
Proof.
  intros [Ht H]. destruct r as [c m]. cbn [core by_grain] in Ht, H.
  destruct m as [| p g |]; try contradiction.
  unfold row_well_formed, weekly_combined_record. cbn. rewrite Ht. cbn.
  split; [| reflexivity]. split; [reflexivity |]. left.
  repeat split.
Qed.

Lemma weekly_union_marked (r : MetricsRow) :
  weekly_marked weekly_union_labels (weekly_union_record r).
Proof.
  unfold weekly_marked.
  repeat (apply Forall_cons;
          [split; [cbn; tauto | destruct r as [c m]; reflexivity] |]).
  apply Forall_nil.
Qed.

(** C4: whenever the unified table is produced it has the twenty shared
    columns and a cell under each of them in every row; its rows are the
    daily rows tagged daily, then the weekly rows tagged weekly, then the
    monthly rows tagged monthly.  On every daily and monthly row the two
    per-user ratios are numbers.  The union step assigns [None] to the
    weekly frame under [user_segment], [documents_per_user],
    [events_per_user] and the two performance labels; in the unified table
    a weekly row holds [None] under the three labels of object columns and
    NaN under the two ratios, whose columns are float columns.  Neither
    null is the number zero. *)
Theorem unified_table_rows (us : list User) (fs : list Firm)
  (es : list Event) (tables : PerformanceTables) :
  snd (event_performance_tables (load_harvey_data us fs es)) = Ok tables ->
  let combined := combined_metrics tables in
  columns combined = combined_columns
  /\ map (fun row => cell_at combined_columns row "time_grain")
         (records combined)
     = repeat (PyStr "daily") (List.length (records (daily_table tables)))
       ++ repeat (PyStr "weekly")
                 (List.length (records (weekly_table tables)))
       ++ repeat (PyStr "monthly")
                 (List.length (records (monthly_table tables)))
  /\ Forall row_well_formed (records combined)
  /\ (exists daily_union weekly_union monthly_union,
         union_frames (daily_table tables) (weekly_table tables)
                      (monthly_table tables)
         = Ok (daily_union, weekly_union, monthly_union)
         /\ Forall (weekly_marked (columns weekly_union))
                   (records weekly_union)
         /\ combined
            = concat_frames [daily_union; weekly_union; monthly_union])
  /\ PyNone <> PyInt 0 /\ PyNone <> PyFloat (Fin 0)
  /\ PyFloat NaN <> PyFloat (Fin 0).
Proof.
  intros H.
  apply event_performance_tables_Ok in H as (data & _ & _ & ->).
  cbv zeta. split; [reflexivity |].
  rewrite (combined_rows_closed data). cbv zeta.
  set (growth := null_growth _).
  assert (Hg : is_null growth = true) by apply null_growth_null.
  cbn [tables_of daily_table weekly_table monthly_table records].
  assert (D1 : Forall row_well_formed
                  (map (daily_combined_record growth)
                       (map daily_record (grain_groups Daily data)))).
  { apply Forall_map.
    eapply Forall_impl; [| apply (daily_rows_shape data)].
    intros r Hr. apply (daily_combined_well_formed growth r Hg Hr). }
  assert (W1 : Forall row_well_formed
                  (map weekly_combined_record
                       (weekly_records (grain_groups Weekly data)))).
  { apply Forall_map.
    eapply Forall_impl;
      [| apply (weekly_rows_shape (grain_groups Weekly data))].
    intros r Hr. apply (weekly_combined_well_formed r Hr). }
  assert (M1 : Forall row_well_formed
                  (map (monthly_combined_record growth)
                       (map monthly_record (grain_groups Monthly data)))).
  { apply Forall_map.
    eapply Forall_impl; [| apply (monthly_rows_shape data)].
    intros r Hr. apply (monthly_combined_well_formed growth r Hg Hr). }
  split; [| split; [| split; [| repeat split; discriminate]]].
  - rewrite !map_app.
    f_equal; [| f_equal];
      (erewrite map_constant;
       [rewrite !length_map; reflexivity | apply Forall_map]).
    + eapply Forall_impl; [| apply (daily_rows_shape data)].
      intros r Hr. apply (daily_combined_well_formed growth r Hg Hr).
    + eapply Forall_impl;
        [| apply (weekly_rows_shape (grain_groups Weekly data))].
      intros r Hr. apply (weekly_combined_well_formed r Hr).
    + eapply Forall_impl; [| apply (monthly_rows_shape data)].
      intros r Hr. apply (monthly_combined_well_formed growth r Hg Hr).
  - rewrite !Forall_app. split; [exact D1 | split; [exact W1 | exact M1]].
  - eexists. eexists. eexists.
    split; [apply union_frames_closed |].
    split; [| reflexivity].
    cbn [columns records]. apply Forall_map, Forall_forall.
    intros r _. apply weekly_union_marked.
Qed.

Lemma unified_table_rows_witness :
  exists tables,
    snd (event_performance_tables sample_store) = Ok tables
    /\ List.length (records (daily_table tables)) = 8%nat
    /\ List.length (records (weekly_table tables)) = 3%nat
    /\ List.length (records (monthly_table tables)) = 3%nat
    /\ List.length (records (combined_metrics tables)) = 14%nat
    /\ Forall row_well_formed (records (combined_metrics tables)).
Proof.
  eexists. split; [vm_compute; reflexivity |].
  do 4 (split; [reflexivity |]).
  apply (unified_table_rows sample_users sample_firms sample_events).
  vm_compute. reflexivity.
Defined.
